(** * arduclock: GPS clock sketches, timezone and DST logic

    Shallow embedding of the three sketches of the repository:
    - [AutoTz]   : gps_clock_auto_timezone (automatic timezone from location),
    - [TzDst]    : gps_clock_tz_dst (timezone and DST chosen by switches),
    - [Original] : original/clock_dst_tz.ino (fixed offset, DST pin).

    Integers of the AVR target are modelled as [Z] with the wrap-around of
    [uint8_t] and [uint32_t] written out; [int] expressions are kept in [Z]
    where the values stay far below 2^15.  C's [/] and [%] are [Z.quot] and
    [Z.rem].  Coordinates are rationals: the sketches only compare them. *)

From Equations Require Import Equations.
From Stdlib Require Import ZArith Zquot List Bool Lia QArith Lqa String.
Import ListNotations.

Local Open Scope Z_scope.

(** ** Machine integers *)

Definition uint8 (z : Z) : Z := z mod 256.
Definition uint32 (z : Z) : Z := z mod 4294967296.

(** ** Civil calendar (reference for the Sunday rules)

    Day counting from Saturday 2000-01-01, independent of the sketch's
    congruence.  Weekdays are numbered with Sunday = 0. *)

Module Calendar.

Definition is_leap (y : Z) : bool :=
  ((y mod 4 =? 0) && negb (y mod 100 =? 0)) || (y mod 400 =? 0).

Definition days_in_month (y m : Z) : Z :=
  if m =? 2 then (if is_leap y then 29 else 28)
  else if (m =? 4) || (m =? 6) || (m =? 9) || (m =? 11) then 30
  else 31.

Definition days_in_year (y : Z) : Z := if is_leap y then 366 else 365.

(** Days in the years 2000 .. 2000+n-1. *)
Fixpoint days_before_year (n : nat) : Z :=
  match n with
  | O => 0
  | S k => days_before_year k + days_in_year (2000 + Z.of_nat k)
  end.

(** Days in the months 1 .. n of year [y]. *)
Fixpoint days_before_month (y : Z) (n : nat) : Z :=
  match n with
  | O => 0
  | S k => days_before_month y k + days_in_month y (Z.of_nat (S k))
  end.

(** Days elapsed since 2000-01-01, for a year 2000+[yy]. *)
Definition day_number (yy m d : Z) : Z :=
  days_before_year (Z.to_nat yy)
  + days_before_month (2000 + yy) (Z.to_nat (m - 1))
  + (d - 1).

(** 2000-01-01 was a Saturday (weekday 6). *)
Definition weekday (yy m d : Z) : Z := (6 + day_number yy m d) mod 7.

Definition is_sunday (yy m d : Z) : bool := weekday yy m d =? 0.

(** The days of the month (1..31) that are Sundays, in order. *)
Definition sundays (yy m : Z) : list Z :=
  filter (is_sunday yy m)
         (map Z.of_nat (seq 1 (Z.to_nat (days_in_month (2000 + yy) m)))).

Definition first_sunday (yy m : Z) : Z := nth 0 (sundays yy m) 0.
Definition second_sunday (yy m : Z) : Z := nth 1 (sundays yy m) 0.

End Calendar.

(** ** Objects shared by the sketches *)

(** Level read from a digital pin. *)
Inductive Level : Type := LOW | HIGH.

Definition isLOW (l : Level) : bool :=
  match l with LOW => true | HIGH => false end.

(** The fields of the Adafruit_GPS object that the sketches read.  The
    integer fields are [uint8_t]; the coordinates are decimal degrees.
    [fix_] is the member [fix]. *)
Module Gps.
Record t : Type := mk {
  hour : Z;
  minute : Z;
  seconds : Z;
  day : Z;
  month : Z;
  year : Z;
  fix_ : bool;
  latitudeDegrees : Q;
  longitudeDegrees : Q
}.
End Gps.

(** Calls made on the Adafruit_7segment object, in program order. *)
Inductive DisplayCall : Type :=
| Print (value : Z)
| DrawColon (on : bool)
| WriteDigitNum (position digit : Z)
| Clear
| WriteDisplay
| SetBrightness (level : Z)
| Begin (address : Z).

(** ** gps_clock_auto_timezone *)

Module AutoTz.

Definition TIME_24_HOUR : bool := false.
Definition DISPLAY_UPDATE_MS : Z := 100.
Definition TIMEZONE_CHECK_MS : Z := 1000.
Definition LOCATION_CHECK_MS : Z := 30000.

Record Timezone : Type := mkTimezone {
  name : string;
  abbreviation : string;
  utcOffset : Z;
  observesDST : bool;
  dstOffset : Z;
  minLat : Q;
  maxLat : Q;
  minLon : Q;
  maxLon : Q
}.

Definition TIMEZONES : list Timezone :=
  [ mkTimezone "Pacific Standard" "PST" (-8) true 1 32 49 (-125) (-114);
    mkTimezone "Mountain Standard" "MST" (-7) true 1 31 49 (-114) (-104);
    mkTimezone "Central Standard" "CST" (-6) true 1 25 49 (-104) (-87);
    mkTimezone "Eastern Standard" "EST" (-5) true 1 24 49 (-87) (-67);
    mkTimezone "Atlantic Standard" "AST" (-4) false 0 44 60 (-70) (-53);
    mkTimezone "Hawaii Standard" "HST" (-10) false 0 18 23 (-161) (-154);
    mkTimezone "Alaska Standard" "AKST" (-9) true 1 54 72 (-180) (-130);
    mkTimezone "UTC" "UTC" 0 false 0 (-90) 90 (-180) 180 ].

Definition NUM_TIMEZONES : Z := uint8 (Z.of_nat (List.length TIMEZONES)).

(** [TIMEZONES[i]].  Reading past the array is undefined in C; the index
    invariant below shows it never happens, and the model reads the last
    entry there. *)
Definition TIMEZONES_at (i : Z) : Timezone :=
  nth (Z.to_nat i) TIMEZONES
      (mkTimezone "UTC" "UTC" 0 false 0 (-90) 90 (-180) 180).

Record ClockState : Type := mkClockState {
  lastUpdate : Z;
  lastTimezoneCheck : Z;
  lastLocationCheck : Z;
  colonState : bool;
  gpsFixValid : bool;
  hours : Z;
  minutes : Z;
  seconds : Z;
  currentTimezoneIndex : Z;
  isDSTActive : bool;
  dstSwitchState : bool;
  timezoneSwitchState : Z;
  autoModeEnabled : bool;
  lastLat : Q;
  lastLon : Q;
  locationChanged : bool
}.

(** The default member initialisers of [struct ClockState]. *)
Definition clockState0 : ClockState :=
  mkClockState 0 0 0 false false 0 0 0 0 false false 0 true 0 0 false.

(** Assignments to single members. *)
Definition set_lastUpdate v (s : ClockState) :=
  mkClockState v (lastTimezoneCheck s) (lastLocationCheck s) (colonState s)
    (gpsFixValid s) (hours s) (minutes s) (seconds s)
    (currentTimezoneIndex s) (isDSTActive s) (dstSwitchState s)
    (timezoneSwitchState s) (autoModeEnabled s) (lastLat s) (lastLon s)
    (locationChanged s).
Definition set_lastTimezoneCheck v (s : ClockState) :=
  mkClockState (lastUpdate s) v (lastLocationCheck s) (colonState s)
    (gpsFixValid s) (hours s) (minutes s) (seconds s)
    (currentTimezoneIndex s) (isDSTActive s) (dstSwitchState s)
    (timezoneSwitchState s) (autoModeEnabled s) (lastLat s) (lastLon s)
    (locationChanged s).
Definition set_lastLocationCheck v (s : ClockState) :=
  mkClockState (lastUpdate s) (lastTimezoneCheck s) v (colonState s)
    (gpsFixValid s) (hours s) (minutes s) (seconds s)
    (currentTimezoneIndex s) (isDSTActive s) (dstSwitchState s)
    (timezoneSwitchState s) (autoModeEnabled s) (lastLat s) (lastLon s)
    (locationChanged s).
Definition set_gpsFixValid v (s : ClockState) :=
  mkClockState (lastUpdate s) (lastTimezoneCheck s) (lastLocationCheck s)
    (colonState s) v (hours s) (minutes s) (seconds s)
    (currentTimezoneIndex s) (isDSTActive s) (dstSwitchState s)
    (timezoneSwitchState s) (autoModeEnabled s) (lastLat s) (lastLon s)
    (locationChanged s).
Definition set_hours v (s : ClockState) :=
  mkClockState (lastUpdate s) (lastTimezoneCheck s) (lastLocationCheck s)
    (colonState s) (gpsFixValid s) v (minutes s) (seconds s)
    (currentTimezoneIndex s) (isDSTActive s) (dstSwitchState s)
    (timezoneSwitchState s) (autoModeEnabled s) (lastLat s) (lastLon s)
    (locationChanged s).
Definition set_minutes v (s : ClockState) :=
  mkClockState (lastUpdate s) (lastTimezoneCheck s) (lastLocationCheck s)
    (colonState s) (gpsFixValid s) (hours s) v (seconds s)
    (currentTimezoneIndex s) (isDSTActive s) (dstSwitchState s)
    (timezoneSwitchState s) (autoModeEnabled s) (lastLat s) (lastLon s)
    (locationChanged s).
Definition set_seconds v (s : ClockState) :=
  mkClockState (lastUpdate s) (lastTimezoneCheck s) (lastLocationCheck s)
    (colonState s) (gpsFixValid s) (hours s) (minutes s) v
    (currentTimezoneIndex s) (isDSTActive s) (dstSwitchState s)
    (timezoneSwitchState s) (autoModeEnabled s) (lastLat s) (lastLon s)
    (locationChanged s).
Definition set_currentTimezoneIndex v (s : ClockState) :=
  mkClockState (lastUpdate s) (lastTimezoneCheck s) (lastLocationCheck s)
    (colonState s) (gpsFixValid s) (hours s) (minutes s) (seconds s)
    v (isDSTActive s) (dstSwitchState s)
    (timezoneSwitchState s) (autoModeEnabled s) (lastLat s) (lastLon s)
    (locationChanged s).
Definition set_isDSTActive v (s : ClockState) :=
  mkClockState (lastUpdate s) (lastTimezoneCheck s) (lastLocationCheck s)
    (colonState s) (gpsFixValid s) (hours s) (minutes s) (seconds s)
    (currentTimezoneIndex s) v (dstSwitchState s)
    (timezoneSwitchState s) (autoModeEnabled s) (lastLat s) (lastLon s)
    (locationChanged s).
Definition set_dstSwitchState v (s : ClockState) :=
  mkClockState (lastUpdate s) (lastTimezoneCheck s) (lastLocationCheck s)
    (colonState s) (gpsFixValid s) (hours s) (minutes s) (seconds s)
    (currentTimezoneIndex s) (isDSTActive s) v
    (timezoneSwitchState s) (autoModeEnabled s) (lastLat s) (lastLon s)
    (locationChanged s).
Definition set_timezoneSwitchState v (s : ClockState) :=
  mkClockState (lastUpdate s) (lastTimezoneCheck s) (lastLocationCheck s)
    (colonState s) (gpsFixValid s) (hours s) (minutes s) (seconds s)
    (currentTimezoneIndex s) (isDSTActive s) (dstSwitchState s)
    v (autoModeEnabled s) (lastLat s) (lastLon s)
    (locationChanged s).
Definition set_autoModeEnabled v (s : ClockState) :=
  mkClockState (lastUpdate s) (lastTimezoneCheck s) (lastLocationCheck s)
    (colonState s) (gpsFixValid s) (hours s) (minutes s) (seconds s)
    (currentTimezoneIndex s) (isDSTActive s) (dstSwitchState s)
    (timezoneSwitchState s) v (lastLat s) (lastLon s)
    (locationChanged s).
Definition set_lastLat v (s : ClockState) :=
  mkClockState (lastUpdate s) (lastTimezoneCheck s) (lastLocationCheck s)
    (colonState s) (gpsFixValid s) (hours s) (minutes s) (seconds s)
    (currentTimezoneIndex s) (isDSTActive s) (dstSwitchState s)
    (timezoneSwitchState s) (autoModeEnabled s) v (lastLon s)
    (locationChanged s).
Definition set_lastLon v (s : ClockState) :=
  mkClockState (lastUpdate s) (lastTimezoneCheck s) (lastLocationCheck s)
    (colonState s) (gpsFixValid s) (hours s) (minutes s) (seconds s)
    (currentTimezoneIndex s) (isDSTActive s) (dstSwitchState s)
    (timezoneSwitchState s) (autoModeEnabled s) (lastLat s) v
    (locationChanged s).
Definition set_locationChanged v (s : ClockState) :=
  mkClockState (lastUpdate s) (lastTimezoneCheck s) (lastLocationCheck s)
    (colonState s) (gpsFixValid s) (hours s) (minutes s) (seconds s)
    (currentTimezoneIndex s) (isDSTActive s) (dstSwitchState s)
    (timezoneSwitchState s) (autoModeEnabled s) (lastLat s) (lastLon s)
    v.

(** *** Time composition *)

Definition getCurrentTimezone (s : ClockState) : Timezone :=
  TIMEZONES_at (currentTimezoneIndex s).

Definition getTimezoneOffset (s : ClockState) : Z :=
  utcOffset (getCurrentTimezone s).

Definition getDSTOffset (s : ClockState) : Z :=
  let tz := getCurrentTimezone s in
  if negb (observesDST tz) then 0
  else if isDSTActive s then dstOffset tz else 0.

Definition calculateTimezoneOffset (s : ClockState) : Z :=
  getTimezoneOffset s + getDSTOffset s.

(** [while (hours < 0) hours += 24;] *)
Equations? add24_while (hours : Z) : Z by wf (Z.to_nat (- hours)) lt :=
  add24_while hours with Z_lt_dec hours 0 := {
    | left _ => add24_while (hours + 24)
    | right _ => hours }.
Proof. lia. Qed.

(** [while (hours >= 24) hours -= 24;] *)
Equations? sub24_while (hours : Z) : Z by wf (Z.to_nat hours) lt :=
  sub24_while hours with Z_ge_dec hours 24 := {
    | left _ => sub24_while (hours - 24)
    | right _ => hours }.
Proof. lia. Qed.

Definition normalizeHours (hours : Z) : Z :=
  sub24_while (add24_while hours).

Definition updateTimeFromGPS (gps : Gps.t) (s : ClockState) : ClockState :=
  let totalOffset := calculateTimezoneOffset s in
  let adjustedHours := Gps.hour gps + totalOffset in
  let adjustedHours := normalizeHours adjustedHours in
  set_seconds (Gps.seconds gps)
    (set_minutes (Gps.minute gps)
      (set_hours (uint8 adjustedHours) s)).

Definition convertTo12Hour (hours24 : Z) : Z :=
  if hours24 =? 0 then 12
  else if hours24 >? 12 then hours24 - 12
  else hours24.

(** *** Display *)

(** The global objects of the sketch: [clockState], [gps], the two
    [static] locals of [showNoGPSIndicator], and the calls received so far
    by [display].  Serial output is diagnostic only and is left out. *)
Record World : Type := mkWorld {
  clockState : ClockState;
  gps : Gps.t;
  lastBlink : Z;
  blinkState : bool;
  display : list DisplayCall
}.

Definition with_clockState (s : ClockState) (w : World) : World :=
  mkWorld s (gps w) (lastBlink w) (blinkState w) (display w).

Definition with_gps (g : Gps.t) (w : World) : World :=
  mkWorld (clockState w) g (lastBlink w) (blinkState w) (display w).

Definition emit (calls : list DisplayCall) (w : World) : World :=
  mkWorld (clockState w) (gps w) (lastBlink w) (blinkState w)
          (display w ++ calls).

(** What one pass of [loop] reads from outside: the pins, the values
    returned by each [millis()] call, whether a sentence arrived and, if so,
    the result of [gps.parse] together with the content of [gps] after it,
    and the outcome of the floating-point tolerance test of
    [updateGPSData]. *)
Record Input : Type := mkInput {
  DST_PIN : Level;
  TIMEZONE_PIN_A : Level;
  TIMEZONE_PIN_B : Level;
  TIMEZONE_PIN_C : Level;
  AUTO_MODE_PIN : Level;
  nmea : option (bool * Gps.t);
  movedBeyondTolerance : bool;
  millis_locationTest : Z;
  millis_locationStamp : Z;
  millis_timezoneTest : Z;
  millis_timezoneStamp : Z;
  millis_displayTest : Z;
  millis_displayStamp : Z;
  millis_blinkTest : Z;
  millis_blinkStamp : Z
}.

Definition showNoGPSIndicator (inp : Input) (w : World) : World :=
  if uint32 (millis_blinkTest inp - lastBlink w) >=? 500 then
    let blinkState' := negb (blinkState w) in
    let lastBlink' := millis_blinkStamp inp in
    let calls :=
      (if blinkState' then [Print 0; DrawColon true] else [Clear])
      ++ [WriteDisplay] in
    mkWorld (clockState w) (gps w) lastBlink' blinkState'
            (display w ++ calls)
  else w.

(** The calls of [updateDisplay] once the fix is known to be valid. *)
Definition renderTime (s : ClockState) : list DisplayCall :=
  let displayHours := hours s in
  let displayHours :=
    if negb TIME_24_HOUR then convertTo12Hour displayHours
    else displayHours in
  let displayValue := displayHours * 100 + minutes s in
  let showColon := Z.rem (seconds s) 2 =? 0 in
  [Print displayValue]
  ++ (if TIME_24_HOUR && (hours s <? 10)
      then WriteDigitNum 1 0
           :: (if minutes s <? 10 then [WriteDigitNum 3 0] else [])
      else [])
  ++ [DrawColon showColon; WriteDisplay].

Definition updateDisplay (inp : Input) (w : World) : World :=
  if negb (gpsFixValid (clockState w)) then showNoGPSIndicator inp w
  else emit (renderTime (clockState w)) w.

(** *** Timezone from location *)

Definition inBounds (tz : Timezone) (lat lon : Q) : bool :=
  Qle_bool (minLat tz) lat && Qle_bool lat (maxLat tz)
  && Qle_bool (minLon tz) lon && Qle_bool lon (maxLon tz).

(** The [for] loop of [detectTimezoneFromLocation], entered with counter
    [i]. *)
Equations? detectLoop (lat lon : Q) (i : Z) : Z
  by wf (Z.to_nat (NUM_TIMEZONES - 1 - i)) lt :=
  detectLoop lat lon i with Z_lt_dec i (NUM_TIMEZONES - 1) := {
    | left _ =>
        if inBounds (TIMEZONES_at i) lat lon then i
        else detectLoop lat lon (uint8 (i + 1))
    | right _ => NUM_TIMEZONES - 1 }.
Proof.
  change (Z.to_nat (NUM_TIMEZONES - 1 - uint8 (i + 1))
          < Z.to_nat (NUM_TIMEZONES - 1 - i))%nat.
  assert (HN : NUM_TIMEZONES - 1 < 256) by reflexivity.
  unfold uint8. destruct (Z_lt_dec i 0) as [Hneg|Hpos].
  - pose proof (Z.mod_pos_bound (i + 1) 256 eq_refl). lia.
  - rewrite Z.mod_small by lia. lia.
Qed.

Definition detectTimezoneFromLocation (lat lon : Q) : Z :=
  detectLoop lat lon 0.

(** *** Daylight saving *)

Definition calculateFirstSunday (month year : Z) : Z :=
  let fullYear := uint8 (2000 + year) in
  let adjustedMonth := month in
  let adjustedYear := fullYear in
  let adjustedMonth :=
    if month <? 3 then uint8 (adjustedMonth + 12) else adjustedMonth in
  let adjustedYear :=
    if month <? 3 then uint8 (adjustedYear - 1) else adjustedYear in
  let dayOfWeek :=
    uint8 (Z.rem (1 + Z.quot (13 * (adjustedMonth + 1)) 5 + adjustedYear
                  + Z.quot adjustedYear 4 - Z.quot adjustedYear 100
                  + Z.quot adjustedYear 400) 7) in
  let dayOfWeek := uint8 (Z.rem (dayOfWeek + 5) 7) in
  if dayOfWeek =? 0 then 1
  else uint8 (8 - dayOfWeek).

Definition calculateSecondSunday (month year : Z) : Z :=
  let firstSunday := calculateFirstSunday month year in
  uint8 (firstSunday + 7).

Definition calculateDSTAuto (g : Gps.t) (s : ClockState) : bool :=
  if negb (gpsFixValid s) then false
  else
    let tz := getCurrentTimezone s in
    if negb (observesDST tz) then false
    else
      let month := Gps.month g in
      let day := Gps.day g in
      let year := Gps.year g in
      if (month <? 3) || (month >? 11) then false
      else if (month >? 3) && (month <? 11) then true
      else
        let dstStartDay := calculateSecondSunday 3 year in
        let dstEndDay := calculateFirstSunday 11 year in
        if month =? 3 then day >=? dstStartDay
        else if month =? 11 then day <? dstEndDay
        else false.

(** *** Switches (manual mode) *)

(** [selector % NUM_TIMEZONES], stored in the [uint8_t] index. *)
Definition manualIndex (selector : Z) : Z :=
  uint8 (Z.rem selector NUM_TIMEZONES).

(** The three selector pins assembled with [|=]. *)
Definition readTimezoneSwitches (inp : Input) : Z :=
  let newTimezoneState := 0 in
  let newTimezoneState :=
    if isLOW (TIMEZONE_PIN_A inp) then Z.lor newTimezoneState 1
    else newTimezoneState in
  let newTimezoneState :=
    if isLOW (TIMEZONE_PIN_B inp) then Z.lor newTimezoneState 2
    else newTimezoneState in
  let newTimezoneState :=
    if isLOW (TIMEZONE_PIN_C inp) then Z.lor newTimezoneState 4
    else newTimezoneState in
  newTimezoneState.

(** The two comparisons of [updateTimezoneSettings] on the values read. *)
Definition applySwitches (newTimezoneState : Z) (newDSTState : bool)
           (s : ClockState) : ClockState :=
  let s :=
    if negb (newTimezoneState =? timezoneSwitchState s) then
      set_currentTimezoneIndex (manualIndex newTimezoneState)
        (set_timezoneSwitchState newTimezoneState s)
    else s in
  if negb (Bool.eqb newDSTState (dstSwitchState s)) then
    set_isDSTActive newDSTState (set_dstSwitchState newDSTState s)
  else s.

Definition updateTimezoneSettings (inp : Input) (s : ClockState)
  : ClockState :=
  if autoModeEnabled s then s
  else
    let newTimezoneState := readTimezoneSwitches inp in
    let newDSTState := isLOW (DST_PIN inp) in
    applySwitches newTimezoneState newDSTState s.

Definition updateTimezoneIfNeeded (inp : Input) (s : ClockState)
  : ClockState :=
  if uint32 (millis_timezoneTest inp - lastTimezoneCheck s)
     >=? TIMEZONE_CHECK_MS
  then set_lastTimezoneCheck (millis_timezoneStamp inp)
         (updateTimezoneSettings inp s)
  else s.

(** *** Location (auto mode) *)

(** The body of [if (newTimezoneIndex != clockState.currentTimezoneIndex)]. *)
Definition switchTimezone (g : Gps.t) (newTimezoneIndex : Z)
           (s : ClockState) : ClockState :=
  let s := set_currentTimezoneIndex newTimezoneIndex s in
  if observesDST (getCurrentTimezone s)
  then set_isDSTActive (calculateDSTAuto g s) s
  else set_isDSTActive false s.

Definition updateLocationIfNeeded (inp : Input) (g : Gps.t)
           (s : ClockState) : ClockState :=
  if negb (gpsFixValid s) then s
  else
    let s :=
      if (uint32 (millis_locationTest inp - lastLocationCheck s)
          >=? LOCATION_CHECK_MS) || locationChanged s
      then
        let s :=
          if locationChanged s || Qeq_bool (lastLat s) 0 then
            let newTimezoneIndex :=
              detectTimezoneFromLocation (Gps.latitudeDegrees g)
                                         (Gps.longitudeDegrees g) in
            let s :=
              if negb (newTimezoneIndex =? currentTimezoneIndex s)
              then switchTimezone g newTimezoneIndex s
              else s in
            set_locationChanged false
              (set_lastLon (Gps.longitudeDegrees g)
                (set_lastLat (Gps.latitudeDegrees g) s))
          else s in
        set_lastLocationCheck (millis_locationStamp inp) s
      else s in
    let newAutoMode := isLOW (AUTO_MODE_PIN inp) in
    if negb (Bool.eqb newAutoMode (autoModeEnabled s)) then
      let s := set_autoModeEnabled newAutoMode s in
      if negb (autoModeEnabled s) then updateTimezoneSettings inp s
      else s
    else s.

(** *** GPS *)

Definition updateGPSData (inp : Input) (w : World) : World :=
  match nmea inp with
  | None => w
  | Some (parsed, g) =>
      let w := with_gps g w in
      if parsed then
        let s := set_gpsFixValid (Gps.fix_ g) (clockState w) in
        let s :=
          if gpsFixValid s then
            let s := updateTimeFromGPS g s in
            if movedBeyondTolerance inp then set_locationChanged true s
            else s
          else s in
        with_clockState s w
      else w
  end.

(** *** setup and loop *)

Definition initializeDisplay (w : World) : World :=
  emit [Begin 112; SetBrightness 15; Print 8888; DrawColon true;
        WriteDisplay; Clear; WriteDisplay] w.

Definition initializePins (inp : Input) (s : ClockState) : ClockState :=
  let s := set_autoModeEnabled (isLOW (AUTO_MODE_PIN inp)) s in
  if negb (autoModeEnabled s) then updateTimezoneSettings inp s
  else s.

(** The state before [setup]: default members, nothing displayed; [g] is
    the content of the freshly constructed GPS object. *)
Definition power_on (g : Gps.t) : World :=
  mkWorld clockState0 g 0 false [].

Definition setup (inp : Input) (w : World) : World :=
  let w := initializeDisplay w in
  with_clockState (initializePins inp (clockState w)) w.

Definition loop (inp : Input) (w : World) : World :=
  let w := updateGPSData inp w in
  let s := clockState w in
  let s :=
    if autoModeEnabled s then updateLocationIfNeeded inp (gps w) s
    else updateTimezoneIfNeeded inp s in
  let w := with_clockState s w in
  if uint32 (millis_displayTest inp - lastUpdate (clockState w))
     >=? DISPLAY_UPDATE_MS
  then
    let w := updateDisplay inp w in
    with_clockState (set_lastUpdate (millis_displayStamp inp) (clockState w)) w
  else w.

(** States the sketch can be in: after [setup], then after any number of
    passes of [loop], whatever is read from outside. *)
Inductive reachable : World -> Prop :=
| reachable_setup : forall g inp, reachable (setup inp (power_on g))
| reachable_loop : forall inp w, reachable w -> reachable (loop inp w).

(** *** Labels and world clock *)

Definition getTimezoneDisplayName (s : ClockState) : string :=
  let tz := getCurrentTimezone s in
  let name := abbreviation tz in
  if observesDST tz && isDSTActive s then
    if String.eqb name "PST" then "PDT"
    else if String.eqb name "MST" then "MDT"
    else if String.eqb name "CST" then "CDT"
    else if String.eqb name "EST" then "EDT"
    else if String.eqb name "AKST" then "AKDT"
    else String.append name "D"
  else name.

(** [while (totalMinutes < 0) totalMinutes += 24 * 60;] *)
Equations? addDay_while (totalMinutes : Z) : Z
  by wf (Z.to_nat (- totalMinutes)) lt :=
  addDay_while totalMinutes with Z_lt_dec totalMinutes 0 := {
    | left _ => addDay_while (totalMinutes + 24 * 60)
    | right _ => totalMinutes }.
Proof. lia. Qed.

(** [while (totalMinutes >= 24 * 60) totalMinutes -= 24 * 60;] *)
Equations? subDay_while (totalMinutes : Z) : Z
  by wf (Z.to_nat totalMinutes) lt :=
  subDay_while totalMinutes with Z_ge_dec totalMinutes (24 * 60) := {
    | left _ => subDay_while (totalMinutes - 24 * 60)
    | right _ => totalMinutes }.
Proof. lia. Qed.

(** The reference parameters [localHour] and [localMinute] are passed in
    and returned as a pair.  For [uint8_t] arguments the [int] arithmetic
    stays below 2^15. *)
Definition convertUTCToTimezone (utcHour utcMinute timezoneIndex : Z)
           (localHour localMinute : Z) (useDST : bool) : Z * Z :=
  if timezoneIndex >=? NUM_TIMEZONES then (localHour, localMinute)
  else
    let tz := TIMEZONES_at timezoneIndex in
    let offset := utcOffset tz in
    let offset :=
      if useDST && observesDST tz then offset + dstOffset tz else offset in
    let totalMinutes := utcHour * 60 + utcMinute + offset * 60 in
    let totalMinutes := addDay_while totalMinutes in
    let totalMinutes := subDay_while totalMinutes in
    (uint8 (Z.quot totalMinutes 60), uint8 (Z.rem totalMinutes 60)).

(** The values printed on one line of [showWorldClock]. *)
Record WorldClockLine : Type := mkWorldClockLine {
  line_abbreviation : string;
  line_useDST : bool;
  line_localHour : Z;
  line_localMinute : Z;
  line_name : string
}.

(** The indices visited by [for (uint8_t i = 0; i < NUM_TIMEZONES; i++)]. *)
Definition timezoneIndices : list Z :=
  map Z.of_nat (seq 0 (Z.to_nat NUM_TIMEZONES)).

(** [showWorldClock]: [None] when it prints "No GPS fix for world clock",
    otherwise the lines of the table, in order.  [localHour0] and
    [localMinute0] stand for the uninitialised locals handed to
    [convertUTCToTimezone]. *)
Definition showWorldClock (localHour0 localMinute0 : Z) (g : Gps.t)
           (s : ClockState) : option (list WorldClockLine) :=
  if negb (gpsFixValid s) then None
  else
    Some (map (fun i =>
                 let useDST :=
                   observesDST (TIMEZONES_at i) && calculateDSTAuto g s in
                 let '(localHour, localMinute) :=
                   convertUTCToTimezone (Gps.hour g) (Gps.minute g) i
                                        localHour0 localMinute0 useDST in
                 mkWorldClockLine (abbreviation (TIMEZONES_at i)) useDST
                                  localHour localMinute
                                  (name (TIMEZONES_at i)))
              timezoneIndices).

End AutoTz.

(** ** gps_clock_tz_dst *)

Module TzDst.

Record Timezone : Type := mkTimezone {
  name : string;
  abbreviation : string;
  utcOffset : Z;
  observesDST : bool;
  dstOffset : Z
}.

Definition TIMEZONES : list Timezone :=
  [ mkTimezone "Pacific Standard" "PST" (-8) true 1;
    mkTimezone "Mountain Standard" "MST" (-7) true 1;
    mkTimezone "Central Standard" "CST" (-6) true 1;
    mkTimezone "Eastern Standard" "EST" (-5) true 1;
    mkTimezone "Atlantic Standard" "AST" (-4) false 0;
    mkTimezone "Hawaii Standard" "HST" (-10) false 0;
    mkTimezone "Alaska Standard" "AKST" (-9) true 1;
    mkTimezone "UTC" "UTC" 0 false 0 ].

Definition NUM_TIMEZONES : Z := uint8 (Z.of_nat (List.length TIMEZONES)).

Definition TIMEZONES_at (i : Z) : Timezone :=
  nth (Z.to_nat i) TIMEZONES (mkTimezone "UTC" "UTC" 0 false 0).

Record ClockState : Type := mkClockState {
  lastUpdate : Z;
  lastTimezoneCheck : Z;
  colonState : bool;
  gpsFixValid : bool;
  hours : Z;
  minutes : Z;
  seconds : Z;
  currentTimezoneIndex : Z;
  isDSTActive : bool;
  dstSwitchState : bool;
  timezoneSwitchState : Z
}.

Definition getCurrentTimezone (s : ClockState) : Timezone :=
  TIMEZONES_at (currentTimezoneIndex s).

Definition calculateDSTAuto (g : Gps.t) (s : ClockState) : bool :=
  if negb (gpsFixValid s) then false
  else
    let tz := getCurrentTimezone s in
    if negb (observesDST tz) then false
    else
      let month := Gps.month g in
      let day := Gps.day g in
      if (month >=? 4) && (month <=? 10) then true
      else if month =? 3 then day >=? 8
      else if month =? 11 then day <? 7
      else false.

(** The default member initialisers of [struct ClockState]. *)
Definition clockState0 : ClockState :=
  mkClockState 0 0 false false 0 0 0 0 false false 0.

(** Assignments to single members. *)
Definition set_lastUpdate v (s : ClockState) :=
  mkClockState v (lastTimezoneCheck s) (colonState s) (gpsFixValid s)
    (hours s) (minutes s) (seconds s) (currentTimezoneIndex s)
    (isDSTActive s) (dstSwitchState s) (timezoneSwitchState s).
Definition set_lastTimezoneCheck v (s : ClockState) :=
  mkClockState (lastUpdate s) v (colonState s) (gpsFixValid s) (hours s)
    (minutes s) (seconds s) (currentTimezoneIndex s) (isDSTActive s)
    (dstSwitchState s) (timezoneSwitchState s).
Definition set_gpsFixValid v (s : ClockState) :=
  mkClockState (lastUpdate s) (lastTimezoneCheck s) (colonState s) v
    (hours s) (minutes s) (seconds s) (currentTimezoneIndex s)
    (isDSTActive s) (dstSwitchState s) (timezoneSwitchState s).
Definition set_hours v (s : ClockState) :=
  mkClockState (lastUpdate s) (lastTimezoneCheck s) (colonState s)
    (gpsFixValid s) v (minutes s) (seconds s) (currentTimezoneIndex s)
    (isDSTActive s) (dstSwitchState s) (timezoneSwitchState s).
Definition set_minutes v (s : ClockState) :=
  mkClockState (lastUpdate s) (lastTimezoneCheck s) (colonState s)
    (gpsFixValid s) (hours s) v (seconds s) (currentTimezoneIndex s)
    (isDSTActive s) (dstSwitchState s) (timezoneSwitchState s).
Definition set_seconds v (s : ClockState) :=
  mkClockState (lastUpdate s) (lastTimezoneCheck s) (colonState s)
    (gpsFixValid s) (hours s) (minutes s) v (currentTimezoneIndex s)
    (isDSTActive s) (dstSwitchState s) (timezoneSwitchState s).
Definition set_currentTimezoneIndex v (s : ClockState) :=
  mkClockState (lastUpdate s) (lastTimezoneCheck s) (colonState s)
    (gpsFixValid s) (hours s) (minutes s) (seconds s) v (isDSTActive s)
    (dstSwitchState s) (timezoneSwitchState s).
Definition set_isDSTActive v (s : ClockState) :=
  mkClockState (lastUpdate s) (lastTimezoneCheck s) (colonState s)
    (gpsFixValid s) (hours s) (minutes s) (seconds s)
    (currentTimezoneIndex s) v (dstSwitchState s) (timezoneSwitchState s).
Definition set_dstSwitchState v (s : ClockState) :=
  mkClockState (lastUpdate s) (lastTimezoneCheck s) (colonState s)
    (gpsFixValid s) (hours s) (minutes s) (seconds s)
    (currentTimezoneIndex s) (isDSTActive s) v (timezoneSwitchState s).
Definition set_timezoneSwitchState v (s : ClockState) :=
  mkClockState (lastUpdate s) (lastTimezoneCheck s) (colonState s)
    (gpsFixValid s) (hours s) (minutes s) (seconds s)
    (currentTimezoneIndex s) (isDSTActive s) (dstSwitchState s) v.

Definition TIME_24_HOUR : bool := false.
Definition DISPLAY_UPDATE_MS : Z := 100.
Definition TIMEZONE_CHECK_MS : Z := 1000.

Definition getTimezoneOffset (s : ClockState) : Z :=
  utcOffset (getCurrentTimezone s).

Definition getDSTOffset (s : ClockState) : Z :=
  let tz := getCurrentTimezone s in
  if negb (observesDST tz) then 0
  else if isDSTActive s then dstOffset tz else 0.

Definition calculateTimezoneOffset (s : ClockState) : Z :=
  getTimezoneOffset s + getDSTOffset s.

(** The same two loops as in the auto-timezone sketch. *)
Definition normalizeHours (hours : Z) : Z :=
  AutoTz.sub24_while (AutoTz.add24_while hours).

Definition updateTimeFromGPS (g : Gps.t) (s : ClockState) : ClockState :=
  let totalOffset := calculateTimezoneOffset s in
  let adjustedHours := Gps.hour g + totalOffset in
  let adjustedHours := normalizeHours adjustedHours in
  set_seconds (Gps.seconds g)
    (set_minutes (Gps.minute g)
      (set_hours (uint8 adjustedHours) s)).

Definition convertTo12Hour (hours24 : Z) : Z :=
  if hours24 =? 0 then 12
  else if hours24 >? 12 then hours24 - 12
  else hours24.

(** The global objects of the sketch, as in the auto-timezone sketch. *)
Record World : Type := mkWorld {
  clockState : ClockState;
  gps : Gps.t;
  lastBlink : Z;
  blinkState : bool;
  display : list DisplayCall
}.

Definition with_clockState (s : ClockState) (w : World) : World :=
  mkWorld s (gps w) (lastBlink w) (blinkState w) (display w).

Definition with_gps (g : Gps.t) (w : World) : World :=
  mkWorld (clockState w) g (lastBlink w) (blinkState w) (display w).

Definition emit (calls : list DisplayCall) (w : World) : World :=
  mkWorld (clockState w) (gps w) (lastBlink w) (blinkState w)
          (display w ++ calls).

(** What one pass of [loop] reads from outside: the pins, the values of
    the [millis()] calls, and the sentence parsed, if any. *)
Record Input : Type := mkInput {
  DST_PIN : Level;
  TIMEZONE_PIN_A : Level;
  TIMEZONE_PIN_B : Level;
  TIMEZONE_PIN_C : Level;
  nmea : option (bool * Gps.t);
  millis_timezoneTest : Z;
  millis_timezoneStamp : Z;
  millis_displayTest : Z;
  millis_displayStamp : Z;
  millis_blinkTest : Z;
  millis_blinkStamp : Z
}.

Definition showNoGPSIndicator (inp : Input) (w : World) : World :=
  if uint32 (millis_blinkTest inp - lastBlink w) >=? 500 then
    let blinkState' := negb (blinkState w) in
    let lastBlink' := millis_blinkStamp inp in
    let calls :=
      (if blinkState' then [Print 0; DrawColon true] else [Clear])
      ++ [WriteDisplay] in
    mkWorld (clockState w) (gps w) lastBlink' blinkState'
            (display w ++ calls)
  else w.

(** The calls of [updateDisplay] once the fix is known to be valid. *)
Definition renderTime (s : ClockState) : list DisplayCall :=
  let displayHours := hours s in
  let displayHours :=
    if negb TIME_24_HOUR then convertTo12Hour displayHours
    else displayHours in
  let displayValue := displayHours * 100 + minutes s in
  let showColon := Z.rem (seconds s) 2 =? 0 in
  [Print displayValue]
  ++ (if TIME_24_HOUR && (hours s <? 10)
      then WriteDigitNum 1 0
           :: (if minutes s <? 10 then [WriteDigitNum 3 0] else [])
      else [])
  ++ [DrawColon showColon; WriteDisplay].

Definition updateDisplay (inp : Input) (w : World) : World :=
  if negb (gpsFixValid (clockState w)) then showNoGPSIndicator inp w
  else emit (renderTime (clockState w)) w.

(** The three selector pins assembled with [|=]. *)
Definition readTimezoneSwitches (inp : Input) : Z :=
  let newTimezoneState := 0 in
  let newTimezoneState :=
    if isLOW (TIMEZONE_PIN_A inp) then Z.lor newTimezoneState 1
    else newTimezoneState in
  let newTimezoneState :=
    if isLOW (TIMEZONE_PIN_B inp) then Z.lor newTimezoneState 2
    else newTimezoneState in
  let newTimezoneState :=
    if isLOW (TIMEZONE_PIN_C inp) then Z.lor newTimezoneState 4
    else newTimezoneState in
  newTimezoneState.

Definition updateTimezoneSettings (inp : Input) (s : ClockState)
  : ClockState :=
  let newTimezoneState := readTimezoneSwitches inp in
  let newDSTState := isLOW (DST_PIN inp) in
  let s :=
    if negb (newTimezoneState =? timezoneSwitchState s) then
      set_currentTimezoneIndex
        (uint8 (Z.rem newTimezoneState NUM_TIMEZONES))
        (set_timezoneSwitchState newTimezoneState s)
    else s in
  if negb (Bool.eqb newDSTState (dstSwitchState s)) then
    set_isDSTActive newDSTState (set_dstSwitchState newDSTState s)
  else s.

Definition updateTimezoneIfNeeded (inp : Input) (s : ClockState)
  : ClockState :=
  if uint32 (millis_timezoneTest inp - lastTimezoneCheck s)
     >=? TIMEZONE_CHECK_MS
  then set_lastTimezoneCheck (millis_timezoneStamp inp)
         (updateTimezoneSettings inp s)
  else s.

Definition updateGPSData (inp : Input) (w : World) : World :=
  match nmea inp with
  | None => w
  | Some (parsed, g) =>
      let w := with_gps g w in
      if parsed then
        let s := set_gpsFixValid (Gps.fix_ g) (clockState w) in
        let s := if gpsFixValid s then updateTimeFromGPS g s else s in
        with_clockState s w
      else w
  end.

Definition initializeDisplay (w : World) : World :=
  emit [Begin 112; SetBrightness 15; Print 8888; DrawColon true;
        WriteDisplay; Clear; WriteDisplay] w.

Definition initializePins (inp : Input) (s : ClockState) : ClockState :=
  updateTimezoneSettings inp s.

Definition power_on (g : Gps.t) : World :=
  mkWorld clockState0 g 0 false [].

Definition setup (inp : Input) (w : World) : World :=
  let w := initializeDisplay w in
  with_clockState (initializePins inp (clockState w)) w.

Definition loop (inp : Input) (w : World) : World :=
  let w := updateGPSData inp w in
  let w :=
    with_clockState (updateTimezoneIfNeeded inp (clockState w)) w in
  if uint32 (millis_displayTest inp - lastUpdate (clockState w))
     >=? DISPLAY_UPDATE_MS
  then
    let w := updateDisplay inp w in
    with_clockState (set_lastUpdate (millis_displayStamp inp) (clockState w)) w
  else w.

(** States the sketch can be in. *)
Inductive reachable : World -> Prop :=
| reachable_setup : forall g inp, reachable (setup inp (power_on g))
| reachable_loop : forall inp w, reachable w -> reachable (loop inp w).

Definition convertUTCToTimezone (utcHour utcMinute timezoneIndex : Z)
           (localHour localMinute : Z) (useDST : bool) : Z * Z :=
  if timezoneIndex >=? NUM_TIMEZONES then (localHour, localMinute)
  else
    let tz := TIMEZONES_at timezoneIndex in
    let offset := utcOffset tz in
    let offset :=
      if useDST && observesDST tz then offset + dstOffset tz else offset in
    let totalMinutes := utcHour * 60 + utcMinute + offset * 60 in
    let totalMinutes := AutoTz.addDay_while totalMinutes in
    let totalMinutes := AutoTz.subDay_while totalMinutes in
    (uint8 (Z.quot totalMinutes 60), uint8 (Z.rem totalMinutes 60)).

(** The values printed on one line of [showWorldClock]. *)
Record WorldClockLine : Type := mkWorldClockLine {
  line_abbreviation : string;
  line_localHour : Z;
  line_localMinute : Z;
  line_name : string
}.

Definition timezoneIndices : list Z :=
  map Z.of_nat (seq 0 (Z.to_nat NUM_TIMEZONES)).

(** [showWorldClock], which passes [true] for [useDST] on every line. *)
Definition showWorldClock (localHour0 localMinute0 : Z) (g : Gps.t)
           (s : ClockState) : option (list WorldClockLine) :=
  if negb (gpsFixValid s) then None
  else
    Some (map (fun i =>
                 let '(localHour, localMinute) :=
                   convertUTCToTimezone (Gps.hour g) (Gps.minute g) i
                                        localHour0 localMinute0 true in
                 mkWorldClockLine (abbreviation (TIMEZONES_at i))
                                  localHour localMinute
                                  (name (TIMEZONES_at i)))
              timezoneIndices).

End TzDst.

(** ** original/clock_dst_tz.ino *)

Module Original.

Definition TIME_24_HOUR : bool := false.

(** [isDST()]: the level of [dstPin]. *)
Definition isDST (dstPin : Level) : Z :=
  match dstPin with HIGH => 1 | LOW => 0 end.

(** The two [if]s of [loop] that bring [hours] back into the day. *)
Definition wrapHours (hours : Z) : Z :=
  let hours := if hours <? 0 then 24 + hours else hours in
  let hours := if hours >? 23 then 24 - hours else hours in
  hours.

Section Loop.

(** The macro [HOUR_OFFSET], which the sketch asks its user to set to the
    local offset; it ships as -8. *)
Variable HOUR_OFFSET : Z.

Definition timeZone : Z := HOUR_OFFSET.

(** [hours] as left by the first statements of [loop]. *)
Definition localHours (g : Gps.t) (dstPin : Level) : Z :=
  let hours := Gps.hour g + timeZone + isDST dstPin in
  wrapHours hours.

(** One pass of [loop] after the sentence is parsed: the calls made on
    [clockDisplay]. *)
Definition loop (g : Gps.t) (dstPin : Level) : list DisplayCall :=
  let hours := localHours g dstPin in
  let minutes := Gps.minute g in
  let seconds := Gps.seconds g in
  let displayValue := hours * 100 + minutes in
  let displayValue :=
    if negb TIME_24_HOUR then
      if hours >? 12 then displayValue - 1200
      else if hours =? 0 then displayValue + 1200
      else displayValue
    else displayValue in
  [Print displayValue]
  ++ (if TIME_24_HOUR && (hours =? 0)
      then WriteDigitNum 1 0
           :: (if minutes <? 10 then [WriteDigitNum 2 0] else [])
      else [])
  ++ [DrawColon (Z.rem seconds 2 =? 0); WriteDisplay].

End Loop.

Definition HOUR_OFFSET_shipped : Z := -8.

End Original.

(** ** Predicates of the statements *)

Module Props.
Import AutoTz.

(** The members [hours], [minutes], [seconds] and [gpsFixValid] together. *)
Definition timeFields (s : ClockState) : Z * Z * Z * bool :=
  (hours s, minutes s, seconds s, gpsFixValid s).

(** The point lies in the bounding box of [tz], bounds included. *)
Definition contains (tz : Timezone) (lat lon : Q) : Prop :=
  (minLat tz <= lat)%Q /\ (lat <= maxLat tz)%Q
  /\ (minLon tz <= lon)%Q /\ (lon <= maxLon tz)%Q.

(** What the loop returns when entered at [i]: the first index from [i] on
    whose box holds the point, or the last index when there is none. *)
Definition firstMatchFrom (lat lon : Q) (i r : Z) : Prop :=
  (i <= r < NUM_TIMEZONES - 1
   /\ contains (TIMEZONES_at r) lat lon
   /\ forall j, i <= j < r -> ~ contains (TIMEZONES_at j) lat lon)
  \/ (r = NUM_TIMEZONES - 1
      /\ forall j, i <= j < NUM_TIMEZONES - 1 ->
                   ~ contains (TIMEZONES_at j) lat lon).

(** The index designates an entry of the table. *)
Definition indexInRange (s : ClockState) : Prop :=
  0 <= currentTimezoneIndex s < NUM_TIMEZONES.

(** States reached while pin 13 has read LOW (auto mode) at [setup] and in
    every pass of [loop]. *)
Inductive reachable_auto : World -> Prop :=
| reachable_auto_setup : forall g inp,
    AUTO_MODE_PIN inp = LOW -> reachable_auto (setup inp (power_on g))
| reachable_auto_loop : forall inp w,
    AUTO_MODE_PIN inp = LOW -> reachable_auto w ->
    reachable_auto (loop inp w).

(** The members the DST flag property speaks of. *)
Definition dstFields (s : ClockState) : bool * Z * bool :=
  (autoModeEnabled s, currentTimezoneIndex s, isDSTActive s).

(** Auto mode is on, and the flag is off for a timezone without DST. *)
Definition flagRespectsTimezone (f : bool * Z * bool) : Prop :=
  let '(auto, index, active) := f in
  auto = true
  /\ (observesDST (TIMEZONES_at index) = false -> active = false).

(** Successive passes of [loop], one per input. *)
Definition passes (inps : list Input) (w : World) : World :=
  fold_left (fun w inp => loop inp w) inps w.

(** The members set from the switches. *)
Definition switchFields (s : ClockState) : bool * Z * Z * bool * bool :=
  (autoModeEnabled s, currentTimezoneIndex s, timezoneSwitchState s,
   isDSTActive s, dstSwitchState s).

(** Manual mode, with index and DST flag equal to the stored switches. *)
Definition followsSwitches (s : ClockState) : Prop :=
  autoModeEnabled s = false
  /\ currentTimezoneIndex s = timezoneSwitchState s
  /\ 0 <= timezoneSwitchState s <= 7
  /\ isDSTActive s = dstSwitchState s.

(** The offset [convertUTCToTimezone] adds, in hours. *)
Definition offsetUsed (timezoneIndex : Z) (useDST : bool) : Z :=
  utcOffset (TIMEZONES_at timezoneIndex)
  + (if useDST && observesDST (TIMEZONES_at timezoneIndex)
     then dstOffset (TIMEZONES_at timezoneIndex) else 0).

End Props.

(** ** Inputs used in examples *)

Module Scenario.

(** A sentence carrying the given UTC time and date, with a valid fix. *)
Definition sentence (h m s d mo y : Z) (lat lon : Q) : Gps.t :=
  Gps.mk h m s d mo y true lat lon.

(** A valid fix, timezone index 0 (Pacific Standard), in each sketch. *)
Definition auto_pacific : AutoTz.ClockState :=
  AutoTz.set_gpsFixValid true AutoTz.clockState0.

Definition manual_pacific : TzDst.ClockState :=
  TzDst.mkClockState 0 0 false true 0 0 0 0 false false 0.

(** Noon UTC on the given day of the year 2000 + [y]. *)
Definition noon (d mo y : Z) : Gps.t := sentence 12 0 0 d mo y 0 0.

(** A pass of [loop] in auto mode: the sentence [g] parsed, the display
    refresh due. *)
Definition pass_with (g : Gps.t) : AutoTz.Input :=
  AutoTz.mkInput HIGH HIGH HIGH HIGH LOW (Some (true, g)) false
                 100 100 100 100 100 100 100 100.

(** Pacific Standard selected with DST active, before any fix. *)
Definition pacific_dst_world : AutoTz.World :=
  AutoTz.mkWorld (AutoTz.set_isDSTActive true AutoTz.clockState0)
                 (sentence 0 0 0 1 7 24 0 0) 0 false [].

(** UTC 14:30:15 on July 1, 2024. *)
Definition afternoon : Gps.t := sentence 14 30 15 1 7 24 0 0.

(** A pass in which a sentence without fix is parsed. *)
Definition pass_without_fix : AutoTz.Input :=
  AutoTz.mkInput HIGH HIGH HIGH HIGH LOW
                 (Some (true, Gps.mk 9 9 9 1 1 24 false 0 0)) false
                 600 600 600 600 600 600 600 600.

(** Manual mode (pin 13 HIGH), selector pins reading 100 (Atlantic), DST
    switch on. *)
Definition manual_atlantic_dst_on : AutoTz.Input :=
  AutoTz.mkInput LOW HIGH HIGH LOW HIGH None false
                 1000 1000 1000 1000 1000 1000 1000 1000.

(** The state after [setup] with these switches. *)
Definition manual_atlantic_world : AutoTz.World :=
  AutoTz.setup manual_atlantic_dst_on
               (AutoTz.power_on (sentence 0 0 0 1 1 24 0 0)).

End Scenario.

(** ** Enumeration of the two-digit years *)

Module Enumeration.
Import AutoTz.

Definition months : list Z := map Z.of_nat (seq 1 12).
Definition years : list Z := map Z.of_nat (seq 0 100).

(** The sketch's first Sunday differs from the calendar's. *)
Definition differs (y m : Z) : bool :=
  negb (calculateFirstSunday m y =? Calendar.first_sunday y m).

(** The calendar's first Sunday follows the rule "1 if the 1st is a Sunday,
    else 8 minus the weekday of the 1st". *)
Definition followsRule (y m : Z) : bool :=
  Calendar.first_sunday y m
  =? (if Calendar.weekday y m 1 =? 0 then 1 else 8 - Calendar.weekday y m 1).

Definition everywhere (p : Z -> Z -> bool) : bool :=
  forallb (fun y => forallb (p y) months) years.

End Enumeration.

(** ** The switch-selected sketch seen inside the auto-timezone sketch *)

Module Projection.

(** An entry of the auto-timezone table without its bounding box. *)
Definition timezone (tz : AutoTz.Timezone) : TzDst.Timezone :=
  TzDst.mkTimezone (AutoTz.name tz) (AutoTz.abbreviation tz)
                   (AutoTz.utcOffset tz) (AutoTz.observesDST tz)
                   (AutoTz.dstOffset tz).

(** The members of [clockState] that the switch-selected sketch has too. *)
Definition state (s : AutoTz.ClockState) : TzDst.ClockState :=
  TzDst.mkClockState
    (AutoTz.lastUpdate s) (AutoTz.lastTimezoneCheck s) (AutoTz.colonState s)
    (AutoTz.gpsFixValid s) (AutoTz.hours s) (AutoTz.minutes s)
    (AutoTz.seconds s) (AutoTz.currentTimezoneIndex s) (AutoTz.isDSTActive s)
    (AutoTz.dstSwitchState s) (AutoTz.timezoneSwitchState s).

Definition world (w : AutoTz.World) : TzDst.World :=
  TzDst.mkWorld (state (AutoTz.clockState w)) (AutoTz.gps w)
                (AutoTz.lastBlink w) (AutoTz.blinkState w) (AutoTz.display w).

Definition input (inp : AutoTz.Input) : TzDst.Input :=
  TzDst.mkInput
    (AutoTz.DST_PIN inp) (AutoTz.TIMEZONE_PIN_A inp)
    (AutoTz.TIMEZONE_PIN_B inp) (AutoTz.TIMEZONE_PIN_C inp) (AutoTz.nmea inp)
    (AutoTz.millis_timezoneTest inp) (AutoTz.millis_timezoneStamp inp)
    (AutoTz.millis_displayTest inp) (AutoTz.millis_displayStamp inp)
    (AutoTz.millis_blinkTest inp) (AutoTz.millis_blinkStamp inp).

(** The same input for the auto-timezone sketch, with pin 13 HIGH. *)
Definition lift (inp : TzDst.Input) : AutoTz.Input :=
  AutoTz.mkInput
    (TzDst.DST_PIN inp) (TzDst.TIMEZONE_PIN_A inp)
    (TzDst.TIMEZONE_PIN_B inp) (TzDst.TIMEZONE_PIN_C inp) HIGH
    (TzDst.nmea inp) false 0 0
    (TzDst.millis_timezoneTest inp) (TzDst.millis_timezoneStamp inp)
    (TzDst.millis_displayTest inp) (TzDst.millis_displayStamp inp)
    (TzDst.millis_blinkTest inp) (TzDst.millis_blinkStamp inp).

(** Successive passes of the switch-selected sketch's [loop]. *)
Definition passes (inps : list TzDst.Input) (w : TzDst.World)
  : TzDst.World :=
  fold_left (fun w inp => TzDst.loop inp w) inps w.

End Projection.

(** * Properties *)

(** ** Machine integers *)

Lemma uint8_range z : 0 <= uint8 z < 256.
Proof. unfold uint8. apply Z.mod_pos_bound. lia. Qed.

Lemma uint8_small z : 0 <= z < 256 -> uint8 z = z.
Proof. intros H. unfold uint8. apply Z.mod_small. exact H. Qed.

(** ** Day-boundary normalisation *)

Module NormalizeFacts.
Import AutoTz.

Lemma add24_while_step x :
  add24_while x = if x <? 0 then add24_while (x + 24) else x.
Proof.
  rewrite add24_while_equation_1. unfold add24_while_unfold_clause_1.
  destruct (Z_lt_dec x 0) as [H|H].
  - apply Z.ltb_lt in H. rewrite H. reflexivity.
  - apply Z.nlt_ge, Z.ltb_ge in H. rewrite H. reflexivity.
Qed.

Lemma sub24_while_step x :
  sub24_while x = if x >=? 24 then sub24_while (x - 24) else x.
Proof.
  rewrite sub24_while_equation_1. unfold sub24_while_unfold_clause_1.
  destruct (Z_ge_dec x 24) as [H|H].
  - apply Z.ge_le in H. apply Z.geb_le in H. rewrite H. reflexivity.
  - destruct (x >=? 24) eqn:E; [|reflexivity].
    apply Z.geb_le in E. lia.
Qed.

(** The first loop leaves a non-negative value congruent to its input, and
    does nothing to a non-negative input. *)
Lemma add24_while_spec x :
  0 <= add24_while x
  /\ add24_while x mod 24 = x mod 24
  /\ (x < 0 -> add24_while x < 24)
  /\ (0 <= x -> add24_while x = x).
Proof.
  funelim (add24_while x).
  - match goal with
    | IH : _ /\ _ /\ _ /\ _ |- _ => destruct IH as (H0 & Hm & Hlt & Hge)
    end.
    match goal with Hneg : ?a < 0 |- _ => rename a into x0 end.
    repeat split.
    + exact H0.
    + rewrite Hm. replace (x0 + 24) with (x0 + 1 * 24) by ring.
      apply Z.mod_add. lia.
    + intros _. destruct (Z_lt_dec (x0 + 24) 0) as [Hn|Hn].
      * apply Hlt. exact Hn.
      * rewrite Hge by lia. lia.
    + intros Hc. lia.
  - repeat split; try lia.
Qed.

Lemma sub24_while_spec x :
  0 <= x -> sub24_while x = x mod 24.
Proof.
  funelim (sub24_while x); intros Hpos.
  - match goal with Hge : ?a >= 24 |- _ => rename a into x0 end.
    match goal with IH : _ -> sub24_while _ = _ |- _ => rewrite IH by lia end.
    replace x0 with (x0 - 24 + 1 * 24) at 2 by ring.
    rewrite Z.mod_add by lia. reflexivity.
  - symmetry. apply Z.mod_small. lia.
Qed.

(** The two loops together compute the residue modulo 24. *)
Lemma normalizeHours_mod x : normalizeHours x = x mod 24.
Proof.
  unfold normalizeHours.
  destruct (add24_while_spec x) as (H0 & Hm & _ & _).
  rewrite sub24_while_spec by exact H0. exact Hm.
Qed.

Lemma normalizeHours_range x : 0 <= normalizeHours x <= 23.
Proof.
  rewrite normalizeHours_mod.
  pose proof (Z.mod_pos_bound x 24 eq_refl). lia.
Qed.

(** [normalizeHours] meets both halves of the normalisation property, for
    every hour and every offset in the stated ranges. *)
Lemma normalizeHours_roundtrip h o :
  0 <= h <= 23 -> -14 <= o <= 14 ->
  0 <= normalizeHours (h + o) <= 23
  /\ normalizeHours (normalizeHours (h + o) - o) = h.
Proof.
  intros Hh Ho. split.
  - apply normalizeHours_range.
  - rewrite !normalizeHours_mod.
    rewrite Zminus_mod_idemp_l.
    replace (h + o - o) with h by ring.
    apply Z.mod_small. lia.
Qed.

End NormalizeFacts.

Module OriginalFacts.
Import Original.

(** Up to a sum of 24 the two conditionals of the original sketch compute
    the residue modulo 24. *)
Lemma wrapHours_upto_24 x :
  -24 <= x <= 24 -> wrapHours x = x mod 24.
Proof.
  intros Hx. unfold wrapHours.
  destruct (x <? 0) eqn:Hneg.
  - apply Z.ltb_lt in Hneg.
    assert (Hgt : (24 + x >? 23) = false).
    { destruct (24 + x >? 23) eqn:E; [|reflexivity].
      apply Z.gtb_lt in E. lia. }
    rewrite Hgt. symmetry.
    replace x with (24 + x + (-1) * 24) at 1 by ring.
    rewrite Z.mod_add by lia. apply Z.mod_small. lia.
  - apply Z.ltb_ge in Hneg.
    destruct (x >? 23) eqn:Hbig.
    + apply Z.gtb_lt in Hbig. assert (x = 24) by lia. subst x. reflexivity.
    + symmetry. apply Z.mod_small.
      destruct (Z_gt_dec x 23) as [G|G]; [|lia].
      apply Z.gt_lt, Z.gtb_lt in G. congruence.
Qed.

(** Above 24 the second conditional computes [24 - hours], a negative
    number. *)
Lemma wrapHours_above_24 x :
  25 <= x -> wrapHours x = 24 - x /\ wrapHours x < 0.
Proof.
  intros Hx. unfold wrapHours.
  assert (Hneg : (x <? 0) = false) by (apply Z.ltb_ge; lia).
  assert (Hbig : (x >? 23) = true) by (apply Z.gtb_lt; lia).
  rewrite Hneg, Hbig. lia.
Qed.

(** With the offset the sketch ships with, the sum never exceeds 16 and the
    hour shown stays within the day. *)
Lemma localHours_shipped g pin :
  0 <= Gps.hour g <= 23 ->
  0 <= localHours HOUR_OFFSET_shipped g pin <= 23.
Proof.
  intros Hh. unfold localHours, timeZone, HOUR_OFFSET_shipped.
  assert (Hd : 0 <= isDST pin <= 1) by (destruct pin; simpl; lia).
  rewrite wrapHours_upto_24 by lia.
  pose proof (Z.mod_pos_bound (Gps.hour g + -8 + isDST pin) 24 eq_refl). lia.
Qed.

End OriginalFacts.

(** C3: for UTC hours in 0..23 and offsets in -14..14 the normalised hour
    must lie in 0..23 and undo under the reversed offset, in
    [normalizeHours] and in the two conditionals of the original sketch.
    [normalizeHours] does both (lemma [normalizeHours_roundtrip]); the
    original sketch, at UTC hour 23 with offset +2, computes 24 - 25 = -1,
    shows -100 for 23:00 UTC, and the reversal does not give 23 back. *)
Theorem original_wrapHours_leaves_the_day :
  Original.wrapHours (23 + 2) = -1
  /\ Original.wrapHours (Original.wrapHours (23 + 2) - 2) = 21
  /\ Original.localHours 2 (Scenario.sentence 23 0 0 1 1 24 0 0) LOW = -1
  /\ Original.loop 2 (Scenario.sentence 23 0 0 1 1 24 0 0) LOW
     = [Print (-100); DrawColon true; WriteDisplay]
  /\ AutoTz.normalizeHours (23 + 2) = 1
  /\ AutoTz.normalizeHours (AutoTz.normalizeHours (23 + 2) - 2) = 23.
Proof. repeat split; reflexivity. Qed.

(** ** Twelve-hour conversion *)

(** C7: on hours 0..23, [convertTo12Hour] sends 0 to 12, an hour in 13..23
    to that hour minus 12, leaves 1..12 alone, and always lands in 1..12;
    so 0 -> 12, 13 -> 1, 12 -> 12, 23 -> 11. *)
Theorem convertTo12Hour_spec (h : Z) :
  0 <= h <= 23 ->
  (h = 0 -> AutoTz.convertTo12Hour h = 12)
  /\ (13 <= h <= 23 -> AutoTz.convertTo12Hour h = h - 12)
  /\ (1 <= h <= 12 -> AutoTz.convertTo12Hour h = h)
  /\ 1 <= AutoTz.convertTo12Hour h <= 12
  /\ AutoTz.convertTo12Hour 0 = 12
  /\ AutoTz.convertTo12Hour 13 = 1
  /\ AutoTz.convertTo12Hour 12 = 12
  /\ AutoTz.convertTo12Hour 23 = 11.
Proof.
  intros Hh. unfold AutoTz.convertTo12Hour.
  destruct (h =? 0) eqn:E0.
  - apply Z.eqb_eq in E0. subst h. repeat split; intros; lia.
  - apply Z.eqb_neq in E0.
    destruct (h >? 12) eqn:E12.
    + apply Z.gtb_lt in E12. repeat split; intros; lia.
    + assert (h <= 12).
      { destruct (Z_gt_dec h 12) as [G|G]; [|lia].
        apply Z.gt_lt, Z.gtb_lt in G. congruence. }
      repeat split; intros; lia.
Qed.

Lemma convertTo12Hour_spec_witness :
  0 <= 13 <= 23 /\ AutoTz.convertTo12Hour 13 = 13 - 12.
Proof.
  split; [lia|].
  apply (proj1 (proj2 (convertTo12Hour_spec 13 ltac:(lia)))). lia.
Defined.

(** ** The state touched by each operation *)

Module Frame.
Import AutoTz Props.

Lemma applySwitches_timeFields sel dst s :
  timeFields (applySwitches sel dst s) = timeFields s.
Proof.
  unfold applySwitches.
  destruct (negb (sel =? timezoneSwitchState s));
    match goal with
    | |- context [negb (Bool.eqb dst ?x)] => destruct (negb (Bool.eqb dst x))
    end; reflexivity.
Qed.

Lemma updateTimezoneSettings_timeFields inp s :
  timeFields (updateTimezoneSettings inp s) = timeFields s.
Proof.
  unfold updateTimezoneSettings.
  destruct (autoModeEnabled s); [reflexivity|].
  apply applySwitches_timeFields.
Qed.

Lemma updateTimezoneIfNeeded_timeFields inp s :
  timeFields (updateTimezoneIfNeeded inp s) = timeFields s.
Proof.
  unfold updateTimezoneIfNeeded.
  destruct (_ >=? _); [|reflexivity].
  rewrite <- (updateTimezoneSettings_timeFields inp s). reflexivity.
Qed.

Lemma switchTimezone_timeFields g i s :
  timeFields (switchTimezone g i s) = timeFields s.
Proof.
  unfold switchTimezone.
  destruct (observesDST _); reflexivity.
Qed.

Lemma updateLocationIfNeeded_timeFields inp g s :
  timeFields (updateLocationIfNeeded inp g s) = timeFields s.
Proof.
  unfold updateLocationIfNeeded.
  destruct (negb (gpsFixValid s)); [reflexivity|].
  set (s1 := if (_ >=? _) || locationChanged s then _ else s).
  assert (H1 : timeFields s1 = timeFields s).
  { subst s1. destruct ((_ >=? _) || locationChanged s); [|reflexivity].
    destruct (locationChanged s || Qeq_bool (lastLat s) 0); [|reflexivity].
    destruct (negb (_ =? currentTimezoneIndex s)); [|reflexivity].
    rewrite <- (switchTimezone_timeFields g
                  (detectTimezoneFromLocation (Gps.latitudeDegrees g)
                                              (Gps.longitudeDegrees g)) s).
    reflexivity. }
  destruct (negb (Bool.eqb (isLOW (AUTO_MODE_PIN inp)) (autoModeEnabled s1)));
    [|exact H1].
  cbv zeta.
  destruct (negb (autoModeEnabled (set_autoModeEnabled _ s1))).
  - rewrite updateTimezoneSettings_timeFields. exact H1.
  - exact H1.
Qed.

End Frame.

Module GpsFacts.
Import AutoTz Props Frame.

Lemma updateGPSData_display inp w :
  display (updateGPSData inp w) = display w.
Proof.
  unfold updateGPSData.
  destruct (nmea inp) as [[parsed g]|]; [|reflexivity].
  destruct parsed; reflexivity.
Qed.

(** When the fix is not valid after [updateGPSData], [updateTimeFromGPS]
    has not run: [clockState] is as before, up to [gpsFixValid] itself. *)
Lemma updateGPSData_no_fix inp w :
  gpsFixValid (clockState (updateGPSData inp w)) = false ->
  clockState (updateGPSData inp w) = clockState w
  \/ clockState (updateGPSData inp w) = set_gpsFixValid false (clockState w).
Proof.
  unfold updateGPSData.
  destruct (nmea inp) as [[parsed g]|]; [|left; reflexivity].
  destruct parsed; [|left; reflexivity].
  cbn [clockState with_gps with_clockState].
  destruct (Gps.fix_ g) eqn:Hfix.
  - cbn [gpsFixValid set_gpsFixValid].
    destruct (movedBeyondTolerance inp); cbn; discriminate.
  - cbn [gpsFixValid set_gpsFixValid]. intros _. right. reflexivity.
Qed.

(** The resolver step of [loop] leaves the time and the fix flag alone. *)
Lemma resolver_timeFields inp g s :
  timeFields (if autoModeEnabled s then updateLocationIfNeeded inp g s
              else updateTimezoneIfNeeded inp s) = timeFields s.
Proof.
  destruct (autoModeEnabled s).
  - apply updateLocationIfNeeded_timeFields.
  - apply updateTimezoneIfNeeded_timeFields.
Qed.

Lemma showNoGPSIndicator_clockState inp w :
  clockState (showNoGPSIndicator inp w) = clockState w.
Proof.
  unfold showNoGPSIndicator. destruct (_ >=? _); reflexivity.
Qed.

Lemma showNoGPSIndicator_calls inp w :
  exists calls,
    display (showNoGPSIndicator inp w) = display w ++ calls
    /\ (calls = []
        \/ calls = [Print 0; DrawColon true; WriteDisplay]
        \/ calls = [Clear; WriteDisplay]).
Proof.
  unfold showNoGPSIndicator. destruct (_ >=? _).
  - destruct (blinkState w); cbn.
    + exists [Clear; WriteDisplay]. auto.
    + exists [Print 0; DrawColon true; WriteDisplay]. auto.
  - exists []. split; [symmetry; apply app_nil_r | auto].
Qed.

Lemma updateDisplay_clockState inp w :
  clockState (updateDisplay inp w) = clockState w.
Proof.
  unfold updateDisplay. destruct (negb _).
  - apply showNoGPSIndicator_clockState.
  - reflexivity.
Qed.

End GpsFacts.

(** ** Display *)

(** C8: with a valid fix, [updateDisplay] sends the driver the value
    displayHour * 100 + minute and a colon that is on exactly when the
    seconds are even, and changes nothing else (clock state, GPS object and
    blink statics are those of the input).  End to end: UTC 14:30:15 in
    Pacific Standard with DST active gives local hour 7, value 730, colon
    off. *)
Theorem updateDisplay_formats_time :
  (forall inp w,
      AutoTz.gpsFixValid (AutoTz.clockState w) = true ->
      AutoTz.updateDisplay inp w
      = AutoTz.emit
          [Print (AutoTz.convertTo12Hour (AutoTz.hours (AutoTz.clockState w))
                  * 100 + AutoTz.minutes (AutoTz.clockState w));
           DrawColon (Z.even (AutoTz.seconds (AutoTz.clockState w)));
           WriteDisplay] w)
  /\ (forall inp w g,
         AutoTz.nmea inp = Some (true, g) ->
         Gps.fix_ g = true ->
         Gps.hour g = 14 -> Gps.minute g = 30 -> Gps.seconds g = 15 ->
         AutoTz.currentTimezoneIndex (AutoTz.clockState w) = 0 ->
         AutoTz.isDSTActive (AutoTz.clockState w) = true ->
         let w' := AutoTz.updateDisplay inp (AutoTz.updateGPSData inp w) in
         AutoTz.hours (AutoTz.clockState w') = 7
         /\ AutoTz.display w'
            = AutoTz.display w ++ [Print 730; DrawColon false; WriteDisplay]).
Proof.
  split.
  - intros inp w Hfix. unfold AutoTz.updateDisplay. rewrite Hfix. cbn [negb].
    unfold AutoTz.renderTime. cbn. rewrite <- Zeven_rem. reflexivity.
  - intros inp w g Hn Hfix Hh Hm Hs Hidx Hdst w'. subst w'.
    unfold AutoTz.updateGPSData. rewrite Hn.
    destruct w as [s g0 lb bs d]. destruct s. destruct g.
    cbn in Hfix, Hh, Hm, Hs, Hidx, Hdst. subst.
    unfold AutoTz.updateDisplay.
    destruct (AutoTz.movedBeyondTolerance inp); split; reflexivity.
Qed.

Lemma updateDisplay_formats_time_witness :
  AutoTz.display
    (AutoTz.updateDisplay (Scenario.pass_with Scenario.afternoon)
       (AutoTz.updateGPSData (Scenario.pass_with Scenario.afternoon)
                             Scenario.pacific_dst_world))
  = [Print 730; DrawColon false; WriteDisplay].
Proof.
  apply (proj2 (proj2 updateDisplay_formats_time
                  (Scenario.pass_with Scenario.afternoon)
                  Scenario.pacific_dst_world Scenario.afternoon
                  eq_refl eq_refl eq_refl eq_refl eq_refl eq_refl eq_refl)).
Defined.

(** C9: when the fix is not valid once the GPS data are read,
    [updateTimeFromGPS] has not run: [clockState] differs from before at
    most in [gpsFixValid], the pass of [loop] leaves [hours], [minutes] and
    [seconds] as they were, and [updateDisplay] is [showNoGPSIndicator],
    which sends the driver nothing, the blinking zero, or a blank. *)
Theorem no_fix_no_composition (inp : AutoTz.Input) (w : AutoTz.World) :
  AutoTz.gpsFixValid (AutoTz.clockState (AutoTz.updateGPSData inp w)) = false ->
  (AutoTz.clockState (AutoTz.updateGPSData inp w) = AutoTz.clockState w
   \/ AutoTz.clockState (AutoTz.updateGPSData inp w)
      = AutoTz.set_gpsFixValid false (AutoTz.clockState w))
  /\ AutoTz.hours (AutoTz.clockState (AutoTz.loop inp w))
     = AutoTz.hours (AutoTz.clockState w)
  /\ AutoTz.minutes (AutoTz.clockState (AutoTz.loop inp w))
     = AutoTz.minutes (AutoTz.clockState w)
  /\ AutoTz.seconds (AutoTz.clockState (AutoTz.loop inp w))
     = AutoTz.seconds (AutoTz.clockState w)
  /\ AutoTz.gpsFixValid (AutoTz.clockState (AutoTz.loop inp w)) = false
  /\ (forall w',
         AutoTz.gpsFixValid (AutoTz.clockState w') = false ->
         AutoTz.updateDisplay inp w' = AutoTz.showNoGPSIndicator inp w')
  /\ exists calls,
      AutoTz.display (AutoTz.loop inp w) = AutoTz.display w ++ calls
      /\ (calls = []
          \/ calls = [Print 0; DrawColon true; WriteDisplay]
          \/ calls = [Clear; WriteDisplay]).
Proof.
  intros Hfix.
  pose proof (GpsFacts.updateGPSData_no_fix inp w Hfix) as Hcs.
  pose proof (GpsFacts.updateGPSData_display inp w) as Hd.
  set (w1 := AutoTz.updateGPSData inp w) in *.
  pose proof (GpsFacts.resolver_timeFields inp (AutoTz.gps w1)
                (AutoTz.clockState w1)) as Hres.
  assert (Htf : Props.timeFields (AutoTz.clockState w1)
                = (AutoTz.hours (AutoTz.clockState w),
                   AutoTz.minutes (AutoTz.clockState w),
                   AutoTz.seconds (AutoTz.clockState w), false)).
  { unfold Props.timeFields. rewrite Hfix.
    destruct Hcs as [-> | ->]; reflexivity. }
  assert (Hshort : forall w',
             AutoTz.gpsFixValid (AutoTz.clockState w') = false ->
             AutoTz.updateDisplay inp w' = AutoTz.showNoGPSIndicator inp w').
  { intros w' Hw'. unfold AutoTz.updateDisplay. rewrite Hw'. reflexivity. }
  unfold AutoTz.loop. fold w1. cbv zeta.
  set (s2 := if AutoTz.autoModeEnabled (AutoTz.clockState w1)
             then AutoTz.updateLocationIfNeeded inp (AutoTz.gps w1)
                    (AutoTz.clockState w1)
             else AutoTz.updateTimezoneIfNeeded inp (AutoTz.clockState w1))
    in *.
  rewrite Htf in Hres. unfold Props.timeFields in Hres.
  injection Hres as Hh Hm Hs Hf.
  set (w2 := AutoTz.with_clockState s2 w1).
  assert (Hw2 : AutoTz.gpsFixValid (AutoTz.clockState w2) = false) by exact Hf.
  split; [exact Hcs|].
  destruct (uint32 _ >=? AutoTz.DISPLAY_UPDATE_MS).
  - rewrite (Hshort w2 Hw2).
    cbn [AutoTz.clockState AutoTz.with_clockState AutoTz.display].
    rewrite GpsFacts.showNoGPSIndicator_clockState.
    cbn [AutoTz.clockState AutoTz.with_clockState AutoTz.hours AutoTz.minutes
         AutoTz.seconds AutoTz.gpsFixValid AutoTz.set_lastUpdate w2].
    repeat (split; [assumption|]).
    destruct (GpsFacts.showNoGPSIndicator_calls inp w2) as (calls & Hc & Hk).
    exists calls. split; [|exact Hk].
    rewrite Hc. unfold w2. cbn [AutoTz.display AutoTz.with_clockState].
    rewrite Hd. reflexivity.
  - cbn [AutoTz.clockState AutoTz.with_clockState w2 AutoTz.display].
    repeat (split; [assumption|]).
    exists []. split; [|auto]. rewrite app_nil_r. exact Hd.
Qed.

Lemma no_fix_no_composition_witness :
  AutoTz.hours (AutoTz.clockState (AutoTz.loop Scenario.pass_without_fix
                                               Scenario.pacific_dst_world))
  = AutoTz.hours (AutoTz.clockState Scenario.pacific_dst_world).
Proof.
  apply (proj1 (proj2 (no_fix_no_composition Scenario.pass_without_fix
                         Scenario.pacific_dst_world eq_refl))).
Defined.

(** ** Timezone from location *)

Module DetectFacts.
Import AutoTz Props.

Lemma inBounds_iff tz lat lon :
  inBounds tz lat lon = true <-> contains tz lat lon.
Proof.
  unfold inBounds, contains.
  rewrite !andb_true_iff, !Qle_bool_iff. tauto.
Qed.

Lemma inBounds_false_iff tz lat lon :
  inBounds tz lat lon = false <-> ~ contains tz lat lon.
Proof.
  rewrite <- inBounds_iff. destruct (inBounds tz lat lon); split; congruence.
Qed.

Lemma NUM_TIMEZONES_eq : NUM_TIMEZONES = 8.
Proof. reflexivity. Qed.

Lemma detectLoop_step lat lon i :
  detectLoop lat lon i
  = if i <? NUM_TIMEZONES - 1
    then if inBounds (TIMEZONES_at i) lat lon then i
         else detectLoop lat lon (uint8 (i + 1))
    else NUM_TIMEZONES - 1.
Proof.
  rewrite detectLoop_equation_1. unfold detectLoop_unfold_clause_1.
  destruct (Z_lt_dec i (NUM_TIMEZONES - 1)) as [H|H].
  - apply Z.ltb_lt in H. rewrite H. reflexivity.
  - apply Z.nlt_ge, Z.ltb_ge in H. rewrite H. reflexivity.
Qed.

Lemma detectLoop_spec lat lon (n : nat) :
  forall i, 0 <= i -> Z.to_nat (NUM_TIMEZONES - 1 - i) = n ->
            firstMatchFrom lat lon i (detectLoop lat lon i).
Proof.
  pose proof NUM_TIMEZONES_eq as HN.
  induction n as [|n IH]; intros i Hi Hn; rewrite detectLoop_step.
  - assert (Hge : (i <? NUM_TIMEZONES - 1) = false) by (apply Z.ltb_ge; lia).
    rewrite Hge. right. split; [reflexivity|]. intros j Hj. lia.
  - assert (Hlt : (i <? NUM_TIMEZONES - 1) = true) by (apply Z.ltb_lt; lia).
    rewrite Hlt.
    destruct (inBounds (TIMEZONES_at i) lat lon) eqn:Hin.
    + left. split; [apply Z.ltb_lt in Hlt; lia|].
      split; [apply inBounds_iff; exact Hin|]. intros j Hj. lia.
    + assert (Hs : uint8 (i + 1) = i + 1) by (apply uint8_small; lia).
      rewrite Hs.
      assert (Hrec : firstMatchFrom lat lon (i + 1)
                       (detectLoop lat lon (i + 1))) by (apply IH; lia).
      apply inBounds_false_iff in Hin.
      destruct Hrec as [(Hr & Hc & Hb) | (Hr & Hb)].
      * left. split; [lia|]. split; [exact Hc|].
        intros j Hj. destruct (Z.eq_dec j i) as [->|Hne]; [exact Hin|].
        apply Hb. lia.
      * right. split; [exact Hr|].
        intros j Hj. destruct (Z.eq_dec j i) as [->|Hne]; [exact Hin|].
        apply Hb. lia.
Qed.

Lemma detectTimezoneFromLocation_range lat lon :
  0 <= detectTimezoneFromLocation lat lon < NUM_TIMEZONES.
Proof.
  unfold detectTimezoneFromLocation.
  destruct (detectLoop_spec lat lon _ 0 ltac:(lia) eq_refl)
    as [(Hr & _) | (Hr & _)]; rewrite ?Hr; rewrite NUM_TIMEZONES_eq in *; lia.
Qed.

End DetectFacts.

(** C4: for every latitude and longitude, [detectTimezoneFromLocation]
    returns the first index, in table order and among the entries before
    the last, whose box holds the point; when no such box holds it, it
    returns the index of the last entry, which is UTC.  A point in two boxes
    gets the earlier one: (40, -114) is in the Pacific and Mountain boxes and
    resolves to 0; (45, -69) is in Eastern and Atlantic and resolves to 3. *)
Theorem detectTimezoneFromLocation_first_match :
  (forall lat lon,
      let r := AutoTz.detectTimezoneFromLocation lat lon in
      (0 <= r < AutoTz.NUM_TIMEZONES - 1
       /\ Props.contains (AutoTz.TIMEZONES_at r) lat lon
       /\ forall j, 0 <= j < r ->
                    ~ Props.contains (AutoTz.TIMEZONES_at j) lat lon)
      \/ (r = AutoTz.NUM_TIMEZONES - 1
          /\ forall j, 0 <= j < AutoTz.NUM_TIMEZONES - 1 ->
                       ~ Props.contains (AutoTz.TIMEZONES_at j) lat lon))
  /\ AutoTz.name (AutoTz.TIMEZONES_at (AutoTz.NUM_TIMEZONES - 1)) = "UTC"%string
  /\ (Props.contains (AutoTz.TIMEZONES_at 0) 40 (-114)
      /\ Props.contains (AutoTz.TIMEZONES_at 1) 40 (-114)
      /\ AutoTz.detectTimezoneFromLocation 40 (-114) = 0)
  /\ (Props.contains (AutoTz.TIMEZONES_at 3) 45 (-69)
      /\ Props.contains (AutoTz.TIMEZONES_at 4) 45 (-69)
      /\ AutoTz.detectTimezoneFromLocation 45 (-69) = 3)
  /\ AutoTz.detectTimezoneFromLocation 0 0 = AutoTz.NUM_TIMEZONES - 1.
Proof.
  split.
  - intros lat lon r. subst r. unfold AutoTz.detectTimezoneFromLocation.
    exact (DetectFacts.detectLoop_spec lat lon _ 0 ltac:(lia) eq_refl).
  - assert (Hin : forall i lat lon,
               AutoTz.inBounds (AutoTz.TIMEZONES_at i) lat lon = true ->
               Props.contains (AutoTz.TIMEZONES_at i) lat lon)
      by (intros i lat lon; apply DetectFacts.inBounds_iff).
    split; [reflexivity|].
    split; [split; [|split]; [apply Hin; reflexivity ..|reflexivity]|].
    split; [split; [|split]; [apply Hin; reflexivity ..|reflexivity]|].
    reflexivity.
Qed.

(** The point (0, 0) resolves to the last entry, so it lies in none of the
    boxes before it, for instance not in the Eastern one. *)
Lemma detectTimezoneFromLocation_first_match_witness :
  ~ Props.contains (AutoTz.TIMEZONES_at 3) 0 0.
Proof.
  destruct (proj1 detectTimezoneFromLocation_first_match 0%Q 0%Q)
    as [(Hr & _) | (_ & Hnone)].
  - vm_compute in Hr. destruct Hr as [_ Hr]. discriminate Hr.
  - apply (Hnone 3). rewrite DetectFacts.NUM_TIMEZONES_eq. lia.
Defined.

(** ** The timezone index *)

Module IndexFacts.
Import AutoTz Props.

Lemma manualIndex_mod selector :
  0 <= selector -> manualIndex selector = selector mod NUM_TIMEZONES.
Proof.
  intros Hs. unfold manualIndex.
  rewrite Z.rem_mod_nonneg by (rewrite ?DetectFacts.NUM_TIMEZONES_eq; lia).
  apply uint8_small.
  pose proof (Z.mod_pos_bound selector NUM_TIMEZONES eq_refl).
  rewrite DetectFacts.NUM_TIMEZONES_eq in *. lia.
Qed.

Lemma manualIndex_range selector :
  0 <= selector -> 0 <= manualIndex selector < NUM_TIMEZONES.
Proof.
  intros Hs. rewrite manualIndex_mod by exact Hs.
  apply Z.mod_pos_bound. reflexivity.
Qed.

(** The three pins give a selector in 0..7. *)
Lemma readTimezoneSwitches_range inp : 0 <= readTimezoneSwitches inp <= 7.
Proof.
  unfold readTimezoneSwitches.
  destruct (TIMEZONE_PIN_A inp), (TIMEZONE_PIN_B inp), (TIMEZONE_PIN_C inp);
    cbn; lia.
Qed.

Lemma applySwitches_index selector dst s :
  0 <= selector -> indexInRange s ->
  indexInRange (applySwitches selector dst s).
Proof.
  intros Hsel Hs. unfold applySwitches.
  destruct (negb (selector =? timezoneSwitchState s));
    match goal with
    | |- context [negb (Bool.eqb dst ?x)] => destruct (negb (Bool.eqb dst x))
    end; unfold indexInRange; cbn;
    try exact Hs; apply manualIndex_range; exact Hsel.
Qed.

Lemma updateTimezoneSettings_index inp s :
  indexInRange s -> indexInRange (updateTimezoneSettings inp s).
Proof.
  intros Hs. unfold updateTimezoneSettings.
  destruct (autoModeEnabled s); [exact Hs|].
  apply applySwitches_index; [|exact Hs].
  apply readTimezoneSwitches_range.
Qed.

Lemma updateTimezoneIfNeeded_index inp s :
  indexInRange s -> indexInRange (updateTimezoneIfNeeded inp s).
Proof.
  intros Hs. unfold updateTimezoneIfNeeded.
  destruct (_ >=? _); [|exact Hs].
  exact (updateTimezoneSettings_index inp s Hs).
Qed.

Lemma switchTimezone_index g i s :
  currentTimezoneIndex (switchTimezone g i s) = i.
Proof.
  unfold switchTimezone. destruct (observesDST _); reflexivity.
Qed.

Lemma updateLocationIfNeeded_index inp g s :
  indexInRange s -> indexInRange (updateLocationIfNeeded inp g s).
Proof.
  intros Hs. unfold updateLocationIfNeeded.
  destruct (negb (gpsFixValid s)); [exact Hs|].
  set (s1 := if (_ >=? _) || locationChanged s then _ else s).
  assert (H1 : indexInRange s1).
  { subst s1. destruct ((_ >=? _) || locationChanged s); [|exact Hs].
    destruct (locationChanged s || Qeq_bool (lastLat s) 0); [|exact Hs].
    destruct (negb (_ =? currentTimezoneIndex s)); [|exact Hs].
    unfold indexInRange. cbn. rewrite switchTimezone_index.
    apply DetectFacts.detectTimezoneFromLocation_range. }
  destruct (negb (Bool.eqb (isLOW (AUTO_MODE_PIN inp)) (autoModeEnabled s1)));
    [|exact H1].
  cbv zeta.
  destruct (negb (autoModeEnabled (set_autoModeEnabled _ s1))).
  - apply updateTimezoneSettings_index. exact H1.
  - exact H1.
Qed.

Lemma updateGPSData_index inp w :
  currentTimezoneIndex (clockState (updateGPSData inp w))
  = currentTimezoneIndex (clockState w).
Proof.
  unfold updateGPSData.
  destruct (nmea inp) as [[parsed g]|]; [|reflexivity].
  destruct parsed; [|reflexivity].
  cbn [clockState with_gps with_clockState].
  destruct (Gps.fix_ g); cbn; [|reflexivity].
  destruct (movedBeyondTolerance inp); reflexivity.
Qed.

Lemma setup_index inp g : indexInRange (clockState (setup inp (power_on g))).
Proof.
  unfold setup, initializePins. cbn [clockState with_clockState].
  assert (H0 : indexInRange (set_autoModeEnabled (isLOW (AUTO_MODE_PIN inp))
                               clockState0))
    by (unfold indexInRange; rewrite DetectFacts.NUM_TIMEZONES_eq; cbn; lia).
  cbn [initializeDisplay emit clockState power_on].
  destruct (negb (autoModeEnabled _)).
  - apply updateTimezoneSettings_index. exact H0.
  - exact H0.
Qed.

Lemma loop_index inp w :
  indexInRange (clockState w) -> indexInRange (clockState (loop inp w)).
Proof.
  intros Hw. unfold loop. cbv zeta.
  set (w1 := updateGPSData inp w).
  assert (H1 : indexInRange (clockState w1))
    by (unfold indexInRange; subst w1; rewrite updateGPSData_index; exact Hw).
  set (s2 := if autoModeEnabled (clockState w1) then _ else _).
  assert (H2 : indexInRange s2).
  { subst s2. destruct (autoModeEnabled (clockState w1)).
    - apply updateLocationIfNeeded_index. exact H1.
    - apply updateTimezoneIfNeeded_index. exact H1. }
  destruct (uint32 _ >=? DISPLAY_UPDATE_MS).
  - cbn [clockState with_clockState].
    rewrite GpsFacts.updateDisplay_clockState. exact H2.
  - exact H2.
Qed.

Lemma reachable_index w : reachable w -> indexInRange (clockState w).
Proof.
  induction 1 as [g inp | inp w _ IH].
  - apply setup_index.
  - apply loop_index. exact IH.
Qed.

End IndexFacts.

(** C5: [currentTimezoneIndex] stays within the table.  The switch update
    stores the selector modulo the table size, so a selector at or above
    the size wraps (9 with size 8 gives 1); the location lookup returns an
    index below the size; each operation that assigns the index keeps it in
    range, and so does every state the sketch reaches. *)
Theorem currentTimezoneIndex_in_range :
  AutoTz.NUM_TIMEZONES = 8
  /\ (forall selector,
         0 <= selector ->
         AutoTz.manualIndex selector = selector mod AutoTz.NUM_TIMEZONES
         /\ 0 <= AutoTz.manualIndex selector < AutoTz.NUM_TIMEZONES)
  /\ AutoTz.manualIndex 9 = 1
  /\ (forall lat lon,
         0 <= AutoTz.detectTimezoneFromLocation lat lon < AutoTz.NUM_TIMEZONES)
  /\ (forall inp s,
         Props.indexInRange s ->
         Props.indexInRange (AutoTz.updateTimezoneSettings inp s))
  /\ (forall inp g s,
         Props.indexInRange s ->
         Props.indexInRange (AutoTz.updateLocationIfNeeded inp g s))
  /\ (forall w,
         AutoTz.reachable w ->
         0 <= AutoTz.currentTimezoneIndex (AutoTz.clockState w)
           < AutoTz.NUM_TIMEZONES).
Proof.
  split; [reflexivity|].
  split; [intros selector Hs; split;
          [apply IndexFacts.manualIndex_mod
          |apply IndexFacts.manualIndex_range];
          exact Hs|].
  split; [reflexivity|].
  split; [exact DetectFacts.detectTimezoneFromLocation_range|].
  split; [exact IndexFacts.updateTimezoneSettings_index|].
  split; [exact IndexFacts.updateLocationIfNeeded_index|].
  exact IndexFacts.reachable_index.
Qed.

Lemma currentTimezoneIndex_in_range_witness :
  0 <= AutoTz.currentTimezoneIndex
         (AutoTz.clockState
            (AutoTz.loop Scenario.manual_atlantic_dst_on
               Scenario.manual_atlantic_world))
    < AutoTz.NUM_TIMEZONES.
Proof.
  apply (proj2 (proj2 (proj2 (proj2 (proj2 (proj2
           currentTimezoneIndex_in_range)))))).
  apply AutoTz.reachable_loop. apply AutoTz.reachable_setup.
Defined.

(** ** DST flag and DST eligibility *)

Module DstFlagFacts.
Import AutoTz Props.

Lemma getDSTOffset_without_DST s :
  observesDST (getCurrentTimezone s) = false -> getDSTOffset s = 0.
Proof. intros H. unfold getDSTOffset. rewrite H. reflexivity. Qed.

Lemma switchTimezone_without_DST g i s :
  observesDST (TIMEZONES_at i) = false ->
  isDSTActive (switchTimezone g i s) = false.
Proof.
  intros H. unfold switchTimezone.
  change (getCurrentTimezone (set_currentTimezoneIndex i s))
    with (TIMEZONES_at i).
  rewrite H. reflexivity.
Qed.

Lemma switchTimezone_dstFields g i s :
  autoModeEnabled s = true ->
  flagRespectsTimezone (dstFields (switchTimezone g i s)).
Proof.
  intros Ha. unfold switchTimezone.
  change (getCurrentTimezone (set_currentTimezoneIndex i s))
    with (TIMEZONES_at i).
  destruct (observesDST (TIMEZONES_at i)) eqn:E;
    unfold flagRespectsTimezone, dstFields;
    cbn [autoModeEnabled currentTimezoneIndex isDSTActive set_isDSTActive
         set_currentTimezoneIndex];
    (split; [exact Ha|]); intros E'; [congruence|reflexivity].
Qed.

Lemma updateGPSData_dstFields inp w :
  dstFields (clockState (updateGPSData inp w)) = dstFields (clockState w).
Proof.
  unfold updateGPSData.
  destruct (nmea inp) as [[parsed g]|]; [|reflexivity].
  destruct parsed; [|reflexivity].
  cbn [clockState with_gps with_clockState].
  destruct (Gps.fix_ g); cbn; [|reflexivity].
  destruct (movedBeyondTolerance inp); reflexivity.
Qed.

Lemma updateLocationIfNeeded_dstFields inp g s :
  AUTO_MODE_PIN inp = LOW ->
  flagRespectsTimezone (dstFields s) ->
  flagRespectsTimezone (dstFields (updateLocationIfNeeded inp g s)).
Proof.
  intros Hpin Hs. unfold updateLocationIfNeeded.
  destruct (negb (gpsFixValid s)); [exact Hs|].
  set (s1 := if (_ >=? _) || locationChanged s then _ else s).
  assert (H1 : flagRespectsTimezone (dstFields s1)).
  { subst s1. destruct ((_ >=? _) || locationChanged s); [|exact Hs].
    destruct (locationChanged s || Qeq_bool (lastLat s) 0); [|exact Hs].
    destruct (negb (_ =? currentTimezoneIndex s)); [|exact Hs].
    apply (switchTimezone_dstFields g
             (detectTimezoneFromLocation (Gps.latitudeDegrees g)
                                         (Gps.longitudeDegrees g)) s).
    destruct Hs as [Ha _]. exact Ha. }
  rewrite Hpin. cbn [isLOW].
  assert (Ha1 : autoModeEnabled s1 = true) by (destruct H1 as [Ha _]; exact Ha).
  rewrite Ha1. cbn. exact H1.
Qed.

Lemma reachable_auto_flag w :
  reachable_auto w -> flagRespectsTimezone (dstFields (clockState w)).
Proof.
  induction 1 as [g inp Hpin | inp w Hpin _ IH].
  - unfold setup, initializePins. cbn. rewrite Hpin. cbn.
    split; [reflexivity|discriminate].
  - unfold loop. cbv zeta.
    set (w1 := updateGPSData inp w).
    assert (H1 : flagRespectsTimezone (dstFields (clockState w1)))
      by (subst w1; rewrite updateGPSData_dstFields; exact IH).
    assert (Ha1 : autoModeEnabled (clockState w1) = true)
      by (destruct H1 as [Ha _]; exact Ha).
    rewrite Ha1.
    pose proof (updateLocationIfNeeded_dstFields inp (gps w1) (clockState w1)
                  Hpin H1) as H2.
    destruct (uint32 _ >=? DISPLAY_UPDATE_MS).
    + cbn [clockState with_clockState].
      rewrite GpsFacts.updateDisplay_clockState. exact H2.
    + exact H2.
Qed.

End DstFlagFacts.

(** C6, as stated: in every reachable state a timezone without DST has
    [isDSTActive] false.  After [setup] in manual mode with the selector on
    Atlantic Standard and the DST switch on, the index is 4, the entry does
    not observe DST, and [isDSTActive] is true. *)
Lemma isDSTActive_set_without_observesDST :
  AutoTz.reachable Scenario.manual_atlantic_world
  /\ AutoTz.currentTimezoneIndex
       (AutoTz.clockState Scenario.manual_atlantic_world) = 4
  /\ AutoTz.observesDST
       (AutoTz.getCurrentTimezone
          (AutoTz.clockState Scenario.manual_atlantic_world)) = false
  /\ AutoTz.isDSTActive
       (AutoTz.clockState Scenario.manual_atlantic_world) = true
  /\ ~ (forall w,
           AutoTz.reachable w ->
           AutoTz.observesDST (AutoTz.getCurrentTimezone (AutoTz.clockState w))
           = false ->
           AutoTz.isDSTActive (AutoTz.clockState w) = false).
Proof.
  split; [apply AutoTz.reachable_setup|].
  split; [reflexivity|]. split; [reflexivity|]. split; [reflexivity|].
  intros H.
  specialize (H Scenario.manual_atlantic_world
                (AutoTz.reachable_setup _ _) eq_refl).
  discriminate H.
Qed.

(** C6, amended: for a timezone that does not observe DST the DST offset
    applied is 0 in every state, whatever [isDSTActive] holds (the switch
    update stores the raw DST switch there); a timezone change in auto mode
    to such a timezone sets [isDSTActive] to false; and in every state
    reached while the sketch has stayed in auto mode, [isDSTActive] is false
    for such a timezone. *)
Theorem no_DST_offset_without_observesDST :
  (forall s,
      AutoTz.observesDST (AutoTz.getCurrentTimezone s) = false ->
      AutoTz.getDSTOffset s = 0
      /\ AutoTz.calculateTimezoneOffset s
         = AutoTz.utcOffset (AutoTz.getCurrentTimezone s))
  /\ (forall g i s,
         AutoTz.observesDST (AutoTz.TIMEZONES_at i) = false ->
         AutoTz.isDSTActive (AutoTz.switchTimezone g i s) = false)
  /\ (forall w,
         Props.reachable_auto w ->
         AutoTz.observesDST (AutoTz.getCurrentTimezone (AutoTz.clockState w))
         = false ->
         AutoTz.isDSTActive (AutoTz.clockState w) = false).
Proof.
  split; [|split].
  - intros s H.
    unfold AutoTz.calculateTimezoneOffset, AutoTz.getTimezoneOffset.
    rewrite (DstFlagFacts.getDSTOffset_without_DST s H).
    split; [reflexivity|lia].
  - exact DstFlagFacts.switchTimezone_without_DST.
  - intros w Hw Hobs.
    pose proof (DstFlagFacts.reachable_auto_flag w Hw) as [_ Hflag].
    apply Hflag. exact Hobs.
Qed.

(** In the state of the counterexample the flag is set and the offset
    applied is still that of Atlantic Standard alone. *)
Lemma no_DST_offset_without_observesDST_witness :
  AutoTz.getDSTOffset (AutoTz.clockState Scenario.manual_atlantic_world) = 0.
Proof.
  apply (proj1 no_DST_offset_without_observesDST). reflexivity.
Defined.

(** ** Sunday rules *)

Module SundayFacts.
Import AutoTz Enumeration.

Lemma In_months m : 1 <= m <= 12 -> In m months.
Proof.
  intros Hm. unfold months. rewrite <- (Z2Nat.id m) by lia.
  apply in_map. apply in_seq. lia.
Qed.

Lemma In_years y : 0 <= y <= 99 -> In y years.
Proof.
  intros Hy. unfold years. rewrite <- (Z2Nat.id y) by lia.
  apply in_map. apply in_seq. lia.
Qed.

Lemma everywhere_at p :
  everywhere p = true ->
  forall m y, 1 <= m <= 12 -> 0 <= y <= 99 -> p y m = true.
Proof.
  intros H m y Hm Hy. unfold everywhere in H.
  rewrite forallb_forall in H. specialize (H y (In_years y Hy)).
  rewrite forallb_forall in H. exact (H m (In_months m Hm)).
Qed.

(** The value returned is a day of the first week, whatever the input. *)
Lemma calculateFirstSunday_range m y : 1 <= calculateFirstSunday m y <= 7.
Proof.
  unfold calculateFirstSunday. cbv zeta.
  match goal with
  | |- context [Z.rem (uint8 ?e + 5) 7] =>
      pose proof (uint8_range e) as Hd; set (d := uint8 e) in *
  end.
  assert (Hr : 0 <= Z.rem (d + 5) 7 < 7) by (apply Z.rem_bound_pos; lia).
  rewrite (uint8_small (Z.rem (d + 5) 7)) by lia.
  destruct (Z.rem (d + 5) 7 =? 0) eqn:E; [lia|].
  apply Z.eqb_neq in E. rewrite uint8_small by lia. lia.
Qed.

(** The second Sunday is the first plus seven, without wrap-around. *)
Lemma calculateSecondSunday_plus_7 m y :
  calculateSecondSunday m y = calculateFirstSunday m y + 7.
Proof.
  unfold calculateSecondSunday. cbv zeta.
  pose proof (calculateFirstSunday_range m y). apply uint8_small. lia.
Qed.

Lemma calculateSecondSunday_range m y : 8 <= calculateSecondSunday m y <= 14.
Proof.
  rewrite calculateSecondSunday_plus_7.
  pose proof (calculateFirstSunday_range m y). lia.
Qed.

(** For every month and two-digit year the sketch's first Sunday is not
    the calendar's. *)
Lemma calculateFirstSunday_never_exact m y :
  1 <= m <= 12 -> 0 <= y <= 99 ->
  calculateFirstSunday m y <> Calendar.first_sunday y m.
Proof.
  intros Hm Hy.
  assert (H : everywhere differs = true) by (vm_compute; reflexivity).
  pose proof (everywhere_at differs H m y Hm Hy) as Hd.
  unfold differs in Hd. apply negb_true_iff, Z.eqb_neq in Hd. exact Hd.
Qed.

Lemma first_sunday_rule m y :
  1 <= m <= 12 -> 0 <= y <= 99 ->
  Calendar.first_sunday y m
  = if Calendar.weekday y m 1 =? 0 then 1 else 8 - Calendar.weekday y m 1.
Proof.
  intros Hm Hy.
  assert (H : everywhere followsRule = true) by (vm_compute; reflexivity).
  pose proof (everywhere_at followsRule H m y Hm Hy) as Hd.
  unfold followsRule in Hd. apply Z.eqb_eq in Hd. exact Hd.
Qed.

End SundayFacts.

(** C2: for months 1..12 and years 0..99, [calculateFirstSunday] must
    return the day of the first Sunday of the month and
    [calculateSecondSunday] that day plus 7.  For March 2024 the 1st is a
    Friday, the Sundays are the 3rd and the 10th, and the sketch returns 5
    and 12; its November 2024 value is 5, where the calendar has 3. *)
Theorem calculateFirstSunday_march_2024 :
  Calendar.weekday 24 3 1 = 5
  /\ Calendar.first_sunday 24 3 = 3
  /\ Calendar.second_sunday 24 3 = 10
  /\ AutoTz.calculateFirstSunday 3 24 = 5
  /\ AutoTz.calculateSecondSunday 3 24 = 12
  /\ Calendar.first_sunday 24 11 = 3
  /\ AutoTz.calculateFirstSunday 11 24 = 5.
Proof. repeat split; reflexivity. Qed.

(** ** Daylight saving *)

Module DstFacts.

(** Comparison tests as propositions. *)
Ltac tests :=
  repeat match goal with
         | |- context [?a <? ?b] => destruct (Z.ltb_spec a b)
         | |- context [?a =? ?b] => destruct (Z.eqb_spec a b)
         | |- context [?a <=? ?b] => destruct (Z.leb_spec a b)
         end.

(** How [calculateDSTAuto] decides once the fix is valid: by the timezone,
    then by the month, and in March and November by comparing the day with
    the value of [calculateSecondSunday] and [calculateFirstSunday]. *)
Lemma calculateDSTAuto_by_month g s :
  AutoTz.gpsFixValid s = true ->
  (AutoTz.observesDST (AutoTz.getCurrentTimezone s) = false ->
   AutoTz.calculateDSTAuto g s = false)
  /\ (AutoTz.observesDST (AutoTz.getCurrentTimezone s) = true ->
      (4 <= Gps.month g <= 10 -> AutoTz.calculateDSTAuto g s = true)
      /\ (Gps.month g < 3 \/ 11 < Gps.month g ->
          AutoTz.calculateDSTAuto g s = false)
      /\ (Gps.month g = 3 ->
          AutoTz.calculateDSTAuto g s
          = (Gps.day g >=? AutoTz.calculateSecondSunday 3 (Gps.year g)))
      /\ (Gps.month g = 11 ->
          AutoTz.calculateDSTAuto g s
          = (Gps.day g <? AutoTz.calculateFirstSunday 11 (Gps.year g)))).
Proof.
  intros Hfix. unfold AutoTz.calculateDSTAuto. rewrite Hfix. cbn [negb].
  split; [intros ->; reflexivity|]. intros ->. cbn [negb]. cbv zeta.
  rewrite !Z.gtb_ltb.
  repeat split; intros Hm; tests; cbn [orb andb]; try reflexivity; try lia.
Qed.

(** Without a valid fix the answer is false for every date. *)
Lemma calculateDSTAuto_without_fix g s :
  AutoTz.gpsFixValid s = false -> AutoTz.calculateDSTAuto g s = false.
Proof. intros H. unfold AutoTz.calculateDSTAuto. rewrite H. reflexivity. Qed.

End DstFacts.

(** C1: with the US rule, DST in March starts on the second Sunday and in
    November ends on the first Sunday; for 2024 these are March 10 and
    November 3, so March 9 -> false, March 10 -> true, November 2 -> true,
    November 3 -> false.  The sketch, with a valid fix and Pacific Standard
    selected, compares with 12 and 5 instead: it answers false on March 10
    and true on November 3. *)
Theorem calculateDSTAuto_transitions_2024 :
  Calendar.second_sunday 24 3 = 10
  /\ Calendar.first_sunday 24 11 = 3
  /\ AutoTz.calculateSecondSunday 3 24 = 12
  /\ AutoTz.calculateFirstSunday 11 24 = 5
  /\ AutoTz.calculateDSTAuto (Scenario.noon 9 3 24) Scenario.auto_pacific
     = false
  /\ AutoTz.calculateDSTAuto (Scenario.noon 10 3 24) Scenario.auto_pacific
     = false
  /\ AutoTz.calculateDSTAuto (Scenario.noon 2 11 24) Scenario.auto_pacific
     = true
  /\ AutoTz.calculateDSTAuto (Scenario.noon 3 11 24) Scenario.auto_pacific
     = true.
Proof. repeat split; reflexivity. Qed.

(** C10, as stated: the approximate and the exact calculator return the
    same boolean for every date.  On March 8, 2024, with a valid fix and
    Pacific Standard in both sketches, the approximate one answers true and
    the exact one false (the second Sunday of March 2024 is the 10th). *)
Lemma approximate_DST_differs_march_8_2024 :
  TzDst.observesDST (TzDst.getCurrentTimezone Scenario.manual_pacific) = true
  /\ AutoTz.observesDST (AutoTz.getCurrentTimezone Scenario.auto_pacific)
     = true
  /\ Calendar.second_sunday 24 3 = 10
  /\ TzDst.calculateDSTAuto (Scenario.noon 8 3 24) Scenario.manual_pacific
     = true
  /\ AutoTz.calculateDSTAuto (Scenario.noon 8 3 24) Scenario.auto_pacific
     = false.
Proof. repeat split; reflexivity. Qed.

(** C10, amended: with the same fix flag and the same DST eligibility in
    both sketches, the approximate and the exact calculator return the same
    boolean for every date outside March and November, in March before the
    8th and from the 14th on, and in November from the 7th on; and whenever
    the exact calculator answers true, so does the approximate one. *)
Theorem approximate_DST_covers_exact (g : Gps.t)
        (s1 : TzDst.ClockState) (s2 : AutoTz.ClockState) :
  TzDst.gpsFixValid s1 = AutoTz.gpsFixValid s2 ->
  TzDst.observesDST (TzDst.getCurrentTimezone s1)
  = AutoTz.observesDST (AutoTz.getCurrentTimezone s2) ->
  (Gps.month g <> 3 -> Gps.month g <> 11 ->
   TzDst.calculateDSTAuto g s1 = AutoTz.calculateDSTAuto g s2)
  /\ (Gps.month g = 3 -> Gps.day g < 8 \/ 14 <= Gps.day g ->
      TzDst.calculateDSTAuto g s1 = AutoTz.calculateDSTAuto g s2)
  /\ (Gps.month g = 11 -> 7 <= Gps.day g ->
      TzDst.calculateDSTAuto g s1 = AutoTz.calculateDSTAuto g s2)
  /\ (AutoTz.calculateDSTAuto g s2 = true ->
      TzDst.calculateDSTAuto g s1 = true).
Proof.
  intros Hfix Hobs.
  unfold TzDst.calculateDSTAuto, AutoTz.calculateDSTAuto.
  rewrite Hfix, Hobs.
  destruct (AutoTz.gpsFixValid s2); cbn [negb];
    [|repeat split; intros; congruence].
  destruct (AutoTz.observesDST (AutoTz.getCurrentTimezone s2)); cbn [negb];
    [|repeat split; intros; congruence].
  cbv zeta.
  pose proof (SundayFacts.calculateSecondSunday_range 3 (Gps.year g)) as Hss.
  pose proof (SundayFacts.calculateFirstSunday_range 11 (Gps.year g)) as Hfs.
  rewrite !Z.gtb_ltb, !Z.geb_leb.
  repeat split; DstFacts.tests; cbn [orb andb]; intros;
    try reflexivity; try lia; try discriminate.
Qed.

Lemma approximate_DST_covers_exact_witness :
  TzDst.calculateDSTAuto (Scenario.noon 14 3 24) Scenario.manual_pacific
  = AutoTz.calculateDSTAuto (Scenario.noon 14 3 24) Scenario.auto_pacific.
Proof.
  apply (proj1 (proj2 (approximate_DST_covers_exact
                         (Scenario.noon 14 3 24) Scenario.manual_pacific
                         Scenario.auto_pacific eq_refl eq_refl)) eq_refl).
  right. cbn. lia.
Defined.

(** * Further properties of the sketches *)

(** ** Time composition *)

Module ComposeFacts.
Import AutoTz Props.

(** An index within the table is one of its eight positions. *)
Lemma index_cases i :
  0 <= i < NUM_TIMEZONES ->
  i = 0 \/ i = 1 \/ i = 2 \/ i = 3 \/ i = 4 \/ i = 5 \/ i = 6 \/ i = 7.
Proof. rewrite DetectFacts.NUM_TIMEZONES_eq. lia. Qed.

Ltac each_index H :=
  destruct (index_cases _ H) as [E|[E|[E|[E|[E|[E|[E|E]]]]]]].

(** Replace the entries read at literal indices by their contents. *)
Ltac read_table :=
  repeat match goal with
         | |- context [TIMEZONES_at ?k] =>
             let t := eval vm_compute in (TIMEZONES_at k) in
             change (TIMEZONES_at k) with t
         end.

Lemma calculateTimezoneOffset_range s :
  indexInRange s -> -10 <= calculateTimezoneOffset s <= 0.
Proof.
  intros H. unfold calculateTimezoneOffset, getTimezoneOffset, getDSTOffset,
              getCurrentTimezone.
  each_index H; rewrite E; read_table; cbn; destruct (isDSTActive s); lia.
Qed.

Lemma updateTimeFromGPS_hours g s :
  hours (updateTimeFromGPS g s)
  = (Gps.hour g + calculateTimezoneOffset s) mod 24.
Proof.
  unfold updateTimeFromGPS. cbn [hours set_seconds set_minutes set_hours].
  rewrite NormalizeFacts.normalizeHours_mod.
  apply uint8_small.
  pose proof (Z.mod_pos_bound (Gps.hour g + calculateTimezoneOffset s) 24
                eq_refl). lia.
Qed.

Lemma updateGPSData_hours inp w :
  0 <= hours (clockState w) <= 23 ->
  0 <= hours (clockState (updateGPSData inp w)) <= 23.
Proof.
  intros Hw. unfold updateGPSData.
  destruct (nmea inp) as [[parsed g]|]; [|exact Hw].
  destruct parsed; [|exact Hw].
  cbn [clockState with_gps with_clockState].
  destruct (Gps.fix_ g); cbn [gpsFixValid set_gpsFixValid]; [|exact Hw].
  assert (H : 0 <= hours (updateTimeFromGPS g
                            (set_gpsFixValid true (clockState w))) <= 23).
  { rewrite updateTimeFromGPS_hours.
    match goal with
    | |- _ <= ?x mod 24 <= _ => pose proof (Z.mod_pos_bound x 24 eq_refl)
    end. lia. }
  destruct (movedBeyondTolerance inp); exact H.
Qed.

(** After the GPS data are read, a pass of [loop] no longer touches the
    time or the fix flag. *)
Lemma loop_timeFields inp w :
  timeFields (clockState (loop inp w))
  = timeFields (clockState (updateGPSData inp w)).
Proof.
  unfold loop. cbv zeta.
  set (w1 := updateGPSData inp w).
  pose proof (GpsFacts.resolver_timeFields inp (gps w1) (clockState w1))
    as Hres.
  destruct (uint32 _ >=? DISPLAY_UPDATE_MS).
  - cbn [clockState with_clockState].
    rewrite GpsFacts.updateDisplay_clockState. exact Hres.
  - exact Hres.
Qed.

Lemma reachable_hours w : reachable w -> 0 <= hours (clockState w) <= 23.
Proof.
  induction 1 as [g inp | inp w _ IH].
  - pose proof (Frame.updateTimezoneSettings_timeFields inp
                  (set_autoModeEnabled (isLOW (AUTO_MODE_PIN inp))
                                       clockState0)) as Ht.
    unfold setup, initializePins. cbn [clockState with_clockState].
    cbn [initializeDisplay emit clockState power_on].
    destruct (negb (autoModeEnabled _)).
    + unfold timeFields in Ht. injection Ht as -> _ _ _. cbn. lia.
    + cbn. lia.
  - pose proof (loop_timeFields inp w) as Ht.
    unfold timeFields in Ht. injection Ht as -> _ _ _.
    apply updateGPSData_hours. exact IH.
Qed.

End ComposeFacts.

(** X1: in every state the auto-timezone sketch reaches, [hours] is a
    valid hour of the day, whatever the GPS object, the pins and the timers
    delivered (including hour fields above 23). *)
Theorem hours_within_day (w : AutoTz.World) :
  AutoTz.reachable w -> 0 <= AutoTz.hours (AutoTz.clockState w) <= 23.
Proof. exact (ComposeFacts.reachable_hours w). Qed.

Lemma hours_within_day_witness :
  0 <= AutoTz.hours
         (AutoTz.clockState
            (AutoTz.loop (Scenario.pass_with Scenario.afternoon)
                         Scenario.manual_atlantic_world)) <= 23.
Proof.
  apply hours_within_day.
  apply AutoTz.reachable_loop. apply AutoTz.reachable_setup.
Defined.

(** X2: [updateTimeFromGPS] sets the local hour to the UTC hour plus the
    zone's offset, plus the zone's DST offset when the zone observes DST
    and the flag is set, reduced modulo 24; it copies minutes and seconds
    and leaves the timezone index and the DST flag alone.  For an index
    within the table the offset added lies between -10 and 0. *)
Theorem updateTimeFromGPS_composes (g : Gps.t) (s : AutoTz.ClockState) :
  AutoTz.hours (AutoTz.updateTimeFromGPS g s)
  = (Gps.hour g
     + AutoTz.utcOffset (AutoTz.getCurrentTimezone s)
     + (if AutoTz.observesDST (AutoTz.getCurrentTimezone s)
           && AutoTz.isDSTActive s
        then AutoTz.dstOffset (AutoTz.getCurrentTimezone s) else 0)) mod 24
  /\ AutoTz.minutes (AutoTz.updateTimeFromGPS g s) = Gps.minute g
  /\ AutoTz.seconds (AutoTz.updateTimeFromGPS g s) = Gps.seconds g
  /\ AutoTz.currentTimezoneIndex (AutoTz.updateTimeFromGPS g s)
     = AutoTz.currentTimezoneIndex s
  /\ AutoTz.isDSTActive (AutoTz.updateTimeFromGPS g s) = AutoTz.isDSTActive s
  /\ (Props.indexInRange s -> -10 <= AutoTz.calculateTimezoneOffset s <= 0).
Proof.
  split.
  - rewrite ComposeFacts.updateTimeFromGPS_hours.
    unfold AutoTz.calculateTimezoneOffset, AutoTz.getTimezoneOffset,
      AutoTz.getDSTOffset.
    destruct (AutoTz.observesDST (AutoTz.getCurrentTimezone s));
      destruct (AutoTz.isDSTActive s); cbn [negb andb];
      f_equal; lia.
  - do 4 (split; [reflexivity|]).
    apply ComposeFacts.calculateTimezoneOffset_range.
Qed.

Lemma updateTimeFromGPS_composes_witness :
  -10 <= AutoTz.calculateTimezoneOffset Scenario.auto_pacific <= 0.
Proof.
  apply (updateTimeFromGPS_composes Scenario.afternoon Scenario.auto_pacific).
  unfold Props.indexInRange. rewrite DetectFacts.NUM_TIMEZONES_eq. cbn. lia.
Defined.

(** ** Display *)

Module DisplayFacts.
Import AutoTz.

Lemma mod12_cases h :
  0 <= h <= 23 -> h mod 12 = if h <? 12 then h else h - 12.
Proof.
  intros Hh. destruct (Z.ltb_spec h 12).
  - apply Z.mod_small. lia.
  - replace h with (h - 12 + 1 * 12) at 1 by ring.
    rewrite Z.mod_add by lia. apply Z.mod_small. lia.
Qed.

Lemma convertTo12Hour_cases h :
  convertTo12Hour h
  = if h =? 0 then 12 else if 12 <? h then h - 12 else h.
Proof. unfold convertTo12Hour. rewrite Z.gtb_ltb. reflexivity. Qed.

Lemma convertTo12Hour_range h :
  0 <= h <= 23 -> 1 <= convertTo12Hour h <= 12.
Proof.
  intros Hh. rewrite convertTo12Hour_cases.
  destruct (Z.eqb_spec h 0); [lia|]. destruct (Z.ltb_spec 12 h); lia.
Qed.

(** Elapsed time read off two [millis()] values, across the 32-bit
    roll-over. *)
Lemma uint32_elapsed last d :
  0 <= last < 4294967296 -> 0 <= d < 4294967296 ->
  uint32 (uint32 (last + d) - last) = d.
Proof.
  intros Hl Hd. unfold uint32.
  rewrite Zminus_mod_idemp_l.
  replace (last + d - last) with d by ring.
  apply Z.mod_small. exact Hd.
Qed.

(** A due call of [showNoGPSIndicator]. *)
Lemma showNoGPSIndicator_due inp w :
  500 <= uint32 (millis_blinkTest inp - lastBlink w) ->
  showNoGPSIndicator inp w
  = mkWorld (clockState w) (gps w) (millis_blinkStamp inp)
            (negb (blinkState w))
            (display w
             ++ (if negb (blinkState w) then [Print 0; DrawColon true]
                 else [Clear]) ++ [WriteDisplay]).
Proof.
  intros H. apply Z.geb_le in H. unfold showNoGPSIndicator. rewrite H.
  reflexivity.
Qed.

End DisplayFacts.

(** X3: the 12-hour display does not tell morning from afternoon: two
    hours of the day are shown as the same hour exactly when they differ by
    0 or 12. *)
Theorem convertTo12Hour_same_display (h1 h2 : Z) :
  0 <= h1 <= 23 -> 0 <= h2 <= 23 ->
  (AutoTz.convertTo12Hour h1 = AutoTz.convertTo12Hour h2
   <-> h1 mod 12 = h2 mod 12).
Proof.
  intros H1 H2.
  rewrite (DisplayFacts.mod12_cases h1 H1), (DisplayFacts.mod12_cases h2 H2).
  rewrite !DisplayFacts.convertTo12Hour_cases.
  destruct (Z.eqb_spec h1 0), (Z.eqb_spec h2 0),
    (Z.ltb_spec 12 h1), (Z.ltb_spec 12 h2),
    (Z.ltb_spec h1 12), (Z.ltb_spec h2 12); split; intros; lia.
Qed.

Lemma convertTo12Hour_same_display_witness :
  AutoTz.convertTo12Hour 7 = AutoTz.convertTo12Hour 19.
Proof.
  apply (convertTo12Hour_same_display 7 19); [lia | lia | reflexivity].
Defined.

(** X4: in a reachable state with a valid fix and minutes below 60, the
    integer sent to the display reads as hh:mm: it is 100 times the 12-hour
    value of [hours] plus [minutes], its quotient by 100 is that hour, in
    1..12, and its remainder the minutes; so it lies in 100..1259. *)
Theorem displayed_value_reads_as_time (inp : AutoTz.Input)
        (w : AutoTz.World) :
  AutoTz.reachable w ->
  AutoTz.gpsFixValid (AutoTz.clockState w) = true ->
  0 <= AutoTz.minutes (AutoTz.clockState w) <= 59 ->
  exists v,
    AutoTz.display (AutoTz.updateDisplay inp w)
    = AutoTz.display w
      ++ [Print v;
          DrawColon (Z.even (AutoTz.seconds (AutoTz.clockState w)));
          WriteDisplay]
    /\ 100 <= v <= 1259
    /\ v / 100 = AutoTz.convertTo12Hour (AutoTz.hours (AutoTz.clockState w))
    /\ 1 <= v / 100 <= 12
    /\ v mod 100 = AutoTz.minutes (AutoTz.clockState w).
Proof.
  intros Hr Hfix Hm.
  pose proof (ComposeFacts.reachable_hours w Hr) as Hh.
  pose proof (DisplayFacts.convertTo12Hour_range _ Hh) as Hc.
  set (h12 := AutoTz.convertTo12Hour (AutoTz.hours (AutoTz.clockState w)))
    in *.
  set (m := AutoTz.minutes (AutoTz.clockState w)) in *.
  exists (h12 * 100 + m).
  assert (Hq : (h12 * 100 + m) / 100 = h12).
  { rewrite Z.add_comm, Z.div_add by lia.
    rewrite Z.div_small by lia. reflexivity. }
  split; [|split; [lia|split; [exact Hq|split; [rewrite Hq; exact Hc|]]]].
  - unfold AutoTz.updateDisplay. rewrite Hfix. cbn [negb].
    unfold AutoTz.renderTime. cbn. rewrite <- Zeven_rem. reflexivity.
  - rewrite Z.add_comm, Z.mod_add by lia. apply Z.mod_small. lia.
Qed.

Lemma displayed_value_reads_as_time_witness :
  exists v,
    AutoTz.display
      (AutoTz.updateDisplay (Scenario.pass_with Scenario.afternoon)
         (AutoTz.loop (Scenario.pass_with Scenario.afternoon)
                      Scenario.manual_atlantic_world))
    = AutoTz.display (AutoTz.loop (Scenario.pass_with Scenario.afternoon)
                                  Scenario.manual_atlantic_world)
      ++ [Print v; DrawColon false; WriteDisplay]
    /\ 100 <= v <= 1259.
Proof.
  destruct (displayed_value_reads_as_time
              (Scenario.pass_with Scenario.afternoon)
              (AutoTz.loop (Scenario.pass_with Scenario.afternoon)
                           Scenario.manual_atlantic_world))
    as (v & Hd & Hv & _).
  - apply AutoTz.reachable_loop. apply AutoTz.reachable_setup.
  - reflexivity.
  - vm_compute. split; discriminate.
  - exists v. split; [exact Hd | exact Hv].
Defined.

(** X5: two calls of [showNoGPSIndicator] that are both due bring
    [blinkState] back to where it was and send the display one frame with
    the zero and the colon and one blank frame, the zero first when
    [blinkState] was false. *)
Theorem showNoGPSIndicator_alternates (inp1 inp2 : AutoTz.Input)
        (w : AutoTz.World) :
  500 <= uint32 (AutoTz.millis_blinkTest inp1 - AutoTz.lastBlink w) ->
  500 <= uint32 (AutoTz.millis_blinkTest inp2
                 - AutoTz.millis_blinkStamp inp1) ->
  let w2 := AutoTz.showNoGPSIndicator inp2
              (AutoTz.showNoGPSIndicator inp1 w) in
  AutoTz.blinkState w2 = AutoTz.blinkState w
  /\ AutoTz.lastBlink w2 = AutoTz.millis_blinkStamp inp2
  /\ AutoTz.clockState w2 = AutoTz.clockState w
  /\ AutoTz.display w2
     = AutoTz.display w
       ++ (if AutoTz.blinkState w
           then [Clear; WriteDisplay; Print 0; DrawColon true; WriteDisplay]
           else [Print 0; DrawColon true; WriteDisplay; Clear; WriteDisplay]).
Proof.
  intros H1 H2 w2. subst w2.
  rewrite (DisplayFacts.showNoGPSIndicator_due inp1 w H1).
  rewrite DisplayFacts.showNoGPSIndicator_due by exact H2.
  cbn [AutoTz.lastBlink AutoTz.blinkState AutoTz.display AutoTz.clockState].
  rewrite negb_involutive, <- app_assoc.
  destruct (AutoTz.blinkState w); repeat split; reflexivity.
Qed.

Lemma showNoGPSIndicator_alternates_witness :
  AutoTz.display
    (AutoTz.showNoGPSIndicator
       (AutoTz.mkInput HIGH HIGH HIGH HIGH LOW None false
                       0 0 0 0 0 0 1200 1200)
       (AutoTz.showNoGPSIndicator Scenario.pass_without_fix
                                  Scenario.pacific_dst_world))
  = [Print 0; DrawColon true; WriteDisplay; Clear; WriteDisplay].
Proof.
  apply (showNoGPSIndicator_alternates Scenario.pass_without_fix
           (AutoTz.mkInput HIGH HIGH HIGH HIGH LOW None false
                           0 0 0 0 0 0 1200 1200)
           Scenario.pacific_dst_world).
  - vm_compute. discriminate.
  - vm_compute. discriminate.
Defined.

(** X6: the interval tests survive the roll-over of [millis()]: when the
    timer has advanced by [d] milliseconds since the stored stamp, counted
    modulo 2^32, the switches are polled exactly when [d] is at least 1000
    and the no-fix indicator blinks exactly when [d] is at least 500. *)
Theorem interval_tests_across_rollover (inp : AutoTz.Input) (d : Z) :
  0 <= d < 4294967296 ->
  (forall s,
      0 <= AutoTz.lastTimezoneCheck s < 4294967296 ->
      AutoTz.millis_timezoneTest inp
      = uint32 (AutoTz.lastTimezoneCheck s + d) ->
      AutoTz.updateTimezoneIfNeeded inp s
      = if 1000 <=? d
        then AutoTz.set_lastTimezoneCheck (AutoTz.millis_timezoneStamp inp)
               (AutoTz.updateTimezoneSettings inp s)
        else s)
  /\ (forall w,
         0 <= AutoTz.lastBlink w < 4294967296 ->
         AutoTz.millis_blinkTest inp = uint32 (AutoTz.lastBlink w + d) ->
         d < 500 -> AutoTz.showNoGPSIndicator inp w = w)
  /\ (forall w,
         0 <= AutoTz.lastBlink w < 4294967296 ->
         AutoTz.millis_blinkTest inp = uint32 (AutoTz.lastBlink w + d) ->
         500 <= d ->
         AutoTz.blinkState (AutoTz.showNoGPSIndicator inp w)
         = negb (AutoTz.blinkState w)).
Proof.
  intros Hd. split; [|split].
  - intros s Hl Ht. unfold AutoTz.updateTimezoneIfNeeded.
    rewrite Ht, DisplayFacts.uint32_elapsed by assumption.
    rewrite Z.geb_leb. reflexivity.
  - intros w Hl Ht Hlt. unfold AutoTz.showNoGPSIndicator.
    rewrite Ht, DisplayFacts.uint32_elapsed by assumption.
    rewrite Z.geb_leb. destruct (Z.leb_spec 500 d); [lia|reflexivity].
  - intros w Hl Ht Hge. unfold AutoTz.showNoGPSIndicator.
    rewrite Ht, DisplayFacts.uint32_elapsed by assumption.
    rewrite Z.geb_leb. destruct (Z.leb_spec 500 d); [reflexivity|lia].
Qed.

(** A poll 1000 ms after a stamp taken 500 ms before the roll-over. *)
Lemma interval_tests_across_rollover_witness :
  AutoTz.updateTimezoneIfNeeded
    (AutoTz.mkInput HIGH HIGH HIGH HIGH HIGH None false 0 0 500 500 0 0 0 0)
    (AutoTz.set_lastTimezoneCheck 4294966796 AutoTz.clockState0)
  = AutoTz.set_lastTimezoneCheck 500
      (AutoTz.updateTimezoneSettings
         (AutoTz.mkInput HIGH HIGH HIGH HIGH HIGH None false
                         0 0 500 500 0 0 0 0)
         (AutoTz.set_lastTimezoneCheck 4294966796 AutoTz.clockState0)).
Proof.
  apply (proj1 (interval_tests_across_rollover
                  (AutoTz.mkInput HIGH HIGH HIGH HIGH HIGH None false
                                  0 0 500 500 0 0 0 0)
                  1000 ltac:(lia))
               (AutoTz.set_lastTimezoneCheck 4294966796 AutoTz.clockState0)).
  - cbn. lia.
  - reflexivity.
Defined.

(** ** Manual and auto mode *)

Module ModeFacts.
Import AutoTz Props.

Lemma Z_eqb_negb_false a b : negb (a =? b) = false <-> a = b.
Proof. rewrite negb_false_iff. apply Z.eqb_eq. Qed.

Lemma bool_eqb_negb_false a b : negb (Bool.eqb a b) = false <-> a = b.
Proof. rewrite negb_false_iff. apply Bool.eqb_true_iff. Qed.

(** What [applySwitches] leaves in the state. *)
Lemma applySwitches_fields sel dst s :
  autoModeEnabled (applySwitches sel dst s) = autoModeEnabled s
  /\ timezoneSwitchState (applySwitches sel dst s) = sel
  /\ dstSwitchState (applySwitches sel dst s) = dst
  /\ currentTimezoneIndex (applySwitches sel dst s)
     = (if sel =? timezoneSwitchState s then currentTimezoneIndex s
        else manualIndex sel)
  /\ isDSTActive (applySwitches sel dst s)
     = (if Bool.eqb dst (dstSwitchState s) then isDSTActive s else dst).
Proof.
  unfold applySwitches.
  destruct (Z.eqb_spec sel (timezoneSwitchState s)) as [Hs|Hs]; cbn [negb].
  - destruct (Bool.eqb dst (dstSwitchState s)) eqn:Hd; cbn [negb].
    + apply Bool.eqb_prop in Hd. repeat split; congruence.
    + repeat split; cbn; congruence.
  - cbn [dstSwitchState set_currentTimezoneIndex set_timezoneSwitchState].
    destruct (Bool.eqb dst (dstSwitchState s)) eqn:Hd; cbn [negb].
    + apply Bool.eqb_prop in Hd. repeat split; cbn; congruence.
    + repeat split; reflexivity.
Qed.

Lemma applySwitches_idempotent sel dst s :
  applySwitches sel dst (applySwitches sel dst s) = applySwitches sel dst s.
Proof.
  destruct (applySwitches_fields sel dst s) as (_ & Ht & Hd & _).
  unfold applySwitches at 1. cbv zeta.
  rewrite Ht, Z.eqb_refl. cbn [negb].
  rewrite Hd, Bool.eqb_reflx. reflexivity.
Qed.

Lemma updateTimezoneSettings_auto inp s :
  autoModeEnabled (updateTimezoneSettings inp s) = autoModeEnabled s.
Proof.
  unfold updateTimezoneSettings.
  destruct (autoModeEnabled s) eqn:Ha; [exact Ha|].
  destruct (applySwitches_fields (readTimezoneSwitches inp)
              (isLOW (DST_PIN inp)) s) as (H & _).
  rewrite H. exact Ha.
Qed.

Lemma manualIndex_selector sel : 0 <= sel <= 7 -> manualIndex sel = sel.
Proof.
  intros H. rewrite IndexFacts.manualIndex_mod by lia.
  rewrite DetectFacts.NUM_TIMEZONES_eq. apply Z.mod_small. lia.
Qed.

Lemma applySwitches_follows sel dst s :
  0 <= sel <= 7 -> followsSwitches s ->
  followsSwitches (applySwitches sel dst s)
  /\ currentTimezoneIndex (applySwitches sel dst s) = sel
  /\ isDSTActive (applySwitches sel dst s) = dst.
Proof.
  intros Hsel (Ha & Hi & Hr & Hd).
  destruct (applySwitches_fields sel dst s) as (Fa & Ft & Fd & Fi & Fa').
  assert (Hidx : currentTimezoneIndex (applySwitches sel dst s) = sel).
  { rewrite Fi. destruct (Z.eqb_spec sel (timezoneSwitchState s)).
    - congruence.
    - apply manualIndex_selector. exact Hsel. }
  assert (Hdst : isDSTActive (applySwitches sel dst s) = dst).
  { rewrite Fa'. destruct (Bool.eqb dst (dstSwitchState s)) eqn:E.
    - apply Bool.eqb_prop in E. rewrite E. exact Hd.
    - reflexivity. }
  unfold followsSwitches. rewrite Fa, Ft, Fd, Hidx, Hdst. auto.
Qed.

Lemma updateGPSData_switchFields inp w :
  switchFields (clockState (updateGPSData inp w))
  = switchFields (clockState w).
Proof.
  unfold updateGPSData.
  destruct (nmea inp) as [[parsed g]|]; [|reflexivity].
  destruct parsed; [|reflexivity].
  cbn [clockState with_gps with_clockState].
  destruct (Gps.fix_ g); cbn; [|reflexivity].
  destruct (movedBeyondTolerance inp); reflexivity.
Qed.

(** In manual mode the resolver step of [loop] is the switch poll. *)
Lemma loop_manual inp w :
  autoModeEnabled (clockState w) = false ->
  switchFields (clockState (loop inp w))
  = switchFields
      (updateTimezoneIfNeeded inp (clockState (updateGPSData inp w))).
Proof.
  intros Ha. unfold loop. cbv zeta.
  pose proof (updateGPSData_switchFields inp w) as Hg.
  set (w1 := updateGPSData inp w) in *.
  assert (Ha1 : autoModeEnabled (clockState w1) = false).
  { unfold switchFields in Hg. injection Hg as -> _ _ _ _. exact Ha. }
  rewrite Ha1.
  destruct (uint32 _ >=? DISPLAY_UPDATE_MS).
  - cbn [clockState with_clockState].
    rewrite GpsFacts.updateDisplay_clockState. reflexivity.
  - reflexivity.
Qed.

Lemma followsSwitches_fields s s' :
  switchFields s' = switchFields s -> followsSwitches s -> followsSwitches s'.
Proof.
  unfold switchFields, followsSwitches.
  intros H. injection H as -> -> -> -> ->. auto.
Qed.

Lemma updateTimezoneIfNeeded_follows inp s :
  followsSwitches s -> followsSwitches (updateTimezoneIfNeeded inp s).
Proof.
  intros Hs. unfold updateTimezoneIfNeeded.
  destruct (_ >=? _); [|exact Hs].
  apply (followsSwitches_fields (updateTimezoneSettings inp s));
    [reflexivity|].
  unfold updateTimezoneSettings.
  destruct Hs as (Ha & Hrest). rewrite Ha.
  apply applySwitches_follows.
  - apply IndexFacts.readTimezoneSwitches_range.
  - split; assumption.
Qed.

Lemma loop_follows inp w :
  followsSwitches (clockState w) -> followsSwitches (clockState (loop inp w)).
Proof.
  intros Hs.
  apply (followsSwitches_fields _ _ (loop_manual inp w (proj1 Hs))).
  apply updateTimezoneIfNeeded_follows.
  apply (followsSwitches_fields _ _ (updateGPSData_switchFields inp w)).
  exact Hs.
Qed.

Lemma passes_follows inps :
  forall w, followsSwitches (clockState w) ->
            followsSwitches (clockState (passes inps w)).
Proof.
  induction inps as [|inp inps IH]; intros w Hw; [exact Hw|].
  apply IH. apply loop_follows. exact Hw.
Qed.

Lemma setup_follows inp g :
  AUTO_MODE_PIN inp = HIGH ->
  followsSwitches (clockState (setup inp (power_on g))).
Proof.
  intros Hpin. unfold setup, initializePins.
  cbn [clockState with_clockState initializeDisplay emit power_on].
  rewrite Hpin. cbn [isLOW autoModeEnabled set_autoModeEnabled negb].
  unfold updateTimezoneSettings.
  cbn [autoModeEnabled set_autoModeEnabled].
  apply applySwitches_follows.
  - apply IndexFacts.readTimezoneSwitches_range.
  - unfold followsSwitches. cbn. repeat split; lia.
Qed.

Lemma loop_stays_manual inp w :
  autoModeEnabled (clockState w) = false ->
  autoModeEnabled (clockState (loop inp w)) = false.
Proof.
  intros Ha. pose proof (loop_manual inp w Ha) as H.
  pose proof (updateGPSData_switchFields inp w) as Hg.
  unfold switchFields in H, Hg.
  injection H as -> _ _ _ _. injection Hg as Hg _ _ _ _.
  unfold updateTimezoneIfNeeded. destruct (_ >=? _).
  - cbn [autoModeEnabled set_lastTimezoneCheck].
    rewrite updateTimezoneSettings_auto. congruence.
  - congruence.
Qed.

End ModeFacts.

(** X7: manual mode is never left.  Once [autoModeEnabled] is false, no
    sequence of passes of [loop] makes it true again, whatever pin 13
    reads: the pin is only read on the auto-mode path. *)
Theorem manual_mode_is_never_left (inps : list AutoTz.Input)
        (w : AutoTz.World) :
  AutoTz.autoModeEnabled (AutoTz.clockState w) = false ->
  AutoTz.autoModeEnabled (AutoTz.clockState (Props.passes inps w)) = false.
Proof.
  revert w. induction inps as [|inp inps IH]; intros w Hw; [exact Hw|].
  apply IH. apply ModeFacts.loop_stays_manual. exact Hw.
Qed.

Lemma manual_mode_is_never_left_witness :
  AutoTz.autoModeEnabled
    (AutoTz.clockState
       (Props.passes [Scenario.pass_with Scenario.afternoon;
                      Scenario.pass_without_fix]
                     Scenario.manual_atlantic_world)) = false.
Proof.
  apply manual_mode_is_never_left. reflexivity.
Defined.

(** X8: in auto mode without a valid fix the resolver does not run: a
    pass of [loop] changes [clockState], beyond what [updateGPSData] did,
    at most in [lastUpdate].  In particular the mode switch is not looked
    at, and the sketch stays in auto mode even with pin 13 HIGH. *)
Theorem auto_mode_without_fix_is_frozen (inp : AutoTz.Input)
        (w : AutoTz.World) :
  AutoTz.autoModeEnabled (AutoTz.clockState w) = true ->
  AutoTz.gpsFixValid (AutoTz.clockState (AutoTz.updateGPSData inp w))
  = false ->
  (AutoTz.clockState (AutoTz.loop inp w)
   = AutoTz.clockState (AutoTz.updateGPSData inp w)
   \/ AutoTz.clockState (AutoTz.loop inp w)
      = AutoTz.set_lastUpdate (AutoTz.millis_displayStamp inp)
          (AutoTz.clockState (AutoTz.updateGPSData inp w)))
  /\ AutoTz.autoModeEnabled (AutoTz.clockState (AutoTz.loop inp w)) = true.
Proof.
  intros Ha Hfix.
  pose proof (ModeFacts.updateGPSData_switchFields inp w) as Hg.
  set (w1 := AutoTz.updateGPSData inp w) in *.
  assert (Ha1 : AutoTz.autoModeEnabled (AutoTz.clockState w1) = true).
  { unfold Props.switchFields in Hg. injection Hg as -> _ _ _ _. exact Ha. }
  assert (Hloop :
            AutoTz.clockState (AutoTz.loop inp w) = AutoTz.clockState w1
            \/ AutoTz.clockState (AutoTz.loop inp w)
               = AutoTz.set_lastUpdate (AutoTz.millis_displayStamp inp)
                   (AutoTz.clockState w1)).
  { unfold AutoTz.loop. fold w1. cbv zeta. rewrite Ha1.
    unfold AutoTz.updateLocationIfNeeded. rewrite Hfix. cbn [negb].
    destruct (uint32 _ >=? AutoTz.DISPLAY_UPDATE_MS).
    - right. cbn [AutoTz.clockState AutoTz.with_clockState].
      rewrite GpsFacts.updateDisplay_clockState. reflexivity.
    - left. reflexivity. }
  split; [exact Hloop|].
  destruct Hloop as [-> | ->]; exact Ha1.
Qed.

(** A pass without fix in which pin 13 reads HIGH. *)
Lemma auto_mode_without_fix_is_frozen_witness :
  AutoTz.autoModeEnabled
    (AutoTz.clockState
       (AutoTz.loop
          (AutoTz.mkInput LOW LOW LOW LOW HIGH None false
                          0 0 0 0 0 0 0 0)
          Scenario.pacific_dst_world)) = true.
Proof.
  apply (auto_mode_without_fix_is_frozen
           (AutoTz.mkInput LOW LOW LOW LOW HIGH None false 0 0 0 0 0 0 0 0)
           Scenario.pacific_dst_world); reflexivity.
Defined.

(** X9: polling the switches twice with the same pin levels is the same as
    polling them once: the second poll finds nothing changed. *)
Theorem updateTimezoneSettings_idempotent (inp : AutoTz.Input)
        (s : AutoTz.ClockState) :
  AutoTz.updateTimezoneSettings inp (AutoTz.updateTimezoneSettings inp s)
  = AutoTz.updateTimezoneSettings inp s.
Proof.
  pose proof (ModeFacts.updateTimezoneSettings_auto inp s) as Ha.
  unfold AutoTz.updateTimezoneSettings at 1. rewrite Ha.
  unfold AutoTz.updateTimezoneSettings.
  destruct (AutoTz.autoModeEnabled s); [reflexivity|].
  apply ModeFacts.applySwitches_idempotent.
Qed.

(** X10: in a run that starts in manual mode (pin 13 HIGH at [setup]),
    every state has the timezone index equal to the stored selector, in
    0..7, and the DST flag equal to the stored DST switch; and a poll of the
    switches in such a state leaves the index equal to the selector read and
    the DST flag equal to the DST switch read. *)
Theorem manual_run_follows_switches (inp0 : AutoTz.Input) (g : Gps.t)
        (inps : list AutoTz.Input) :
  AutoTz.AUTO_MODE_PIN inp0 = HIGH ->
  let s :=
    AutoTz.clockState
      (Props.passes inps (AutoTz.setup inp0 (AutoTz.power_on g))) in
  Props.followsSwitches s
  /\ forall inp,
      AutoTz.currentTimezoneIndex (AutoTz.updateTimezoneSettings inp s)
      = AutoTz.readTimezoneSwitches inp
      /\ AutoTz.isDSTActive (AutoTz.updateTimezoneSettings inp s)
         = isLOW (AutoTz.DST_PIN inp).
Proof.
  intros Hpin s.
  assert (Hs : Props.followsSwitches s).
  { subst s. apply ModeFacts.passes_follows.
    apply ModeFacts.setup_follows. exact Hpin. }
  split; [exact Hs|]. intros inp.
  unfold AutoTz.updateTimezoneSettings.
  rewrite (proj1 Hs).
  apply ModeFacts.applySwitches_follows.
  - apply IndexFacts.readTimezoneSwitches_range.
  - exact Hs.
Qed.

Lemma manual_run_follows_switches_witness :
  AutoTz.currentTimezoneIndex
    (AutoTz.updateTimezoneSettings
       (AutoTz.mkInput HIGH LOW LOW HIGH HIGH None false 0 0 0 0 0 0 0 0)
       (AutoTz.clockState
          (Props.passes [Scenario.pass_with Scenario.afternoon]
             (AutoTz.setup Scenario.manual_atlantic_dst_on
                (AutoTz.power_on Scenario.afternoon))))) = 3.
Proof.
  apply (proj2 (manual_run_follows_switches Scenario.manual_atlantic_dst_on
                  Scenario.afternoon [Scenario.pass_with Scenario.afternoon]
                  eq_refl)
               (AutoTz.mkInput HIGH LOW LOW HIGH HIGH None false
                               0 0 0 0 0 0 0 0)).
Defined.

(** ** Location handling in auto mode *)

Module LocationFacts.
Import AutoTz Props.

(** The location step once a position change is pending. *)
Lemma updateLocationIfNeeded_pending inp g s :
  gpsFixValid s = true -> locationChanged s = true ->
  autoModeEnabled s = true -> AUTO_MODE_PIN inp = LOW ->
  let s' := updateLocationIfNeeded inp g s in
  currentTimezoneIndex s'
  = detectTimezoneFromLocation (Gps.latitudeDegrees g)
                               (Gps.longitudeDegrees g)
  /\ lastLat s' = Gps.latitudeDegrees g
  /\ lastLon s' = Gps.longitudeDegrees g
  /\ locationChanged s' = false
  /\ lastLocationCheck s' = millis_locationStamp inp
  /\ autoModeEnabled s' = true.
Proof.
  intros Hfix Hchg Hauto Hpin s'. subst s'.
  unfold updateLocationIfNeeded.
  rewrite Hfix, Hchg, Hpin, orb_true_r. cbn [negb orb isLOW]. cbv zeta.
  set (new := detectTimezoneFromLocation _ _).
  destruct (Z.eqb_spec new (currentTimezoneIndex s)) as [He|Hne];
    cbn [negb].
  - cbn [autoModeEnabled set_lastLocationCheck set_locationChanged
         set_lastLon set_lastLat].
    rewrite Hauto. cbn.
    repeat split; try reflexivity; try exact Hauto. symmetry. exact He.
  - assert (Ha : autoModeEnabled (switchTimezone g new s) = true)
      by (unfold switchTimezone; destruct (observesDST _); exact Hauto).
    cbn [autoModeEnabled set_lastLocationCheck set_locationChanged
         set_lastLon set_lastLat].
    rewrite Ha. cbn. repeat split; try reflexivity; try exact Ha.
    apply IndexFacts.switchTimezone_index.
Qed.

(** In auto mode with pin 13 LOW, the location step changes the DST flag
    only together with the index. *)
Lemma updateLocationIfNeeded_flag inp g s :
  autoModeEnabled s = true -> AUTO_MODE_PIN inp = LOW ->
  currentTimezoneIndex (updateLocationIfNeeded inp g s)
  = currentTimezoneIndex s ->
  isDSTActive (updateLocationIfNeeded inp g s) = isDSTActive s.
Proof.
  intros Hauto Hpin. unfold updateLocationIfNeeded.
  destruct (negb (gpsFixValid s)); [reflexivity|].
  set (s1 := if (_ >=? _) || locationChanged s then _ else s).
  assert (H1 : autoModeEnabled s1 = true
               /\ (currentTimezoneIndex s1 = currentTimezoneIndex s ->
                   isDSTActive s1 = isDSTActive s)).
  { subst s1. destruct ((_ >=? _) || locationChanged s); [|auto].
    destruct (locationChanged s || Qeq_bool (lastLat s) 0); [|auto].
    set (new := detectTimezoneFromLocation _ _).
    destruct (Z.eqb_spec new (currentTimezoneIndex s)) as [He|Hne];
      cbn [negb]; [auto|].
    split.
    - cbn. unfold switchTimezone. destruct (observesDST _); exact Hauto.
    - cbn. rewrite IndexFacts.switchTimezone_index. intros E. contradiction. }
  destruct H1 as (Ha1 & Hflag).
  rewrite Hpin, Ha1. cbn. exact Hflag.
Qed.

(** The mode step when the location part has nothing to do. *)
Lemma updateLocationIfNeeded_leaving inp g s :
  autoModeEnabled s = true -> gpsFixValid s = true ->
  locationChanged s = false ->
  uint32 (millis_locationTest inp - lastLocationCheck s) < LOCATION_CHECK_MS ->
  AUTO_MODE_PIN inp = HIGH ->
  updateLocationIfNeeded inp g s
  = applySwitches (readTimezoneSwitches inp) (isLOW (DST_PIN inp))
                  (set_autoModeEnabled false s).
Proof.
  intros Hauto Hfix Hchg Hdue Hpin. unfold updateLocationIfNeeded.
  rewrite Hfix, Hchg, Hpin. cbn [negb isLOW].
  assert (Hd : (uint32 (millis_locationTest inp - lastLocationCheck s)
                >=? LOCATION_CHECK_MS) = false).
  { rewrite Z.geb_leb. apply Z.leb_gt. exact Hdue. }
  rewrite Hd. cbn [orb]. rewrite Hauto. cbn. reflexivity.
Qed.

End LocationFacts.

(** X11: a position change is resolved within the pass that notices it.
    In auto mode with pin 13 LOW, when a sentence with a valid fix is parsed
    and the position has moved beyond the tolerance, the pass of [loop]
    ends with the timezone index equal to what the location lookup returns
    for the new position, the position and the check time stored, and the
    pending flag cleared. *)
Theorem position_change_resolved_in_pass (inp : AutoTz.Input)
        (w : AutoTz.World) (g : Gps.t) :
  AutoTz.autoModeEnabled (AutoTz.clockState w) = true ->
  AutoTz.nmea inp = Some (true, g) ->
  Gps.fix_ g = true ->
  AutoTz.movedBeyondTolerance inp = true ->
  AutoTz.AUTO_MODE_PIN inp = LOW ->
  let s' := AutoTz.clockState (AutoTz.loop inp w) in
  AutoTz.currentTimezoneIndex s'
  = AutoTz.detectTimezoneFromLocation (Gps.latitudeDegrees g)
                                      (Gps.longitudeDegrees g)
  /\ AutoTz.lastLat s' = Gps.latitudeDegrees g
  /\ AutoTz.lastLon s' = Gps.longitudeDegrees g
  /\ AutoTz.locationChanged s' = false
  /\ AutoTz.lastLocationCheck s' = AutoTz.millis_locationStamp inp
  /\ AutoTz.autoModeEnabled s' = true.
Proof.
  intros Hauto Hn Hfix Hmoved Hpin s'. subst s'.
  unfold AutoTz.loop. cbv zeta.
  assert (Hw1 : AutoTz.updateGPSData inp w
                = AutoTz.with_clockState
                    (AutoTz.set_locationChanged true
                       (AutoTz.updateTimeFromGPS g
                          (AutoTz.set_gpsFixValid true (AutoTz.clockState w))))
                    (AutoTz.with_gps g w)).
  { unfold AutoTz.updateGPSData. rewrite Hn, Hmoved.
    cbn [AutoTz.clockState AutoTz.with_gps]. rewrite Hfix. reflexivity. }
  rewrite Hw1.
  cbn [AutoTz.clockState AutoTz.with_clockState AutoTz.gps AutoTz.with_gps].
  set (s1 := AutoTz.set_locationChanged true _).
  assert (Ha1 : AutoTz.autoModeEnabled s1 = true) by exact Hauto.
  rewrite Ha1.
  pose proof (LocationFacts.updateLocationIfNeeded_pending inp g s1
                eq_refl eq_refl Ha1 Hpin) as H.
  cbv zeta in H.
  destruct (uint32 _ >=? AutoTz.DISPLAY_UPDATE_MS).
  - cbn [AutoTz.clockState AutoTz.with_clockState].
    rewrite GpsFacts.updateDisplay_clockState.
    cbn [AutoTz.clockState AutoTz.with_clockState].
    exact H.
  - exact H.
Qed.

(** A first fix near Boston while the sketch still holds index 0. *)
Lemma position_change_resolved_in_pass_witness :
  AutoTz.currentTimezoneIndex
    (AutoTz.clockState
       (AutoTz.loop
          (AutoTz.mkInput HIGH HIGH HIGH HIGH LOW
             (Some (true, Scenario.sentence 14 30 15 1 7 24 42 (-71)))
             true 0 0 0 0 0 0 0 0)
          Scenario.pacific_dst_world)) = 3.
Proof.
  apply (position_change_resolved_in_pass
           (AutoTz.mkInput HIGH HIGH HIGH HIGH LOW
              (Some (true, Scenario.sentence 14 30 15 1 7 24 42 (-71)))
              true 0 0 0 0 0 0 0 0)
           Scenario.pacific_dst_world
           (Scenario.sentence 14 30 15 1 7 24 42 (-71))
           eq_refl eq_refl eq_refl eq_refl eq_refl).
Defined.

(** X12: in auto mode the DST flag is computed only when the timezone
    index changes.  A pass of [loop] in auto mode with pin 13 LOW that
    leaves the index where it was leaves [isDSTActive] where it was,
    whatever the date in the GPS object. *)
Theorem dst_flag_follows_index_changes_only (inp : AutoTz.Input)
        (w : AutoTz.World) :
  AutoTz.autoModeEnabled (AutoTz.clockState w) = true ->
  AutoTz.AUTO_MODE_PIN inp = LOW ->
  AutoTz.currentTimezoneIndex (AutoTz.clockState (AutoTz.loop inp w))
  = AutoTz.currentTimezoneIndex (AutoTz.clockState w) ->
  AutoTz.isDSTActive (AutoTz.clockState (AutoTz.loop inp w))
  = AutoTz.isDSTActive (AutoTz.clockState w).
Proof.
  intros Hauto Hpin.
  pose proof (ModeFacts.updateGPSData_switchFields inp w) as Hg.
  unfold AutoTz.loop. cbv zeta.
  set (w1 := AutoTz.updateGPSData inp w) in *.
  unfold Props.switchFields in Hg. injection Hg as Ha Hi _ Hd _.
  assert (Ha1 : AutoTz.autoModeEnabled (AutoTz.clockState w1) = true)
    by congruence.
  rewrite Ha1.
  assert (Hstep :
            AutoTz.currentTimezoneIndex
              (AutoTz.updateLocationIfNeeded inp (AutoTz.gps w1)
                 (AutoTz.clockState w1))
            = AutoTz.currentTimezoneIndex (AutoTz.clockState w) ->
            AutoTz.isDSTActive
              (AutoTz.updateLocationIfNeeded inp (AutoTz.gps w1)
                 (AutoTz.clockState w1))
            = AutoTz.isDSTActive (AutoTz.clockState w)).
  { rewrite <- Hi, <- Hd.
    apply LocationFacts.updateLocationIfNeeded_flag; assumption. }
  destruct (uint32 _ >=? AutoTz.DISPLAY_UPDATE_MS).
  - cbn [AutoTz.clockState AutoTz.with_clockState].
    rewrite GpsFacts.updateDisplay_clockState.
    cbn [AutoTz.clockState AutoTz.with_clockState]. exact Hstep.
  - exact Hstep.
Qed.

(** A July fix in the Pacific box: the index stays 0 and DST stays off. *)
Lemma dst_flag_follows_index_changes_only_witness :
  AutoTz.isDSTActive
    (AutoTz.clockState
       (AutoTz.loop
          (AutoTz.mkInput HIGH HIGH HIGH HIGH LOW
             (Some (true, Scenario.sentence 14 30 15 1 7 24 37 (-122)))
             true 0 0 0 0 0 0 0 0)
          (AutoTz.power_on Scenario.afternoon))) = false.
Proof.
  apply (dst_flag_follows_index_changes_only
           (AutoTz.mkInput HIGH HIGH HIGH HIGH LOW
              (Some (true, Scenario.sentence 14 30 15 1 7 24 37 (-122)))
              true 0 0 0 0 0 0 0 0)
           (AutoTz.power_on Scenario.afternoon)
           eq_refl eq_refl eq_refl).
Defined.

(** X13: leaving auto mode applies a switch only where it differs from the
    switch state stored earlier.  When pin 13 goes HIGH with a valid fix and
    no location check pending, the sketch enters manual mode; the index
    becomes the selector only if the selector differs from the stored one,
    and the DST flag becomes the DST switch only if that switch differs from
    the stored one; otherwise the index found by location and its DST flag
    stay. *)
Theorem leaving_auto_mode_keeps_unmoved_switches (inp : AutoTz.Input)
        (g : Gps.t) (s : AutoTz.ClockState) :
  AutoTz.autoModeEnabled s = true ->
  AutoTz.gpsFixValid s = true ->
  AutoTz.locationChanged s = false ->
  uint32 (AutoTz.millis_locationTest inp - AutoTz.lastLocationCheck s)
  < AutoTz.LOCATION_CHECK_MS ->
  AutoTz.AUTO_MODE_PIN inp = HIGH ->
  let s' := AutoTz.updateLocationIfNeeded inp g s in
  AutoTz.autoModeEnabled s' = false
  /\ AutoTz.currentTimezoneIndex s'
     = (if AutoTz.readTimezoneSwitches inp =? AutoTz.timezoneSwitchState s
        then AutoTz.currentTimezoneIndex s
        else AutoTz.readTimezoneSwitches inp)
  /\ AutoTz.isDSTActive s'
     = (if Bool.eqb (isLOW (AutoTz.DST_PIN inp)) (AutoTz.dstSwitchState s)
        then AutoTz.isDSTActive s
        else isLOW (AutoTz.DST_PIN inp)).
Proof.
  intros Hauto Hfix Hchg Hdue Hpin s'. subst s'.
  rewrite LocationFacts.updateLocationIfNeeded_leaving by assumption.
  destruct (ModeFacts.applySwitches_fields
              (AutoTz.readTimezoneSwitches inp) (isLOW (AutoTz.DST_PIN inp))
              (AutoTz.set_autoModeEnabled false s))
    as (Fa & _ & _ & Fi & Fd).
  rewrite Fa, Fi, Fd. cbn.
  split; [reflexivity|]. split; [|reflexivity].
  destruct (_ =? _); [reflexivity|].
  apply ModeFacts.manualIndex_selector.
  apply IndexFacts.readTimezoneSwitches_range.
Qed.

(** Eastern found by location, all switches untouched since power-on, then
    pin 13 goes HIGH: the index stays 3 although the selector reads 0. *)
Lemma leaving_auto_mode_keeps_unmoved_switches_witness :
  AutoTz.currentTimezoneIndex
    (AutoTz.updateLocationIfNeeded
       (AutoTz.mkInput HIGH HIGH HIGH HIGH HIGH None false 0 0 0 0 0 0 0 0)
       Scenario.afternoon
       (AutoTz.set_currentTimezoneIndex 3 Scenario.auto_pacific)) = 3.
Proof.
  apply (leaving_auto_mode_keeps_unmoved_switches
           (AutoTz.mkInput HIGH HIGH HIGH HIGH HIGH None false
                           0 0 0 0 0 0 0 0)
           Scenario.afternoon
           (AutoTz.set_currentTimezoneIndex 3 Scenario.auto_pacific)
           eq_refl eq_refl eq_refl eq_refl eq_refl).
Defined.

(** ** Coverage of the bounding boxes *)

Module CoverageFacts.
Import AutoTz Props.

Ltac read_table_in H :=
  repeat match type of H with
         | context [TIMEZONES_at ?k] =>
             let t := eval vm_compute in (TIMEZONES_at k) in
             change (TIMEZONES_at k) with t in H
         end.

Ltac read_table :=
  repeat match goal with
         | |- context [TIMEZONES_at ?k] =>
             let t := eval vm_compute in (TIMEZONES_at k) in
             change (TIMEZONES_at k) with t
         end.

(** The box of a literal index, as four inequalities. *)
Ltac open_box H :=
  unfold contains in H; read_table_in H;
  cbn [minLat maxLat minLon maxLon] in H.

Lemma before_last r :
  0 <= r < NUM_TIMEZONES - 1 ->
  r = 0 \/ r = 1 \/ r = 2 \/ r = 3 \/ r = 4 \/ r = 5 \/ r = 6.
Proof. rewrite DetectFacts.NUM_TIMEZONES_eq. lia. Qed.

Lemma detect_first_match lat lon :
  firstMatchFrom lat lon 0 (detectTimezoneFromLocation lat lon).
Proof.
  unfold detectTimezoneFromLocation.
  exact (DetectFacts.detectLoop_spec lat lon _ 0 ltac:(lia) eq_refl).
Qed.

End CoverageFacts.

(** X14: outside the area the table covers the lookup falls back to UTC:
    any position south of 18 degrees north, north of 72 degrees north, west
    of 180 degrees west or east of 53 degrees west resolves to the last
    entry. *)
Theorem detectTimezoneFromLocation_outside_coverage (lat lon : Q) :
  (lat < 18 \/ 72 < lat \/ lon < -180 \/ -53 < lon)%Q ->
  AutoTz.detectTimezoneFromLocation lat lon = AutoTz.NUM_TIMEZONES - 1.
Proof.
  intros Hout.
  destruct (CoverageFacts.detect_first_match lat lon)
    as [(Hr & Hc & _) | (Hr & _)]; [|exact Hr].
  exfalso.
  destruct (CoverageFacts.before_last _ Hr) as [E|[E|[E|[E|[E|[E|E]]]]]];
    rewrite E in Hc; CoverageFacts.open_box Hc; lra.
Qed.

Lemma detectTimezoneFromLocation_outside_coverage_witness :
  AutoTz.detectTimezoneFromLocation 51 0 = AutoTz.NUM_TIMEZONES - 1.
Proof.
  apply detectTimezoneFromLocation_outside_coverage.
  right. right. right. reflexivity.
Defined.

(** X15: where the Eastern and Atlantic boxes overlap, Eastern wins.  The
    lookup returns the Atlantic entry exactly for the points of the Atlantic
    box that are north of 49 degrees or east of 67 degrees west. *)
Theorem detectTimezoneFromLocation_atlantic (lat lon : Q) :
  AutoTz.detectTimezoneFromLocation lat lon = 4
  <-> Props.contains (AutoTz.TIMEZONES_at 4) lat lon
      /\ (49 < lat \/ -67 < lon)%Q.
Proof.
  pose proof (CoverageFacts.detect_first_match lat lon) as Hfm.
  split.
  - intros E. rewrite E in Hfm.
    destruct Hfm as [(_ & Hc & Hb) | (Hr & _)]; [|discriminate Hr].
    split; [exact Hc|].
    assert (H3 : ~ Props.contains (AutoTz.TIMEZONES_at 3) lat lon)
      by (apply Hb; lia).
    CoverageFacts.open_box Hc. CoverageFacts.open_box H3.
    destruct (Qlt_le_dec 49 lat) as [Hl|Hl]; [left; exact Hl|].
    destruct (Qlt_le_dec (-67) lon) as [Hn|Hn]; [right; exact Hn|].
    exfalso. apply H3. repeat split; lra.
  - intros (Hc4 & Hout).
    destruct Hfm as [(Hr & Hc & Hb) | (_ & Hb)].
    + destruct (CoverageFacts.before_last _ Hr)
        as [E|[E|[E|[E|[E|[E|E]]]]]]; try exact E; exfalso.
      1-4: rewrite E in Hc; CoverageFacts.open_box Hc;
           CoverageFacts.open_box Hc4; lra.
      1-2: apply (Hb 4); [lia | exact Hc4].
    + exfalso. apply (Hb 4); [rewrite DetectFacts.NUM_TIMEZONES_eq; lia|].
      exact Hc4.
Qed.

Lemma detectTimezoneFromLocation_atlantic_witness :
  AutoTz.detectTimezoneFromLocation 45 (-64) = 4.
Proof.
  apply detectTimezoneFromLocation_atlantic. split.
  - apply DetectFacts.inBounds_iff. reflexivity.
  - right. reflexivity.
Defined.

(** ** The DST period *)

(** X16: whatever month and year they are given, also outside 1..12 and
    0..99, [calculateFirstSunday] returns a day in 1..7 and
    [calculateSecondSunday] that day plus 7, in 8..14. *)
Theorem sunday_functions_stay_in_their_week (m y : Z) :
  1 <= AutoTz.calculateFirstSunday m y <= 7
  /\ AutoTz.calculateSecondSunday m y = AutoTz.calculateFirstSunday m y + 7
  /\ 8 <= AutoTz.calculateSecondSunday m y <= 14.
Proof.
  split; [apply SundayFacts.calculateFirstSunday_range|].
  split; [apply SundayFacts.calculateSecondSunday_plus_7|].
  apply SundayFacts.calculateSecondSunday_range.
Qed.

(** X17: with a valid fix and a timezone that observes DST, the days on
    which [calculateDSTAuto] answers true form one period of the year: for
    each year there are a start day in March 8..14 and an end day in
    November 1..7 such that the answer is true exactly from the start day
    in March up to the day before the end day in November. *)
Theorem calculateDSTAuto_is_one_period (yr : Z) :
  exists first last,
    8 <= first <= 14 /\ 1 <= last <= 7
    /\ forall g s,
        Gps.year g = yr ->
        AutoTz.gpsFixValid s = true ->
        AutoTz.observesDST (AutoTz.getCurrentTimezone s) = true ->
        (AutoTz.calculateDSTAuto g s = true
         <-> (Gps.month g = 3 /\ first <= Gps.day g)
             \/ 4 <= Gps.month g <= 10
             \/ (Gps.month g = 11 /\ Gps.day g < last)).
Proof.
  exists (AutoTz.calculateSecondSunday 3 yr),
         (AutoTz.calculateFirstSunday 11 yr).
  split; [apply SundayFacts.calculateSecondSunday_range|].
  split; [apply SundayFacts.calculateFirstSunday_range|].
  intros g s Hy Hfix Hobs.
  unfold AutoTz.calculateDSTAuto. rewrite Hfix, Hobs, Hy. cbn [negb].
  cbv zeta. rewrite !Z.gtb_ltb, Z.geb_leb.
  DstFacts.tests; cbn [orb andb]; split; intros Hx;
    try reflexivity; try discriminate; try lia.
Qed.

Lemma calculateDSTAuto_is_one_period_witness :
  exists first last,
    8 <= first <= 14 /\ 1 <= last <= 7
    /\ (AutoTz.calculateDSTAuto (Scenario.noon 20 3 24) Scenario.auto_pacific
        = true
        <-> (Gps.month (Scenario.noon 20 3 24) = 3
             /\ first <= Gps.day (Scenario.noon 20 3 24))
            \/ 4 <= Gps.month (Scenario.noon 20 3 24) <= 10
            \/ (Gps.month (Scenario.noon 20 3 24) = 11
                /\ Gps.day (Scenario.noon 20 3 24) < last)).
Proof.
  destruct (calculateDSTAuto_is_one_period 24)
    as (first & last & Hf & Hl & H).
  exists first, last. split; [exact Hf|]. split; [exact Hl|].
  apply (H (Scenario.noon 20 3 24) Scenario.auto_pacific);
    reflexivity.
Defined.

(** ** Labels *)

(** X18: for an index within the table, the label returned by
    [getTimezoneDisplayName] shows daylight time exactly when a DST hour
    is added to the time: either the DST offset applied is 0 and the label
    is the zone's abbreviation, or the offset is 1 and the label is one of
    PDT, MDT, CDT, EDT, AKDT, different from the abbreviation.  The generic
    suffix is never used for an entry of the table. *)
Theorem label_shows_dst_when_applied (s : AutoTz.ClockState) :
  Props.indexInRange s ->
  (AutoTz.getDSTOffset s = 0
   /\ AutoTz.getTimezoneDisplayName s
      = AutoTz.abbreviation (AutoTz.getCurrentTimezone s))
  \/ (AutoTz.getDSTOffset s = 1
      /\ In (AutoTz.getTimezoneDisplayName s)
            ["PDT"; "MDT"; "CDT"; "EDT"; "AKDT"]%string
      /\ AutoTz.getTimezoneDisplayName s
         <> AutoTz.abbreviation (AutoTz.getCurrentTimezone s)).
Proof.
  intros H.
  unfold AutoTz.getTimezoneDisplayName, AutoTz.getDSTOffset,
    AutoTz.getCurrentTimezone.
  ComposeFacts.each_index H; rewrite E; ComposeFacts.read_table;
    cbn [AutoTz.observesDST AutoTz.abbreviation AutoTz.dstOffset negb andb];
    destruct (AutoTz.isDSTActive s); cbn;
    try (left; split; reflexivity);
    right; (split; [reflexivity|]); (split; [tauto|discriminate]).
Qed.

Lemma label_shows_dst_when_applied_witness :
  AutoTz.getDSTOffset
    (AutoTz.set_isDSTActive true AutoTz.clockState0) = 1
  /\ AutoTz.getTimezoneDisplayName
       (AutoTz.set_isDSTActive true AutoTz.clockState0) = "PDT"%string.
Proof.
  destruct (label_shows_dst_when_applied
              (AutoTz.set_isDSTActive true AutoTz.clockState0))
    as [(H0 & _) | (H1 & _ & _)].
  - unfold Props.indexInRange. rewrite DetectFacts.NUM_TIMEZONES_eq.
    cbn. lia.
  - discriminate H0.
  - split; [exact H1 | reflexivity].
Defined.

(** ** Conversion to another timezone *)

Module ConvertFacts.
Import AutoTz Props.

Lemma addDay_while_spec x :
  0 <= addDay_while x /\ addDay_while x mod 1440 = x mod 1440.
Proof.
  funelim (addDay_while x).
  - match goal with IH : _ /\ _ |- _ => destruct IH as (H0 & Hm) end.
    match goal with Hneg : ?a < 0 |- _ => rename a into x0 end.
    split; [exact H0|].
    rewrite Hm. replace (x0 + 24 * 60) with (x0 + 1 * 1440) by ring.
    apply Z.mod_add. lia.
  - split; [lia|reflexivity].
Qed.

Lemma subDay_while_spec x : 0 <= x -> subDay_while x = x mod 1440.
Proof.
  funelim (subDay_while x); intros Hpos.
  - match goal with Hge : ?a >= 24 * 60 |- _ => rename a into x0 end.
    match goal with IH : _ -> subDay_while _ = _ |- _ => rewrite IH by lia end.
    replace x0 with (x0 - 24 * 60 + 1 * 1440) at 2 by ring.
    rewrite Z.mod_add by lia. reflexivity.
  - symmetry. apply Z.mod_small. lia.
Qed.

(** The two loops leave the minute of the day. *)
Lemma day_loops_mod x : subDay_while (addDay_while x) = x mod 1440.
Proof.
  destruct (addDay_while_spec x) as (H0 & Hm).
  rewrite subDay_while_spec by exact H0. exact Hm.
Qed.

Lemma convert_in_table utcHour utcMinute i h0 m0 useDST :
  0 <= i < NUM_TIMEZONES ->
  convertUTCToTimezone utcHour utcMinute i h0 m0 useDST
  = (((utcHour + offsetUsed i useDST) * 60 + utcMinute) mod 1440 / 60,
     ((utcHour + offsetUsed i useDST) * 60 + utcMinute) mod 1440 mod 60).
Proof.
  intros Hi. unfold convertUTCToTimezone, offsetUsed.
  assert (Hge : (i >=? NUM_TIMEZONES) = false)
    by (rewrite Z.geb_leb; apply Z.leb_gt; lia).
  rewrite Hge. cbv zeta. rewrite day_loops_mod.
  set (off := if useDST && observesDST (TIMEZONES_at i) then _ else _).
  replace (utcHour * 60 + utcMinute + off * 60)
    with ((utcHour + off) * 60 + utcMinute)
    by (subst off; destruct (useDST && observesDST (TIMEZONES_at i)); ring).
  replace ((utcHour
            + (utcOffset (TIMEZONES_at i)
               + (if useDST && observesDST (TIMEZONES_at i)
                  then dstOffset (TIMEZONES_at i) else 0))) * 60 + utcMinute)
    with ((utcHour + off) * 60 + utcMinute)
    by (subst off; destruct (useDST && observesDST (TIMEZONES_at i)); ring).
  set (t := ((utcHour + off) * 60 + utcMinute) mod 1440).
  assert (Ht : 0 <= t < 1440) by (apply Z.mod_pos_bound; lia).
  rewrite Z.quot_div_nonneg, Z.rem_mod_nonneg by lia.
  assert (Hq : 0 <= t / 60 < 24)
    by (split; [apply Z.div_pos; lia | apply Z.div_lt_upper_bound; lia]).
  pose proof (Z.mod_pos_bound t 60 eq_refl).
  rewrite !uint8_small by lia. reflexivity.
Qed.

(** Hours and minutes of a minute count whose minutes are below 60. *)
Lemma split_minutes h m :
  0 <= m <= 59 ->
  (h * 60 + m) mod 1440 / 60 = h mod 24
  /\ (h * 60 + m) mod 1440 mod 60 = m.
Proof.
  intros Hm.
  pose proof (Z.div_mod h 24 ltac:(lia)) as Hh.
  pose proof (Z.mod_pos_bound h 24 eq_refl) as Hr.
  assert (E : (h * 60 + m) mod 1440 = h mod 24 * 60 + m).
  { replace (h * 60 + m) with (h mod 24 * 60 + m + h / 24 * 1440) by lia.
    rewrite Z.mod_add by lia. apply Z.mod_small. lia. }
  rewrite E. split.
  - rewrite Z.add_comm, Z.div_add by lia.
    rewrite Z.div_small by lia. reflexivity.
  - rewrite Z.add_comm, Z.mod_add by lia. apply Z.mod_small. lia.
Qed.

Lemma convert_whole_minutes utcHour utcMinute i h0 m0 useDST :
  0 <= i < NUM_TIMEZONES -> 0 <= utcMinute <= 59 ->
  convertUTCToTimezone utcHour utcMinute i h0 m0 useDST
  = ((utcHour + offsetUsed i useDST) mod 24, utcMinute).
Proof.
  intros Hi Hm. rewrite convert_in_table by exact Hi.
  destruct (split_minutes (utcHour + offsetUsed i useDST) utcMinute Hm)
    as (Eh & Em).
  rewrite Eh, Em. reflexivity.
Qed.

End ConvertFacts.

(** X19: [convertUTCToTimezone] leaves its two outputs untouched when the
    index is not below the table size.  For an index within the table the
    outputs are always an hour in 0..23 and a minute in 0..59, and when the
    UTC minute is below 60 they are the UTC hour plus the zone's offset
    (with the zone's DST offset if [useDST] is set and the zone observes
    DST) modulo 24, and the UTC minute unchanged. *)
Theorem convertUTCToTimezone_spec (utcHour utcMinute i h0 m0 : Z)
        (useDST : bool) :
  (AutoTz.NUM_TIMEZONES <= i ->
   AutoTz.convertUTCToTimezone utcHour utcMinute i h0 m0 useDST = (h0, m0))
  /\ (0 <= i < AutoTz.NUM_TIMEZONES ->
      0 <= fst (AutoTz.convertUTCToTimezone utcHour utcMinute i h0 m0 useDST)
        <= 23
      /\ 0 <= snd (AutoTz.convertUTCToTimezone utcHour utcMinute i h0 m0
                                               useDST) <= 59)
  /\ (0 <= i < AutoTz.NUM_TIMEZONES -> 0 <= utcMinute <= 59 ->
      AutoTz.convertUTCToTimezone utcHour utcMinute i h0 m0 useDST
      = ((utcHour
          + AutoTz.utcOffset (AutoTz.TIMEZONES_at i)
          + (if useDST && AutoTz.observesDST (AutoTz.TIMEZONES_at i)
             then AutoTz.dstOffset (AutoTz.TIMEZONES_at i) else 0)) mod 24,
         utcMinute)).
Proof.
  split; [|split].
  - intros Hi. unfold AutoTz.convertUTCToTimezone.
    assert (Hge : (i >=? AutoTz.NUM_TIMEZONES) = true)
      by (rewrite Z.geb_leb; apply Z.leb_le; exact Hi).
    rewrite Hge. reflexivity.
  - intros Hi. rewrite ConvertFacts.convert_in_table by exact Hi.
    cbn [fst snd].
    match goal with
    | |- context [?t mod 1440 / 60] =>
        pose proof (Z.mod_pos_bound t 1440 eq_refl) as Ht;
        set (tt := t mod 1440) in *
    end.
    pose proof (Z.mod_pos_bound tt 60 eq_refl).
    assert (0 <= tt / 60 < 24)
      by (split; [apply Z.div_pos; lia | apply Z.div_lt_upper_bound; lia]).
    lia.
  - intros Hi Hm. rewrite ConvertFacts.convert_in_table by exact Hi.
    destruct (ConvertFacts.split_minutes
                (utcHour + Props.offsetUsed i useDST) utcMinute Hm)
      as (Eh & Em).
    rewrite Eh, Em. unfold Props.offsetUsed.
    f_equal. f_equal. lia.
Qed.

Lemma convertUTCToTimezone_spec_witness :
  AutoTz.convertUTCToTimezone 2 30 0 99 99 true = ((2 + -8 + 1) mod 24, 30).
Proof.
  apply (proj2 (proj2 (convertUTCToTimezone_spec 2 30 0 99 99 true))).
  - rewrite DetectFacts.NUM_TIMEZONES_eq. lia.
  - lia.
Defined.

(** X20: the world-clock conversion and the clock's own time composition
    agree: for an index within the table and a GPS minute below 60,
    [convertUTCToTimezone] applied to the GPS hour and minute, the current
    index and the current DST flag gives the hours and minutes that
    [updateTimeFromGPS] stores. *)
Theorem convertUTCToTimezone_agrees_with_clock (g : Gps.t)
        (s : AutoTz.ClockState) (h0 m0 : Z) :
  Props.indexInRange s ->
  0 <= Gps.minute g <= 59 ->
  AutoTz.convertUTCToTimezone (Gps.hour g) (Gps.minute g)
    (AutoTz.currentTimezoneIndex s) h0 m0 (AutoTz.isDSTActive s)
  = (AutoTz.hours (AutoTz.updateTimeFromGPS g s),
     AutoTz.minutes (AutoTz.updateTimeFromGPS g s)).
Proof.
  intros Hi Hm.
  rewrite ConvertFacts.convert_in_table by exact Hi.
  destruct (ConvertFacts.split_minutes
              (Gps.hour g
               + Props.offsetUsed (AutoTz.currentTimezoneIndex s)
                                         (AutoTz.isDSTActive s))
              (Gps.minute g) Hm) as (Eh & Em).
  rewrite Eh, Em, ComposeFacts.updateTimeFromGPS_hours.
  cbn [AutoTz.minutes AutoTz.updateTimeFromGPS AutoTz.set_seconds
       AutoTz.set_minutes].
  f_equal. f_equal. f_equal.
  unfold Props.offsetUsed, AutoTz.calculateTimezoneOffset,
    AutoTz.getTimezoneOffset, AutoTz.getDSTOffset, AutoTz.getCurrentTimezone.
  destruct (AutoTz.observesDST _), (AutoTz.isDSTActive s); reflexivity.
Qed.

Lemma convertUTCToTimezone_agrees_with_clock_witness :
  AutoTz.convertUTCToTimezone 14 30 0 0 0 false
  = (AutoTz.hours (AutoTz.updateTimeFromGPS Scenario.afternoon
                                            Scenario.auto_pacific),
     AutoTz.minutes (AutoTz.updateTimeFromGPS Scenario.afternoon
                                              Scenario.auto_pacific)).
Proof.
  apply (convertUTCToTimezone_agrees_with_clock Scenario.afternoon
           Scenario.auto_pacific 0 0).
  - unfold Props.indexInRange. rewrite DetectFacts.NUM_TIMEZONES_eq.
    cbn. lia.
  - cbn. lia.
Defined.

(** ** World clock *)

Module WorldClockFacts.
Import AutoTz Props.

Lemma timezoneIndices_in_table i :
  In i timezoneIndices -> 0 <= i < NUM_TIMEZONES.
Proof.
  unfold timezoneIndices. rewrite in_map_iff.
  intros (n & <- & Hn). apply in_seq in Hn.
  rewrite DetectFacts.NUM_TIMEZONES_eq in *.
  change (Z.to_nat 8) with 8%nat in Hn. lia.
Qed.

(** Inside the table the initial values of the outputs play no part. *)
Lemma convert_ignores_initial_outputs utcHour utcMinute i h0 m0 h1 m1 useDST :
  0 <= i < NUM_TIMEZONES ->
  convertUTCToTimezone utcHour utcMinute i h0 m0 useDST
  = convertUTCToTimezone utcHour utcMinute i h1 m1 useDST.
Proof.
  intros Hi. rewrite !ConvertFacts.convert_in_table by exact Hi.
  reflexivity.
Qed.

End WorldClockFacts.

(** X21: [showWorldClock] prints nothing but the no-fix message without a
    valid fix.  With a fix it prints one line per table entry, and when the
    clock's own timezone does not observe DST no line is marked or shifted
    for DST, whatever the date: the DST test it uses is that of the current
    timezone. *)
Theorem showWorldClock_uses_current_timezone_dst (h0 m0 : Z) (g : Gps.t)
        (s : AutoTz.ClockState) :
  (AutoTz.gpsFixValid s = false -> AutoTz.showWorldClock h0 m0 g s = None)
  /\ (AutoTz.gpsFixValid s = true ->
      exists lines,
        AutoTz.showWorldClock h0 m0 g s = Some lines
        /\ List.length lines = 8%nat
        /\ map AutoTz.line_abbreviation lines
           = ["PST"; "MST"; "CST"; "EST"; "AST"; "HST"; "AKST"; "UTC"]%string
        /\ (AutoTz.observesDST (AutoTz.getCurrentTimezone s) = false ->
            Forall (fun l => AutoTz.line_useDST l = false) lines
            /\ (0 <= Gps.minute g <= 59 ->
                map (fun l => (AutoTz.line_localHour l,
                               AutoTz.line_localMinute l)) lines
                = map (fun i => ((Gps.hour g
                                  + AutoTz.utcOffset (AutoTz.TIMEZONES_at i))
                                   mod 24, Gps.minute g))
                      AutoTz.timezoneIndices))).
Proof.
  split.
  - intros Hfix. unfold AutoTz.showWorldClock. rewrite Hfix. reflexivity.
  - intros Hfix. unfold AutoTz.showWorldClock. rewrite Hfix. cbn [negb].
    eexists. split; [reflexivity|].
    split; [rewrite length_map; reflexivity|].
    split.
    + rewrite map_map.
      transitivity (map (fun i => AutoTz.abbreviation (AutoTz.TIMEZONES_at i))
                        AutoTz.timezoneIndices); [|reflexivity].
      apply map_ext. intros i.
      destruct (AutoTz.convertUTCToTimezone _ _ _ _ _ _). reflexivity.
    + intros Hobs.
      pose proof (DstFacts.calculateDSTAuto_by_month g s Hfix) as (Hno & _).
      rewrite (Hno Hobs). split.
      * apply Forall_forall. intros l Hl.
        apply in_map_iff in Hl. destruct Hl as (i & <- & _).
        destruct (AutoTz.convertUTCToTimezone _ _ _ _ _ _).
        cbn. apply andb_false_r.
      * intros Hm. rewrite map_map. apply map_ext_in. intros i Hi.
        apply WorldClockFacts.timezoneIndices_in_table in Hi.
        rewrite andb_false_r.
        rewrite ConvertFacts.convert_whole_minutes by assumption.
        unfold Props.offsetUsed.
        cbn [andb AutoTz.line_localHour AutoTz.line_localMinute].
        rewrite Z.add_0_r. reflexivity.
Qed.

Lemma showWorldClock_uses_current_timezone_dst_witness :
  AutoTz.showWorldClock 0 0 Scenario.afternoon AutoTz.clockState0 = None.
Proof.
  apply (proj1 (showWorldClock_uses_current_timezone_dst
                  0 0 Scenario.afternoon AutoTz.clockState0)).
  reflexivity.
Defined.

(** X22: the two locals that [showWorldClock] hands to
    [convertUTCToTimezone] without initialising them never reach the
    output: the lines printed do not depend on their initial content. *)
Theorem showWorldClock_ignores_uninitialised_locals (h0 m0 h1 m1 : Z)
        (g : Gps.t) (s : AutoTz.ClockState) :
  AutoTz.showWorldClock h0 m0 g s = AutoTz.showWorldClock h1 m1 g s.
Proof.
  unfold AutoTz.showWorldClock.
  destruct (negb (AutoTz.gpsFixValid s)); [reflexivity|].
  apply f_equal. apply map_ext_in. intros i Hi.
  apply WorldClockFacts.timezoneIndices_in_table in Hi.
  rewrite (WorldClockFacts.convert_ignores_initial_outputs
             (Gps.hour g) (Gps.minute g) i h0 m0 h1 m1 _ Hi).
  reflexivity.
Qed.

(** ** The two later sketches compared *)

Module SimulationFacts.

Lemma table_projected i :
  TzDst.TIMEZONES_at i = Projection.timezone (AutoTz.TIMEZONES_at i).
Proof.
  unfold TzDst.TIMEZONES_at, AutoTz.TIMEZONES_at.
  change TzDst.TIMEZONES with (map Projection.timezone AutoTz.TIMEZONES).
  change (TzDst.mkTimezone "UTC" "UTC" 0 false 0)
    with (Projection.timezone
            (AutoTz.mkTimezone "UTC" "UTC" 0 false 0 (-90) 90 (-180) 180)).
  apply map_nth.
Qed.

Lemma offset_projected s :
  TzDst.calculateTimezoneOffset (Projection.state s)
  = AutoTz.calculateTimezoneOffset s.
Proof.
  unfold TzDst.calculateTimezoneOffset, TzDst.getTimezoneOffset,
    TzDst.getDSTOffset, TzDst.getCurrentTimezone.
  cbn [TzDst.currentTimezoneIndex TzDst.isDSTActive Projection.state].
  rewrite table_projected. reflexivity.
Qed.

Lemma updateTimeFromGPS_projected g s :
  Projection.state (AutoTz.updateTimeFromGPS g s)
  = TzDst.updateTimeFromGPS g (Projection.state s).
Proof.
  unfold TzDst.updateTimeFromGPS. rewrite offset_projected. reflexivity.
Qed.

Lemma updateGPSData_projected inp w :
  Projection.world (AutoTz.updateGPSData inp w)
  = TzDst.updateGPSData (Projection.input inp) (Projection.world w).
Proof.
  unfold AutoTz.updateGPSData, TzDst.updateGPSData.
  cbn [TzDst.nmea Projection.input].
  destruct (AutoTz.nmea inp) as [[parsed g]|]; [|reflexivity].
  destruct parsed; [|reflexivity].
  cbn [AutoTz.clockState AutoTz.with_gps TzDst.clockState TzDst.with_gps
       Projection.world].
  cbn [AutoTz.gpsFixValid AutoTz.set_gpsFixValid TzDst.gpsFixValid
       TzDst.set_gpsFixValid Projection.state].
  destruct (Gps.fix_ g); [|reflexivity].
  unfold Projection.world.
  cbn [AutoTz.clockState AutoTz.with_clockState AutoTz.with_gps AutoTz.gps
       AutoTz.lastBlink AutoTz.blinkState AutoTz.display].
  unfold TzDst.with_clockState.
  cbn [TzDst.gps TzDst.lastBlink TzDst.blinkState TzDst.display].
  f_equal.
  change (TzDst.set_gpsFixValid true (Projection.state (AutoTz.clockState w)))
    with (Projection.state
            (AutoTz.set_gpsFixValid true (AutoTz.clockState w))).
  rewrite <- updateTimeFromGPS_projected.
  destruct (AutoTz.movedBeyondTolerance inp); reflexivity.
Qed.

Lemma updateTimezoneSettings_projected inp s :
  AutoTz.autoModeEnabled s = false ->
  Projection.state (AutoTz.updateTimezoneSettings inp s)
  = TzDst.updateTimezoneSettings (Projection.input inp) (Projection.state s).
Proof.
  intros Ha. unfold AutoTz.updateTimezoneSettings. rewrite Ha.
  unfold AutoTz.applySwitches, TzDst.updateTimezoneSettings. cbv zeta.
  change (TzDst.readTimezoneSwitches (Projection.input inp))
    with (AutoTz.readTimezoneSwitches inp).
  cbn [TzDst.DST_PIN Projection.input TzDst.timezoneSwitchState
       Projection.state].
  destruct (negb (AutoTz.readTimezoneSwitches inp
                  =? AutoTz.timezoneSwitchState s));
    cbn [TzDst.dstSwitchState Projection.state AutoTz.dstSwitchState
         AutoTz.set_currentTimezoneIndex AutoTz.set_timezoneSwitchState
         TzDst.set_currentTimezoneIndex TzDst.set_timezoneSwitchState];
    destruct (negb (Bool.eqb (isLOW (AutoTz.DST_PIN inp))
                             (AutoTz.dstSwitchState s)));
    reflexivity.
Qed.

Lemma updateTimezoneIfNeeded_projected inp s :
  AutoTz.autoModeEnabled s = false ->
  Projection.state (AutoTz.updateTimezoneIfNeeded inp s)
  = TzDst.updateTimezoneIfNeeded (Projection.input inp) (Projection.state s).
Proof.
  intros Ha. unfold AutoTz.updateTimezoneIfNeeded, TzDst.updateTimezoneIfNeeded.
  cbn [TzDst.millis_timezoneTest TzDst.millis_timezoneStamp Projection.input
       TzDst.lastTimezoneCheck Projection.state].
  change TzDst.TIMEZONE_CHECK_MS with AutoTz.TIMEZONE_CHECK_MS.
  destruct (_ >=? _); [|reflexivity].
  rewrite <- updateTimezoneSettings_projected by exact Ha. reflexivity.
Qed.

Lemma updateDisplay_projected inp w :
  Projection.world (AutoTz.updateDisplay inp w)
  = TzDst.updateDisplay (Projection.input inp) (Projection.world w).
Proof.
  unfold AutoTz.updateDisplay, TzDst.updateDisplay.
  cbn [TzDst.clockState Projection.world TzDst.gpsFixValid Projection.state].
  destruct (negb (AutoTz.gpsFixValid (AutoTz.clockState w))).
  - unfold AutoTz.showNoGPSIndicator, TzDst.showNoGPSIndicator.
    cbn [TzDst.millis_blinkTest TzDst.millis_blinkStamp Projection.input
         TzDst.lastBlink Projection.world].
    destruct (_ >=? _); reflexivity.
  - reflexivity.
Qed.

(** In manual mode one pass of the auto-timezone sketch is one pass of the
    switch-selected sketch. *)
Lemma loop_projected inp w :
  AutoTz.autoModeEnabled (AutoTz.clockState w) = false ->
  Projection.world (AutoTz.loop inp w)
  = TzDst.loop (Projection.input inp) (Projection.world w).
Proof.
  intros Ha. unfold AutoTz.loop, TzDst.loop. cbv zeta.
  rewrite <- updateGPSData_projected.
  pose proof (ModeFacts.updateGPSData_switchFields inp w) as Hg.
  set (w1 := AutoTz.updateGPSData inp w) in *.
  assert (Ha1 : AutoTz.autoModeEnabled (AutoTz.clockState w1) = false).
  { unfold Props.switchFields in Hg. injection Hg as -> _ _ _ _. exact Ha. }
  rewrite Ha1.
  cbn [TzDst.clockState Projection.world].
  rewrite <- updateTimezoneIfNeeded_projected by exact Ha1.
  set (s2 := AutoTz.updateTimezoneIfNeeded inp (AutoTz.clockState w1)).
  change (TzDst.with_clockState (Projection.state s2) (Projection.world w1))
    with (Projection.world (AutoTz.with_clockState s2 w1)).
  set (w2 := AutoTz.with_clockState s2 w1).
  cbn [TzDst.clockState Projection.world TzDst.lastUpdate Projection.state
       TzDst.millis_displayTest TzDst.millis_displayStamp Projection.input].
  change TzDst.DISPLAY_UPDATE_MS with AutoTz.DISPLAY_UPDATE_MS.
  destruct (uint32 _ >=? AutoTz.DISPLAY_UPDATE_MS); [|reflexivity].
  rewrite <- updateDisplay_projected. reflexivity.
Qed.

Lemma setup_projected inp g :
  AutoTz.AUTO_MODE_PIN inp = HIGH ->
  Projection.world (AutoTz.setup inp (AutoTz.power_on g))
  = TzDst.setup (Projection.input inp) (TzDst.power_on g).
Proof.
  intros Hpin. unfold AutoTz.setup, TzDst.setup, AutoTz.initializePins,
                 TzDst.initializePins.
  cbv zeta. rewrite Hpin. cbn [isLOW].
  cbn [AutoTz.autoModeEnabled AutoTz.set_autoModeEnabled negb].
  unfold Projection.world at 1.
  cbn [AutoTz.clockState AutoTz.with_clockState AutoTz.gps AutoTz.lastBlink
       AutoTz.blinkState AutoTz.display AutoTz.initializeDisplay AutoTz.emit
       AutoTz.power_on].
  rewrite updateTimezoneSettings_projected by reflexivity.
  reflexivity.
Qed.

Lemma passes_projected inps :
  forall w,
    AutoTz.autoModeEnabled (AutoTz.clockState w) = false ->
    Projection.world (Props.passes inps w)
    = Projection.passes (map Projection.input inps) (Projection.world w).
Proof.
  induction inps as [|inp inps IH]; intros w Ha; [reflexivity|].
  cbn [Props.passes Projection.passes fold_left map].
  rewrite <- loop_projected by exact Ha.
  apply IH. apply ModeFacts.loop_stays_manual. exact Ha.
Qed.

Lemma input_lift inp : Projection.input (Projection.lift inp) = inp.
Proof. destruct inp. reflexivity. Qed.

(** Every state of the switch-selected sketch is the image of a state of
    the auto-timezone sketch that started, and stayed, in manual mode. *)
Lemma reachable_lifted w :
  TzDst.reachable w ->
  exists w', Projection.world w' = w
             /\ AutoTz.reachable w'
             /\ Props.followsSwitches (AutoTz.clockState w').
Proof.
  induction 1 as [g inp | inp w _ (w' & Hw & Hr & Hf)].
  - exists (AutoTz.setup (Projection.lift inp) (AutoTz.power_on g)).
    split; [|split].
    + rewrite setup_projected by reflexivity. rewrite input_lift.
      reflexivity.
    + apply AutoTz.reachable_setup.
    + apply ModeFacts.setup_follows. reflexivity.
  - exists (AutoTz.loop (Projection.lift inp) w').
    split; [|split].
    + rewrite loop_projected by exact (proj1 Hf).
      rewrite input_lift, Hw. reflexivity.
    + apply AutoTz.reachable_loop. exact Hr.
    + apply ModeFacts.loop_follows. exact Hf.
Qed.

End SimulationFacts.

(** X23: the auto-timezone sketch in manual mode behaves as the
    switch-selected sketch.  Started with pin 13 HIGH and fed the same pins,
    sentences and timer values, after any number of passes of [loop] it has
    the same clock state members, GPS object, blink state and display
    calls as the switch-selected sketch. *)
Theorem manual_mode_is_the_switch_sketch (inp0 : AutoTz.Input) (g : Gps.t)
        (inps : list AutoTz.Input) :
  AutoTz.AUTO_MODE_PIN inp0 = HIGH ->
  Projection.world
    (Props.passes inps (AutoTz.setup inp0 (AutoTz.power_on g)))
  = Projection.passes (map Projection.input inps)
      (TzDst.setup (Projection.input inp0) (TzDst.power_on g)).
Proof.
  intros Hpin.
  rewrite SimulationFacts.passes_projected.
  - rewrite SimulationFacts.setup_projected by exact Hpin. reflexivity.
  - exact (proj1 (ModeFacts.setup_follows inp0 g Hpin)).
Qed.

Lemma manual_mode_is_the_switch_sketch_witness :
  TzDst.display
    (Projection.passes
       (map Projection.input [Scenario.pass_with Scenario.afternoon])
       (TzDst.setup (Projection.input Scenario.manual_atlantic_dst_on)
                    (TzDst.power_on Scenario.afternoon)))
  = AutoTz.display
      (Props.passes [Scenario.pass_with Scenario.afternoon]
         (AutoTz.setup Scenario.manual_atlantic_dst_on
                       (AutoTz.power_on Scenario.afternoon))).
Proof.
  rewrite <- (manual_mode_is_the_switch_sketch
                Scenario.manual_atlantic_dst_on Scenario.afternoon
                [Scenario.pass_with Scenario.afternoon] eq_refl).
  reflexivity.
Defined.

(** X24: in every state the switch-selected sketch reaches, the timezone
    index equals the stored selector and lies in 0..7, the DST flag equals
    the stored DST switch, and [hours] is an hour of the day. *)
Theorem switch_sketch_invariants (w : TzDst.World) :
  TzDst.reachable w ->
  TzDst.currentTimezoneIndex (TzDst.clockState w)
  = TzDst.timezoneSwitchState (TzDst.clockState w)
  /\ 0 <= TzDst.currentTimezoneIndex (TzDst.clockState w)
       < TzDst.NUM_TIMEZONES
  /\ TzDst.isDSTActive (TzDst.clockState w)
     = TzDst.dstSwitchState (TzDst.clockState w)
  /\ 0 <= TzDst.hours (TzDst.clockState w) <= 23.
Proof.
  intros Hr.
  destruct (SimulationFacts.reachable_lifted w Hr)
    as (w' & <- & Hr' & (_ & Hi & Hrange & Hd)).
  pose proof (ComposeFacts.reachable_hours w' Hr') as Hh.
  cbn [TzDst.clockState Projection.world TzDst.currentTimezoneIndex
       TzDst.timezoneSwitchState TzDst.isDSTActive TzDst.dstSwitchState
       TzDst.hours Projection.state].
  change TzDst.NUM_TIMEZONES with 8.
  repeat split; try assumption; lia.
Qed.

Lemma switch_sketch_invariants_witness :
  0 <= TzDst.hours
         (TzDst.clockState
            (TzDst.loop
               (Projection.input (Scenario.pass_with Scenario.afternoon))
               (TzDst.setup (Projection.input Scenario.manual_atlantic_dst_on)
                            (TzDst.power_on Scenario.afternoon)))) <= 23.
Proof.
  apply switch_sketch_invariants.
  apply TzDst.reachable_loop. apply TzDst.reachable_setup.
Defined.

Module SwitchClockFacts.

Lemma convert_projected utcHour utcMinute i h0 m0 useDST :
  TzDst.convertUTCToTimezone utcHour utcMinute i h0 m0 useDST
  = AutoTz.convertUTCToTimezone utcHour utcMinute i h0 m0 useDST.
Proof.
  unfold TzDst.convertUTCToTimezone, AutoTz.convertUTCToTimezone.
  change TzDst.NUM_TIMEZONES with AutoTz.NUM_TIMEZONES.
  rewrite SimulationFacts.table_projected. reflexivity.
Qed.

Lemma timezoneIndices_same : TzDst.timezoneIndices = AutoTz.timezoneIndices.
Proof. reflexivity. Qed.

End SwitchClockFacts.

(** X25: the world clock of the switch-selected sketch shows every zone
    that observes DST on daylight time, always.  With a valid fix and a GPS
    minute below 60, each line carries the UTC hour plus the zone's offset,
    plus the zone's DST offset if the zone observes DST, modulo 24, and the
    UTC minute; neither the date, nor the DST switch, nor the selected
    timezone enters. *)
Theorem switch_sketch_world_clock (h0 m0 : Z) (g : Gps.t)
        (s : TzDst.ClockState) :
  TzDst.gpsFixValid s = true ->
  0 <= Gps.minute g <= 59 ->
  TzDst.showWorldClock h0 m0 g s
  = Some (map (fun i =>
                 TzDst.mkWorldClockLine
                   (TzDst.abbreviation (TzDst.TIMEZONES_at i))
                   ((Gps.hour g
                     + TzDst.utcOffset (TzDst.TIMEZONES_at i)
                     + (if TzDst.observesDST (TzDst.TIMEZONES_at i)
                        then TzDst.dstOffset (TzDst.TIMEZONES_at i)
                        else 0)) mod 24)
                   (Gps.minute g)
                   (TzDst.name (TzDst.TIMEZONES_at i)))
              TzDst.timezoneIndices).
Proof.
  intros Hfix Hm. unfold TzDst.showWorldClock. rewrite Hfix. cbn [negb].
  apply f_equal. apply map_ext_in. intros i Hi.
  rewrite SwitchClockFacts.timezoneIndices_same in Hi.
  apply WorldClockFacts.timezoneIndices_in_table in Hi.
  rewrite SwitchClockFacts.convert_projected.
  rewrite ConvertFacts.convert_whole_minutes by assumption.
  unfold Props.offsetUsed. rewrite !SimulationFacts.table_projected.
  cbn [andb TzDst.utcOffset TzDst.observesDST TzDst.dstOffset
       Projection.timezone].
  f_equal. f_equal. lia.
Qed.

Lemma switch_sketch_world_clock_witness :
  option_map (map TzDst.line_localHour)
    (TzDst.showWorldClock 0 0 (Scenario.noon 15 1 24)
                          Scenario.manual_pacific)
  = Some [5; 6; 7; 8; 8; 2; 4; 12].
Proof.
  rewrite (switch_sketch_world_clock 0 0 (Scenario.noon 15 1 24)
             Scenario.manual_pacific eq_refl).
  - reflexivity.
  - cbn. lia.
Defined.

(** ** The original sketch *)

Module OriginalDisplayFacts.
Import Original.

(** The calls of one pass, with the 12-hour correction written as the
    later sketches write it. *)
Lemma loop_calls offset g pin :
  loop offset g pin
  = [Print (AutoTz.convertTo12Hour (localHours offset g pin) * 100
            + Gps.minute g);
     DrawColon (Z.rem (Gps.seconds g) 2 =? 0);
     WriteDisplay].
Proof.
  unfold loop. cbv zeta. cbn [negb andb TIME_24_HOUR app].
  rewrite DisplayFacts.convertTo12Hour_cases, Z.gtb_ltb.
  set (h := localHours offset g pin).
  destruct (Z.ltb_spec 12 h), (Z.eqb_spec h 0);
    try lia; f_equal; f_equal; lia.
Qed.

End OriginalDisplayFacts.

(** X26: the original sketch corrects the displayed integer by 1200 where
    the later sketches convert the hour: for every offset, GPS content and
    DST pin level, one pass prints the 12-hour value of its local hour
    times 100 plus the minutes, draws the colon on even seconds, and writes
    the display. *)
Theorem original_display_is_twelve_hour (offset : Z) (g : Gps.t)
        (pin : Level) :
  Original.loop offset g pin
  = [Print (AutoTz.convertTo12Hour (Original.localHours offset g pin) * 100
            + Gps.minute g);
     DrawColon (Z.even (Gps.seconds g));
     WriteDisplay].
Proof.
  rewrite OriginalDisplayFacts.loop_calls, <- Zeven_rem. reflexivity.
Qed.

(** X27: the two conditionals of the original sketch and the two loops of
    the later sketches give the same hour exactly for sums between -24 and
    24. *)
Theorem wrapHours_matches_normalizeHours (x : Z) :
  Original.wrapHours x = AutoTz.normalizeHours x <-> -24 <= x <= 24.
Proof.
  rewrite NormalizeFacts.normalizeHours_mod.
  pose proof (Z.mod_pos_bound x 24 eq_refl) as Hm.
  split.
  - intros E.
    destruct (Z_le_dec 25 x) as [Hbig|Hbig].
    + destruct (OriginalFacts.wrapHours_above_24 x Hbig) as (_ & Hneg). lia.
    + destruct (Z_lt_dec x (-24)) as [Hlow|Hlow]; [|lia].
      exfalso. unfold Original.wrapHours in E.
      destruct (Z.ltb_spec x 0); [|lia].
      rewrite Z.gtb_ltb in E.
      destruct (Z.ltb_spec 23 (24 + x)); lia.
  - apply OriginalFacts.wrapHours_upto_24.
Qed.

Lemma wrapHours_matches_normalizeHours_witness :
  Original.wrapHours (-8) = AutoTz.normalizeHours (-8).
Proof.
  apply wrapHours_matches_normalizeHours. lia.
Defined.

(** X28: as shipped (offset -8), the original sketch shows what the
    auto-timezone sketch shows for Pacific Standard.  For a GPS hour in
    0..23, one pass of the original sketch makes the display calls that
    [updateDisplay] makes after [updateTimeFromGPS] in a state with index 0
    and the DST flag set exactly when the original's DST pin reads HIGH. *)
Theorem original_shows_pacific_time (g : Gps.t) (pin : Level)
        (s : AutoTz.ClockState) :
  0 <= Gps.hour g <= 23 ->
  AutoTz.currentTimezoneIndex s = 0 ->
  AutoTz.isDSTActive s = negb (isLOW pin) ->
  Original.loop Original.HOUR_OFFSET_shipped g pin
  = AutoTz.renderTime (AutoTz.updateTimeFromGPS g s).
Proof.
  intros Hh Hi Hd.
  rewrite OriginalDisplayFacts.loop_calls.
  unfold AutoTz.renderTime. cbv zeta.
  cbn [negb andb AutoTz.TIME_24_HOUR app].
  rewrite ComposeFacts.updateTimeFromGPS_hours.
  cbn [AutoTz.minutes AutoTz.seconds AutoTz.updateTimeFromGPS
       AutoTz.set_seconds AutoTz.set_minutes AutoTz.set_hours].
  assert (E : Original.localHours Original.HOUR_OFFSET_shipped g pin
              = (Gps.hour g + AutoTz.calculateTimezoneOffset s) mod 24).
  { unfold Original.localHours, Original.timeZone,
      Original.HOUR_OFFSET_shipped.
    assert (Hp : 0 <= Original.isDST pin <= 1) by (destruct pin; cbn; lia).
    rewrite OriginalFacts.wrapHours_upto_24 by lia.
    f_equal.
    unfold AutoTz.calculateTimezoneOffset, AutoTz.getTimezoneOffset,
      AutoTz.getDSTOffset, AutoTz.getCurrentTimezone.
    rewrite Hi, Hd. ComposeFacts.read_table.
    destruct pin; cbn; lia. }
  rewrite E. reflexivity.
Qed.

Lemma original_shows_pacific_time_witness :
  Original.loop Original.HOUR_OFFSET_shipped Scenario.afternoon HIGH
  = [Print 730; DrawColon false; WriteDisplay].
Proof.
  rewrite (original_shows_pacific_time Scenario.afternoon HIGH
             (AutoTz.set_isDSTActive true AutoTz.clockState0)).
  - reflexivity.
  - cbn. lia.
  - reflexivity.
  - reflexivity.
Defined.
